(** * GuardChain AI service: scoring engines

    A shallow embedding of the three scoring pipelines of the
    [ai-service] package:

    - [services/fraud_detection_service.py]  (module [Fraud]),
    - [services/document_validator.py]       (module [Validator]),
    - [services/image_analysis_service.py]   (modules [ImageAnalysis]
      and [Damage]),

    of the services around them:

    - [services/ocr_service.py]              (module [Ocr]),
    - [utils/auth.py]                        (module [Auth]),
    - [main.py], [models/analysis_models.py] (module [Api]),

    together with the fragment of the Python runtime they rely on
    (modules [Py] and [PyExt]: dynamic values, insertion-ordered
    dictionaries, exceptions, [str] methods, [datetime], [round],
    [sorted]) and of the [re] module (module [Re]: a backtracking
    matcher for the pattern language the services use).

    The definitions come first; the properties follow in the modules
    [PyFacts], [ReSpec], [FraudSpec], [ValidatorSpec], [AmountsSpec],
    [ImageSpec], [FraudReportSpec], [ValidationSpec], [ImageScoreSpec],
    [DamageSpec], [OcrSpec], [AuthSpec] and [ApiSpec].

    Conventions of the embedding.
    - Python [float] and [int] scores are exact rationals ([Q]).
    - A [str] is a Rocq [string]; character classes ([\d], [\s], [\w],
      [str.isupper], ...) are those of Python on ASCII code points.
    - A call that may raise returns a [Py.result]; [try/except] is a
      [match] on it.
    - [async def] functions are awaited immediately by their callers, so
      they are modelled as ordinary functions. *)

From Stdlib Require Import String Ascii List ZArith QArith Qminmax Qround Bool Lia Lqa.
From Stdlib Require Import Sorted Permutation.
Import ListNotations.

#[local] Set Warnings "-register-all".
Local Open Scope list_scope.
Local Open Scope string_scope.

(* ===================================================================== *)
(** * The Python runtime fragment *)
(* ===================================================================== *)

Module Py.

(** ** Exceptions *)

(** An exception object; [str(e)] is [exn_msg]. *)
Record exn := mkExn { exn_type : string; exn_msg : string }.

Inductive result (A : Type) : Type :=
| Ok (a : A)
| Raise (e : exn).
Arguments Ok {A} a.
Arguments Raise {A} e.

Definition bind {A B : Type} (c : result A) (f : A -> result B) : result B :=
  match c with
  | Ok a => f a
  | Raise e => Raise e
  end.

Notation "x <- c ;; k" := (bind c (fun x => k))
  (at level 61, c at next level, right associativity).

(** [except (T1, T2):] catches [e] when its class is listed. *)
Definition caught_by (classes : list string) (e : exn) : bool :=
  existsb (String.eqb (exn_type e)) classes.

(** [l.append(x)] and [l.extend(l')], as new lists. *)
Definition append {A : Type} (l : list A) (x : A) : list A := (l ++ [x])%list.
Definition extend {A : Type} (l l' : list A) : list A := (l ++ l')%list.

(** [for x in l: ...] with a body that may raise. *)
Fixpoint for_each {A S : Type} (l : list A) (body : S -> A -> result S) (s : S)
  : result S :=
  match l with
  | [] => Ok s
  | x :: l' => s' <- body s x ;; for_each l' body s'
  end.

Definition TypeError (msg : string) : exn := mkExn "TypeError" msg.
Definition ValueError (msg : string) : exn := mkExn "ValueError" msg.
Definition KeyError (key : string) : exn := mkExn "KeyError" ("'" ++ key ++ "'").

(** ** Dynamic values and dictionaries *)

Inductive pyval : Type :=
| VNone
| VBool (b : bool)
| VInt (z : Z)
| VFloat (q : Q)
| VStr (s : string)
| VList (l : list pyval)
| VDict (d : list (string * pyval)).

(** A [dict] keeps its keys in insertion order. *)
Definition dict : Type := list (string * pyval).

Fixpoint dict_get (k : string) (d : dict) : option pyval :=
  match d with
  | [] => None
  | (k', v) :: d' => if String.eqb k k' then Some v else dict_get k d'
  end.

(** [d[k] = v]: overwrite in place, or append a new key. *)
Fixpoint dict_set (k : string) (v : pyval) (d : dict) : dict :=
  match d with
  | [] => [(k, v)]
  | (k', v') :: d' =>
      if String.eqb k k' then (k', v) :: d' else (k', v') :: dict_set k v d'
  end.

(** [d.update(extra)], also [{**d, **extra}]. *)
Definition dict_update (d extra : dict) : dict :=
  fold_left (fun acc kv => dict_set (fst kv) (snd kv) acc) extra d.

(** [d[k]], raising [KeyError]. *)
Definition dict_item (k : string) (d : dict) : result pyval :=
  match dict_get k d with
  | Some v => Ok v
  | None => Raise (KeyError k)
  end.

Definition VStrs (l : list string) : pyval := VList (map VStr l).
Definition VNat (n : nat) : pyval := VInt (Z.of_nat n).

(** Numeric view of a value, as arithmetic and comparisons see it. *)
Definition as_num (v : pyval) : option Q :=
  match v with
  | VInt z => Some (inject_Z z)
  | VFloat q => Some q
  | VBool b => Some (if b then 1%Q else 0%Q)
  | _ => None
  end.

(** Truth value of an object, as [if v:] and [not v] see it. *)
Definition truthy (v : pyval) : bool :=
  match v with
  | VNone => false
  | VBool b => b
  | VInt z => negb (z =? 0)%Z
  | VFloat q => negb (Qeq_bool q 0)
  | VStr s => negb (String.eqb s "")
  | VList l => match l with [] => false | _ => true end
  | VDict d => match d with [] => false | _ => true end
  end.

(** [d.get(k, default)] used as a number. *)
Definition get_num (d : dict) (k : string) (default : Q) : result Q :=
  match dict_get k d with
  | None => Ok default
  | Some v =>
      match as_num v with
      | Some q => Ok q
      | None => Raise (TypeError "unsupported operand type(s)")
      end
  end.

Fixpoint as_strs (l : list pyval) : option (list string) :=
  match l with
  | [] => Some []
  | VStr s :: l' => option_map (cons s) (as_strs l')
  | _ => None
  end.

(** [d.get(k, [])] used as a list of strings. *)
Definition get_strs (d : dict) (k : string) : result (list string) :=
  match dict_get k d with
  | None => Ok []
  | Some (VList l) =>
      match as_strs l with
      | Some ss => Ok ss
      | None => Raise (TypeError "sequence item: expected str instance")
      end
  | Some _ => Raise (TypeError "can only join an iterable")
  end.

Fixpoint as_nums (l : list pyval) : option (list Q) :=
  match l with
  | [] => Some []
  | v :: l' =>
      match as_num v, as_nums l' with
      | Some q, Some qs => Some (q :: qs)
      | _, _ => None
      end
  end.

(** [d.get(k, [])] used as a list of numbers. *)
Definition get_nums (d : dict) (k : string) : result (list Q) :=
  match dict_get k d with
  | None => Ok []
  | Some (VList l) =>
      match as_nums l with
      | Some qs => Ok qs
      | None => Raise (TypeError "unsupported operand type(s)")
      end
  | Some _ => Raise (TypeError "object is not iterable")
  end.

(** [len(v)] *)
Definition pylen (v : pyval) : result nat :=
  match v with
  | VList l => Ok (List.length l)
  | VStr s => Ok (String.length s)
  | VDict d => Ok (List.length d)
  | _ => Raise (TypeError "object has no len()")
  end.

(** ** Numbers *)

(** Built-in [min(a, b)] and [max(a, b)]: the first argument wins ties. *)
Definition pymin (a b : Q) : Q := if Qlt_le_dec b a then b else a.
Definition pymax (a b : Q) : Q := if Qlt_le_dec a b then b else a.

Definition Qltb (a b : Q) : bool := negb (Qle_bool b a).
Definition Qgtb (a b : Q) : bool := Qltb b a.
Definition Qgeb (a b : Q) : bool := Qle_bool b a.

Definition Qabs' (q : Q) : Q := if Qlt_le_dec q 0 then Qopp q else q.

Definition Qof_nat (n : nat) : Q := inject_Z (Z.of_nat n).

(** [max(l)] and [min(l)] on a non-empty list of numbers. *)
Definition list_max (x : Q) (l : list Q) : Q := fold_left pymax l x.
Definition list_min (x : Q) (l : list Q) : Q := fold_left pymin l x.

(** ** Characters *)

Definition code (c : ascii) : nat := nat_of_ascii c.

Definition in_range (lo hi : nat) (c : ascii) : bool :=
  (lo <=? code c)%nat && (code c <=? hi)%nat.

(** [c.isspace()]: tab to carriage return, the four separators, space. *)
Definition is_space (c : ascii) : bool :=
  in_range 9 13 c || in_range 28 32 c.
Definition is_digit (c : ascii) : bool := in_range 48 57 c.
Definition is_upper (c : ascii) : bool := in_range 65 90 c.
Definition is_lower (c : ascii) : bool := in_range 97 122 c.
Definition is_alpha (c : ascii) : bool := is_upper c || is_lower c.
Definition is_alnum (c : ascii) : bool := is_alpha c || is_digit c.
(** The class [\w]. *)
Definition is_word (c : ascii) : bool := is_alnum c || (code c =? 95)%nat.

Definition lower_char (c : ascii) : ascii :=
  if is_upper c then ascii_of_nat (code c + 32) else c.
Definition upper_char (c : ascii) : ascii :=
  if is_lower c then ascii_of_nat (code c - 32) else c.

(** ** Strings *)

Definition chars (s : string) : list ascii := list_ascii_of_string s.
Definition str (l : list ascii) : string := string_of_list_ascii l.

Definition len (s : string) : nat := String.length s.

(** [s.lower()] *)
Definition lower (s : string) : string := str (map lower_char (chars s)).

Fixpoint starts_with (p l : list ascii) : bool :=
  match p, l with
  | [], _ => true
  | a :: p', b :: l' => Ascii.eqb a b && starts_with p' l'
  | _ :: _, [] => false
  end.

Fixpoint contains_chars (p l : list ascii) : bool :=
  starts_with p l ||
  match l with
  | [] => false
  | _ :: l' => contains_chars p l'
  end.

(** [sub in s] *)
Definition contains (sub s : string) : bool :=
  contains_chars (chars sub) (chars s).

(** [any(k in s for k in keys)] *)
Definition any_in (keys : list string) (s : string) : bool :=
  existsb (fun k => contains k s) keys.

(** [s.endswith(p)] *)
Definition endswith (s p : string) : bool :=
  starts_with (rev (chars p)) (rev (chars s)).

(** [s.split()]: maximal runs of non-whitespace characters.  [cur] is
    the current word, reversed. *)
Fixpoint split_ws_aux (l : list ascii) (cur : list ascii) : list string :=
  match l with
  | [] => match cur with [] => [] | _ => [str (rev cur)] end
  | c :: l' =>
      if is_space c then
        match cur with
        | [] => split_ws_aux l' []
        | _ => str (rev cur) :: split_ws_aux l' []
        end
      else split_ws_aux l' (c :: cur)
  end.

Definition split_ws (s : string) : list string := split_ws_aux (chars s) [].

(** [s.split(sep)] for a one-character separator. *)
Fixpoint split_on_aux (sep : ascii) (l : list ascii) (cur : list ascii)
  : list string :=
  match l with
  | [] => [str (rev cur)]
  | c :: l' =>
      if Ascii.eqb c sep then str (rev cur) :: split_on_aux sep l' []
      else split_on_aux sep l' (c :: cur)
  end.

Definition split_on (sep : ascii) (s : string) : list string :=
  split_on_aux sep (chars s) [].

Fixpoint drop_space (l : list ascii) : list ascii :=
  match l with
  | c :: l' => if is_space c then drop_space l' else l
  | [] => []
  end.

(** [s.lstrip()] and [s.strip()] *)
Definition lstrip (s : string) : string := str (drop_space (chars s)).
Definition strip (s : string) : string :=
  str (rev (drop_space (rev (drop_space (chars s))))).

(** [sep.join(l)] *)
Fixpoint join (sep : string) (l : list string) : string :=
  match l with
  | [] => ""
  | [x] => x
  | x :: l' => x ++ sep ++ join sep l'
  end.

(** [sum(1 for c in s if p(c))] *)
Definition count_chars (p : ascii -> bool) (s : string) : nat :=
  List.length (filter p (chars s)).

(** ** Conversions *)

Definition digit_val (c : ascii) : Z := Z.of_nat (code c - 48).

Definition all_digits (l : list ascii) : bool :=
  match l with [] => false | _ => forallb is_digit l end.

Definition digits_val (l : list ascii) : Z :=
  fold_left (fun acc c => (10 * acc + digit_val c)%Z) l 0%Z.

(** [int(s)] on the digit strings the services pass to it. *)
Definition int (s : string) : result Z :=
  if all_digits (chars s) then Ok (digits_val (chars s))
  else Raise (ValueError ("invalid literal for int() with base 10: '" ++ s ++ "'")).

Fixpoint pow10 (n : nat) : positive :=
  match n with O => 1%positive | S n' => (10 * pow10 n')%positive end.

(** [float(s)] on strings of digits with at most one decimal point. *)
Definition float (s : string) : result Q :=
  match split_on "." s with
  | [i] =>
      if all_digits (chars i) then Ok (inject_Z (digits_val (chars i)))
      else Raise (ValueError ("could not convert string to float: '" ++ s ++ "'"))
  | [i; f] =>
      if forallb is_digit (chars i) && forallb is_digit (chars f)
         && negb ((len i =? 0)%nat && (len f =? 0)%nat)
      then Ok (Qred (Qmake (digits_val (chars i ++ chars f)%list) (pow10 (len f))))
      else Raise (ValueError ("could not convert string to float: '" ++ s ++ "'"))
  | _ => Raise (ValueError ("could not convert string to float: '" ++ s ++ "'"))
  end.

Definition digit_char (z : Z) : ascii := ascii_of_nat (48 + Z.to_nat z).

Fixpoint nat_digits (fuel : nat) (n : Z) (acc : list ascii) : list ascii :=
  match fuel with
  | O => acc
  | S fuel' =>
      let acc' := digit_char (n mod 10) :: acc in
      if (n <? 10)%Z then acc' else nat_digits fuel' (n / 10) acc'
  end.

(** [str(n)] for an [int]. *)
Definition str_of_Z (z : Z) : string :=
  if (z <? 0)%Z then "-" ++ str (nat_digits (S (Z.to_nat (- z))) (- z) [])
  else str (nat_digits (S (Z.to_nat z)) z []).

Definition str_of_nat (n : nat) : string := str_of_Z (Z.of_nat n).

(** [repr] of a list of plain strings, as an f-string prints it. *)
Definition repr_strs (l : list string) : string :=
  "[" ++ join ", " (map (fun s => "'" ++ s ++ "'") l) ++ "]".

(** [list(set(l))] up to order: the distinct elements. *)
Definition distinct (l : list string) : list string := nodup string_dec l.

(** ** datetime *)

Definition is_leap (y : Z) : bool :=
  ((y mod 4 =? 0) && (negb (y mod 100 =? 0) || (y mod 400 =? 0)))%Z.

Definition days_in_month (y m : Z) : Z :=
  if (m =? 2)%Z then (if is_leap y then 29 else 28)%Z
  else if ((m =? 4) || (m =? 6) || (m =? 9) || (m =? 11))%Z then 30%Z
  else 31%Z.

Fixpoint days_before_month (y : Z) (m : nat) : Z :=
  match m with
  | O => 0%Z
  | S m' => (days_before_month y m' + days_in_month y (Z.of_nat m))%Z
  end.

(** A [datetime]: proleptic Gregorian ordinal of the day, and the
    microsecond within the day. *)
Record datetime := mkDatetime { dt_ordinal : Z; dt_micro : Z }.

(** [datetime(year, month, day)] *)
Definition mk_date (y m d : Z) : result datetime :=
  if negb ((1 <=? y) && (y <=? 9999))%Z then
    Raise (ValueError ("year " ++ str_of_Z y ++ " is out of range"))
  else if negb ((1 <=? m) && (m <=? 12))%Z then
    Raise (ValueError "month must be in 1..12")
  else if negb ((1 <=? d) && (d <=? days_in_month y m))%Z then
    Raise (ValueError "day is out of range for month")
  else
    let y' := (y - 1)%Z in
    Ok (mkDatetime
          (y' * 365 + y' / 4 - y' / 100 + y' / 400
           + days_before_month y (Z.to_nat (m - 1)) + d)%Z 0%Z).

(** [a > b] on [datetime]s. *)
Definition dt_gtb (a b : datetime) : bool :=
  (dt_ordinal b <? dt_ordinal a)%Z
  || ((dt_ordinal a =? dt_ordinal b)%Z && (dt_micro b <? dt_micro a)%Z).

(** [a + timedelta(days=n)] *)
Definition dt_add_days (a : datetime) (n : Z) : datetime :=
  mkDatetime (dt_ordinal a + n)%Z (dt_micro a).

Definition ord_max (x : Z) (l : list Z) : Z := fold_left Z.max l x.
Definition ord_min (x : Z) (l : list Z) : Z := fold_left Z.min l x.

(** [max(parsed_dates) - min(parsed_dates)] in days, for dates at
    midnight. *)
Definition date_range (parsed : list datetime) : Z :=
  match map dt_ordinal parsed with
  | [] => 0%Z
  | o :: os => (ord_max o os - ord_min o os)%Z
  end.

(** ** Reading a report *)

Definition num_at (k : string) (d : dict) : option Q :=
  match dict_get k d with
  | Some v => as_num v
  | None => None
  end.

Definition strs_at (k : string) (d : dict) : option (list string) :=
  match dict_get k d with
  | Some (VList l) => as_strs l
  | _ => None
  end.

Definition str_at (k : string) (d : dict) : option string :=
  match dict_get k d with
  | Some (VStr s) => Some s
  | _ => None
  end.

Definition bool_at (k : string) (d : dict) : option bool :=
  match dict_get k d with
  | Some (VBool b) => Some b
  | _ => None
  end.

End Py.

(* ===================================================================== *)
(** * The [re] module fragment *)
(* ===================================================================== *)

Module Re.
Import Py.

(** ** Pattern syntax *)

Inductive cset_item : Type :=
| CChar (c : ascii)
| CRange (lo hi : ascii)
| CDigit                       (* \d *)
| CSpace                       (* \s *)
| CWord.                       (* \w *)

Inductive regex : Type :=
| REmpty
| RChar (c : ascii)
| RAny                                         (* .  (no newline) *)
| RSet (neg : bool) (items : list cset_item)   (* [...] and [^...] *)
| RBoundary                                    (* \b *)
| RSeq (r1 r2 : regex)
| RAlt (r1 r2 : regex)
| RRepeat (r : regex) (lo : nat) (hi : option nat)   (* greedy *)
| RGroup (n : nat) (r : regex)                 (* n-th capturing group *)
| RBackref (n : nat).                          (* \n *)

(** ** Parsing a pattern string *)

Definition read_digit (c : ascii) : option nat :=
  if is_digit c then Some (code c - 48)%nat else None.

Fixpoint read_nat (l : list ascii) (acc : nat) : nat * list ascii :=
  match l with
  | c :: l' =>
      match read_digit c with
      | Some d => read_nat l' (10 * acc + d)%nat
      | None => (acc, l)
      end
  | [] => (acc, l)
  end.

Definition escape_item (c : ascii) : cset_item :=
  if Ascii.eqb c "d" then CDigit
  else if Ascii.eqb c "s" then CSpace
  else if Ascii.eqb c "w" then CWord
  else CChar c.

(** The items of a set, up to the closing bracket. *)
Fixpoint parse_set (l : list ascii) : option (list cset_item * list ascii) :=
  match l with
  | [] => None
  | "]"%char :: l' => Some ([], l')
  | "\"%char :: c :: l' =>
      match parse_set l' with
      | Some (items, r) => Some (escape_item c :: items, r)
      | None => None
      end
  | c :: l' =>
      match l' with
      | "-"%char :: d :: l'' =>
          if Ascii.eqb d "]" then
            match parse_set l' with
            | Some (items, r) => Some (CChar c :: items, r)
            | None => None
            end
          else
            match parse_set l'' with
            | Some (items, r) => Some (CRange c d :: items, r)
            | None => None
            end
      | _ =>
          match parse_set l' with
          | Some (items, r) => Some (CChar c :: items, r)
          | None => None
          end
      end
  end.

(** A quantifier after an atom, if there is one. *)
Definition parse_quant (a : regex) (l : list ascii) : option (regex * list ascii) :=
  match l with
  | "*"%char :: l' => Some (RRepeat a 0 None, l')
  | "+"%char :: l' => Some (RRepeat a 1 None, l')
  | "?"%char :: l' => Some (RRepeat a 0 (Some 1%nat), l')
  | "{"%char :: l' =>
      let '(lo, l1) := read_nat l' 0 in
      match l1 with
      | "}"%char :: l2 => Some (RRepeat a lo (Some lo), l2)
      | ","%char :: "}"%char :: l2 => Some (RRepeat a lo None, l2)
      | ","%char :: l2 =>
          let '(hi, l3) := read_nat l2 0 in
          match l3 with
          | "}"%char :: l4 => Some (RRepeat a lo (Some hi), l4)
          | _ => None
          end
      | _ => None
      end
  | _ => Some (a, l)
  end.

Definition escape_atom (c : ascii) : regex :=
  if Ascii.eqb c "d" then RSet false [CDigit]
  else if Ascii.eqb c "s" then RSet false [CSpace]
  else if Ascii.eqb c "w" then RSet false [CWord]
  else if Ascii.eqb c "b" then RBoundary
  else match read_digit c with
       | Some n => RBackref n
       | None => RChar c
       end.

(** Recursive descent; [g] is the number of capturing groups opened so
    far.  Every call consumes fuel, and [compile] provides enough. *)
Fixpoint parse_alt (fuel g : nat) (l : list ascii) {struct fuel}
  : option (regex * nat * list ascii) :=
  match fuel with
  | O => None
  | S f =>
      match parse_seq f g l with
      | Some (r1, g1, "|"%char :: l1) =>
          match parse_alt f g1 l1 with
          | Some (r2, g2, l2) => Some (RAlt r1 r2, g2, l2)
          | None => None
          end
      | other => other
      end
  end
with parse_seq (fuel g : nat) (l : list ascii) {struct fuel}
  : option (regex * nat * list ascii) :=
  match fuel with
  | O => None
  | S f =>
      match l with
      | [] => Some (REmpty, g, l)
      | "|"%char :: _ => Some (REmpty, g, l)
      | ")"%char :: _ => Some (REmpty, g, l)
      | _ =>
          match parse_atom f g l with
          | Some (a, g1, l1) =>
              match parse_quant a l1 with
              | Some (a', l2) =>
                  match parse_seq f g1 l2 with
                  | Some (REmpty, g2, l3) => Some (a', g2, l3)
                  | Some (r, g2, l3) => Some (RSeq a' r, g2, l3)
                  | None => None
                  end
              | None => None
              end
          | None => None
          end
      end
  end
with parse_atom (fuel g : nat) (l : list ascii) {struct fuel}
  : option (regex * nat * list ascii) :=
  match fuel with
  | O => None
  | S f =>
      match l with
      | [] => None
      | "("%char :: "?"%char :: ":"%char :: l' =>
          match parse_alt f g l' with
          | Some (r, g1, ")"%char :: l1) => Some (r, g1, l1)
          | _ => None
          end
      | "("%char :: l' =>
          match parse_alt f (S g) l' with
          | Some (r, g1, ")"%char :: l1) => Some (RGroup (S g) r, g1, l1)
          | _ => None
          end
      | "["%char :: "^"%char :: l' =>
          match parse_set l' with
          | Some (items, l1) => Some (RSet true items, g, l1)
          | None => None
          end
      | "["%char :: l' =>
          match parse_set l' with
          | Some (items, l1) => Some (RSet false items, g, l1)
          | None => None
          end
      | "\"%char :: c :: l' => Some (escape_atom c, g, l')
      | "."%char :: l' => Some (RAny, g, l')
      | c :: l' => Some (RChar c, g, l')
      end
  end.

(** [re.compile(p)]: the pattern and its number of groups. *)
Definition compile (p : string) : option (regex * nat) :=
  match parse_alt (3 * len p + 3) 0 (chars p) with
  | Some (r, g, []) => Some (r, g)
  | _ => None
  end.

(** A pattern that does not compile matches nothing; every pattern of
    the services compiles (see [ReSpec.service_patterns_compile]). *)
Definition pattern (p : string) : regex * nat :=
  match compile p with
  | Some c => c
  | None => (RSet false [], 0%nat)
  end.

(** ** Matching *)

Definition item_matches (it : cset_item) (c : ascii) : bool :=
  match it with
  | CChar x => Ascii.eqb x c
  | CRange lo hi => in_range (code lo) (code hi) c
  | CDigit => is_digit c
  | CSpace => is_space c
  | CWord => is_word c
  end.

(** [ic] is the flag [re.IGNORECASE]. *)
Definition set_matches (ic neg : bool) (items : list cset_item) (c : ascii) : bool :=
  xorb neg
    (existsb (fun it =>
        item_matches it c
        || (ic && (item_matches it (lower_char c) || item_matches it (upper_char c))))
      items).

Definition char_matches (ic : bool) (x c : ascii) : bool :=
  Ascii.eqb x c || (ic && Ascii.eqb (lower_char x) (lower_char c)).

(** The matcher's position: the character before it, the text after it,
    and the groups captured so far. *)
Record mstate := mkState {
  prev : option ascii;
  rest : list ascii;
  caps : list (nat * list ascii)
}.

Definition word_before (s : mstate) : bool :=
  match prev s with Some c => is_word c | None => false end.
Definition word_after (s : mstate) : bool :=
  match rest s with c :: _ => is_word c | [] => false end.

Fixpoint get_cap (n : nat) (cs : list (nat * list ascii)) : option (list ascii) :=
  match cs with
  | [] => None
  | (m, t) :: cs' => if (n =? m)%nat then Some t else get_cap n cs'
  end.

(** What was consumed between two positions of one text. *)
Definition consumed (s s1 : mstate) : list ascii :=
  firstn (List.length (rest s) - List.length (rest s1)) (rest s).

Fixpoint eat (ic : bool) (p : list ascii) (s : mstate) : option mstate :=
  match p with
  | [] => Some s
  | x :: p' =>
      match rest s with
      | c :: t =>
          if char_matches ic x c then eat ic p' (mkState (Some c) t (caps s))
          else None
      | [] => None
      end
  end.

(** Backtracking match of [r] at [s], continuing with [k]: alternatives
    are tried left to right and repetitions are greedy, as in [re].  A
    repetition stops after an iteration that consumes nothing. *)
Fixpoint run (ic : bool) (r : regex) (s : mstate)
  (k : mstate -> option mstate) {struct r} : option mstate :=
  match r with
  | REmpty => k s
  | RChar x =>
      match rest s with
      | c :: t => if char_matches ic x c then k (mkState (Some c) t (caps s)) else None
      | [] => None
      end
  | RAny =>
      match rest s with
      | c :: t => if Ascii.eqb c "010" then None else k (mkState (Some c) t (caps s))
      | [] => None
      end
  | RSet neg items =>
      match rest s with
      | c :: t => if set_matches ic neg items c then k (mkState (Some c) t (caps s)) else None
      | [] => None
      end
  | RBoundary => if xorb (word_before s) (word_after s) then k s else None
  | RSeq r1 r2 => run ic r1 s (fun s1 => run ic r2 s1 k)
  | RAlt r1 r2 =>
      match run ic r1 s k with
      | Some e => Some e
      | None => run ic r2 s k
      end
  | RRepeat r1 lo hi =>
      (fix loop (fuel count : nat) (s0 : mstate) {struct fuel} : option mstate :=
         let stop := if (lo <=? count)%nat then k s0 else None in
         match fuel with
         | O => stop
         | S fuel' =>
             let more := match hi with Some h => (count <? h)%nat | None => true end in
             if more then
               match run ic r1 s0 (fun s1 =>
                        if (List.length (rest s1) <? List.length (rest s0))%nat
                        then loop fuel' (S count) s1
                        else if (lo <=? S count)%nat then k s1 else None) with
               | Some e => Some e
               | None => stop
               end
             else stop
         end) (S (List.length (rest s))) 0%nat s
  | RGroup n r1 =>
      run ic r1 s (fun s1 =>
        k (mkState (prev s1) (rest s1) ((n, consumed s s1) :: caps s1)))
  | RBackref n =>
      match get_cap n (caps s) with
      | Some t => match eat ic t s with Some s1 => k s1 | None => None end
      | None => None
      end
  end.

(** A match object. *)
Record rmatch := mkMatch {
  m_text : string;                        (* m.group()  *)
  m_caps : list (nat * list ascii);
  m_ngroups : nat                         (* len(m.groups()) *)
}.

(** [m.group(n)] for a group that took part in the match. *)
Definition group (m : rmatch) (n : nat) : string :=
  match get_cap n (m_caps m) with
  | Some t => str t
  | None => ""
  end.

Definition match_at (ic : bool) (c : regex * nat) (p : option ascii) (l : list ascii)
  : option (rmatch * nat) :=
  let s := mkState p l [] in
  match run ic (fst c) s (fun e => Some e) with
  | Some e => Some (mkMatch (str (consumed s e)) (caps e) (snd c),
                    List.length (consumed s e))
  | None => None
  end.

(** Leftmost match. *)
Fixpoint search_from (ic : bool) (c : regex * nat) (p : option ascii) (l : list ascii)
  : option rmatch :=
  match match_at ic c p l with
  | Some (m, _) => Some m
  | None =>
      match l with
      | [] => None
      | x :: l' => search_from ic c (Some x) l'
      end
  end.

(** All non-overlapping matches, left to right; [skip] counts the
    characters still inside the previous match. *)
Fixpoint matches_from (ic : bool) (c : regex * nat) (p : option ascii) (l : list ascii)
  (skip : nat) : list rmatch :=
  match skip with
  | S skip' =>
      match l with
      | [] => []
      | x :: l' => matches_from ic c (Some x) l' skip'
      end
  | O =>
      match match_at ic c p l with
      | Some (m, n) =>
          m :: match l with
               | [] => []
               | x :: l' => matches_from ic c (Some x) l' (n - 1)
               end
      | None =>
          match l with
          | [] => []
          | x :: l' => matches_from ic c (Some x) l' 0
          end
      end
  end.

(** [re.search(p, text)] and [re.search(p, text, re.IGNORECASE)] *)
Definition search (p : string) (ic : bool) (text : string) : option rmatch :=
  search_from ic (pattern p) None (chars text).

(** [bool(re.search(...))] *)
Definition found (p : string) (ic : bool) (text : string) : bool :=
  match search p ic text with Some _ => true | None => false end.

(** [re.findall(p, text)] for a pattern with at most one group: the
    list of whole matches, or of the group's text. *)
Definition findall (p : string) (text : string) : list string :=
  map (fun m => match m_ngroups m with O => m_text m | S _ => group m 1 end)
      (matches_from false (pattern p) None (chars text) 0).

(** [re.sub(p, repl, text)] *)
Fixpoint sub_from (c : regex * nat) (repl : list ascii) (p : option ascii)
  (l : list ascii) (skip : nat) : list ascii :=
  match skip with
  | S skip' =>
      match l with
      | [] => []
      | x :: l' => sub_from c repl (Some x) l' skip'
      end
  | O =>
      match match_at false c p l with
      | Some (_, n) =>
          (repl ++
           match l with
           | [] => []
           | x :: l' =>
               match n with
               | O => x :: sub_from c repl (Some x) l' 0
               | S n' => sub_from c repl (Some x) l' n'
               end
           end)%list
      | None =>
          match l with
          | [] => []
          | x :: l' => x :: sub_from c repl (Some x) l' 0
          end
      end
  end.

Definition sub (p repl text : string) : string :=
  str (sub_from (pattern p) (chars repl) None (chars text) 0).

End Re.

(* ===================================================================== *)
(** * services/fraud_detection_service.py *)
(* ===================================================================== *)

Module Fraud.
Import Py.

(** ** Configuration ([FraudDetectionService.__init__]) *)

Definition fraud_keywords : list string :=
  [ "fake"; "forged"; "altered"; "modified"; "suspicious";
    "emergency"; "urgent"; "immediate"; "rush"; "asap";
    "cash only"; "no receipt"; "lost receipt"; "damaged receipt" ].

Module suspicious_patterns.
Definition round_numbers : string := "\b\d+00\.00\b".
Definition duplicate_amounts : string := "(\$\d+\.?\d*)".
Definition inconsistent_dates : string := "\d{1,2}/\d{1,2}/\d{4}".
Definition missing_info : list string := [ "N/A"; "Unknown"; "TBD"; "--" ].
End suspicious_patterns.

Record thresholds := mkThresholds { low : Q; high : Q; avg : Q }.

Definition amount_thresholds : list (string * thresholds) :=
  [ ("health", mkThresholds 100 50000 2500);
    ("vehicle", mkThresholds 500 100000 5000);
    ("travel", mkThresholds 50 10000 800);
    ("product_warranty", mkThresholds 20 5000 300);
    ("pet", mkThresholds 100 15000 1200);
    ("agricultural", mkThresholds 1000 500000 25000) ].

Fixpoint thresholds_get (k : string) (t : list (string * thresholds))
  : option thresholds :=
  match t with
  | [] => None
  | (k', v) :: t' => if String.eqb k k' then Some v else thresholds_get k t'
  end.

(** [self.amount_thresholds.get(claim_type, self.amount_thresholds["health"])] *)
Definition thresholds_for (claim_type : string) : thresholds :=
  match thresholds_get claim_type amount_thresholds with
  | Some t => t
  | None => mkThresholds 100 50000 2500
  end.

(** ** [_extract_text_features] *)

(** The keywords of [fraud_keywords] that occur in the lower-cased text,
    in table order: the loop's [detected_keywords]. *)
Definition detected_keywords (text : string) : list string :=
  filter (fun keyword => contains keyword (lower text)) fraud_keywords.

Definition fraud_keyword_count (text : string) : nat :=
  List.length (detected_keywords text).

Definition word_count (text : string) : nat := List.length (split_ws text).

Definition is_punct (c : ascii) : bool :=
  existsb (Ascii.eqb c) (chars "!@#$%^&*()").

Definition _extract_text_features (text : option string) : result dict :=
  match text with
  | None => Raise (TypeError "object of type 'NoneType' has no len()")
  | Some text =>
      let features := [] in
      let features := dict_set "text_length" (VNat (len text)) features in
      let features := dict_set "word_count" (VNat (word_count text)) features in
      let features :=
        dict_set "sentence_count" (VNat (List.length (split_on "." text))) features in
      let features :=
        dict_set "fraud_keyword_count" (VNat (fraud_keyword_count text)) features in
      let features :=
        dict_set "fraud_keyword_ratio"
          (VFloat (Qof_nat (fraud_keyword_count text)
                   / Qof_nat (Nat.max (word_count text) 1))) features in
      let features :=
        dict_set "detected_fraud_keywords" (VStrs (detected_keywords text)) features in
      let features :=
        dict_set "uppercase_ratio"
          (VFloat (Qof_nat (count_chars is_upper text)
                   / Qof_nat (Nat.max (len text) 1))) features in
      let features :=
        dict_set "punctuation_ratio"
          (VFloat (Qof_nat (count_chars is_punct text)
                   / Qof_nat (Nat.max (len text) 1))) features in
      let words := split_ws (lower text) in
      let unique_words := distinct words in
      let features :=
        dict_set "word_repetition_ratio"
          (VFloat (1 - Qof_nat (List.length unique_words)
                       / Qof_nat (Nat.max (List.length words) 1))) features in
      Ok features
  end.

(** ** [_analyze_amounts] *)

Definition amount_pattern : string := "\$?\s*\d{1,3}(?:,\d{3})*(?:\.\d{2})?".

(** [re.sub(r'[^\d.]', '', amount_str)] *)
Definition clean_amount (amount_str : string) : string :=
  Re.sub "[^\d.]" "" amount_str.

(** One turn of the loop over the matched substrings: the amount is kept
    only when its cleaned text is non-empty and has a decimal point; a
    [ValueError] of [float] skips it. *)
Definition amount_of_match (amount_str : string) : option Q :=
  let clean := clean_amount amount_str in
  if negb (len clean =? 0)%nat && contains "." clean then
    match float clean with
    | Ok q => Some q
    | Raise _ => None
    end
  else None.

Fixpoint keep_amounts (matches : list string) : list Q :=
  match matches with
  | [] => []
  | m :: matches' =>
      match amount_of_match m with
      | Some q => q :: keep_amounts matches'
      | None => keep_amounts matches'
      end
  end.

Definition extracted_amounts (text : string) : list Q :=
  keep_amounts (Re.findall amount_pattern text).

(** [amt % 100 == 0] *)
Definition multiple_of_100 (amt : Q) : bool :=
  (Qnum amt mod (100 * Zpos (Qden amt)) =? 0)%Z.

Definition is_round_amount (amt : Q) : bool :=
  multiple_of_100 amt && Qgtb amt 100.

Definition amount_anomaly_score (claim_type : string) (requested_amount : Q) : Q :=
  let thresholds := thresholds_for claim_type in
  if Qltb requested_amount (low thresholds) then 0.3
  else if Qgtb requested_amount (high thresholds) then 0.8
  else
    let range_position :=
      (requested_amount - low thresholds) / (high thresholds - low thresholds) in
    pymin 0.2 (Qabs' (range_position - 0.5)).

Definition _analyze_amounts (text : option string) (claim_type : string)
  (requested_amount : Q) : result dict :=
  match text with
  | None => Raise (TypeError "expected string or bytes-like object, got 'NoneType'")
  | Some text =>
      let features := [] in
      let amounts := extracted_amounts text in
      let features := dict_set "extracted_amounts" (VList (map VFloat amounts)) features in
      let features := dict_set "amount_count" (VNat (List.length amounts)) features in
      let features :=
        match amounts with
        | a :: amounts' =>
            let max_amount := list_max a amounts' in
            let features := dict_set "max_extracted_amount" (VFloat max_amount) features in
            let features :=
              dict_set "amount_consistency"
                (VFloat (Qabs' (max_amount - requested_amount)
                         / pymax requested_amount 1)) features in
            let round_amounts := filter is_round_amount amounts in
            dict_set "round_amount_ratio"
              (VFloat (Qof_nat (List.length round_amounts)
                       / Qof_nat (Nat.max (List.length amounts) 1))) features
        | [] =>
            let features := dict_set "max_extracted_amount" (VInt 0) features in
            let features := dict_set "amount_consistency" (VFloat 1.0) features in
            dict_set "round_amount_ratio" (VInt 0) features
        end in
      let features :=
        dict_set "amount_anomaly_score"
          (VFloat (amount_anomaly_score claim_type requested_amount)) features in
      Ok features
  end.

(** ** [_check_suspicious_patterns] *)

(** The loop that parses [month/day/year] strings into [datetime]s; a
    string with another number of parts is skipped, [int] and
    [datetime] may raise [ValueError]. *)
Definition parse_mdy (parsed : list datetime) (date_str : string)
  : result (list datetime) :=
  match split_on "/" date_str with
  | [p0; p1; p2] =>
      month <- int p0 ;;
      day <- int p1 ;;
      year <- int p2 ;;
      d <- mk_date year month day ;;
      Ok (append parsed d)
  | _ => Ok parsed
  end.

Definition has_duplicates (l : list string) : bool :=
  negb (List.length l =? List.length (distinct l))%nat.

Definition _check_suspicious_patterns (text : option string) : result dict :=
  match text with
  | None => Raise (TypeError "expected string or bytes-like object, got 'NoneType'")
  | Some text =>
      let features := [] in
      let suspicious_indicators := [] in
      (* round numbers *)
      let round_matches := Re.findall suspicious_patterns.round_numbers text in
      let suspicious_indicators :=
        match round_matches with
        | [] => suspicious_indicators
        | _ => append suspicious_indicators
                 ("Round number amounts: " ++ repr_strs round_matches)
        end in
      (* missing information *)
      let hits := filter (fun pattern => Re.found pattern true text)
                         suspicious_patterns.missing_info in
      let missing_info_count := List.length hits in
      let suspicious_indicators :=
        extend suspicious_indicators
          (map (fun pattern => "Missing information indicator: " ++ pattern) hits) in
      let features := dict_set "missing_info_count" (VNat missing_info_count) features in
      (* duplicate amounts *)
      let amounts := Re.findall suspicious_patterns.duplicate_amounts text in
      let suspicious_indicators :=
        if has_duplicates amounts && (1 <? List.length amounts)%nat
        then append suspicious_indicators "Duplicate amounts detected"
        else suspicious_indicators in
      (* date consistency *)
      let dates := Re.findall suspicious_patterns.inconsistent_dates text in
      suspicious_indicators <-
        (if (1 <? List.length dates)%nat then
           match for_each dates parse_mdy [] with
           | Ok parsed_dates =>
               match parsed_dates with
               | [] => Ok suspicious_indicators
               | _ =>
                   if (365 <? date_range parsed_dates)%Z
                   then Ok (append suspicious_indicators "Inconsistent dates detected")
                   else Ok suspicious_indicators
               end
           | Raise e =>
               if caught_by ["ValueError"; "IndexError"] e
               then Ok (append suspicious_indicators "Invalid date format detected")
               else Raise e
           end
         else Ok suspicious_indicators) ;;
      let features :=
        dict_set "suspicious_indicators" (VStrs suspicious_indicators) features in
      let features :=
        dict_set "suspicious_pattern_count"
          (VNat (List.length suspicious_indicators)) features in
      Ok features
  end.

(** ** [_analyze_consistency] and its per-category checks *)

Definition _check_health_consistency (text : string) : list string :=
  let text_lower := lower text in
  let issues := [] in
  let issues :=
    if contains "surgery" text_lower && contains "outpatient" text_lower then
      if negb (contains "minor" text_lower) && negb (contains "same day" text_lower)
      then append issues "Surgery and outpatient treatment may be inconsistent"
      else issues
    else issues in
  let issues :=
    if contains "emergency" text_lower && contains "routine" text_lower
    then append issues "Emergency and routine treatment mentioned together"
    else issues in
  let issues :=
    if contains "chronic" text_lower && contains "sudden" text_lower
    then append issues "Chronic and sudden condition mentioned together"
    else issues in
  issues.

Definition _check_vehicle_consistency (text : string) : list string :=
  let text_lower := lower text in
  let issues := [] in
  let issues :=
    if contains "minor damage" text_lower
       && any_in ["total loss"; "severe"; "major"] text_lower
    then append issues "Minor damage inconsistent with severity indicators"
    else issues in
  let issues :=
    if contains "low speed" text_lower && contains "extensive damage" text_lower
    then append issues "Low speed inconsistent with extensive damage"
    else issues in
  let issues :=
    if contains "parking lot" text_lower && contains "high speed" text_lower
    then append issues "High speed in parking lot seems inconsistent"
    else issues in
  issues.

Definition contradictions : list (list string * list string) :=
  [ (["new"; "brand new"], ["old"; "used"; "worn"]);
    (["expensive"; "costly"], ["cheap"; "inexpensive"]);
    (["working"; "functional"], ["broken"; "damaged"]) ].

Definition _check_general_consistency (text : string) : list string :=
  let text_lower := lower text in
  map (fun pn =>
         "Contradictory terms detected: " ++ repr_strs (fst pn)
         ++ " vs " ++ repr_strs (snd pn))
      (filter (fun pn => any_in (fst pn) text_lower && any_in (snd pn) text_lower)
              contradictions).

Definition _analyze_consistency (text : option string) (claim_type : string)
  : result dict :=
  let features := [] in
  consistency_issues <-
    (if String.eqb claim_type "health" then
       match text with
       | Some t => Ok (_check_health_consistency t)
       | None => Raise (mkExn "AttributeError" "'NoneType' object has no attribute 'lower'")
       end
     else if String.eqb claim_type "vehicle" then
       match text with
       | Some t => Ok (_check_vehicle_consistency t)
       | None => Raise (mkExn "AttributeError" "'NoneType' object has no attribute 'lower'")
       end
     else if existsb (String.eqb claim_type)
                     ["travel"; "product_warranty"; "pet"; "agricultural"] then
       match text with
       | Some t => Ok (_check_general_consistency t)
       | None => Raise (mkExn "AttributeError" "'NoneType' object has no attribute 'lower'")
       end
     else Ok []) ;;
  let features := dict_set "consistency_issues" (VStrs consistency_issues) features in
  let features :=
    dict_set "consistency_score"
      (VFloat (pymax 0 (1 - Qof_nat (List.length consistency_issues) * 0.2))) features in
  Ok features.

(** ** [_calculate_fraud_score] *)

Definition weights : list (string * Q) :=
  [ ("fraud_keyword_ratio", 0.25);
    ("amount_anomaly_score", 0.20);
    ("suspicious_pattern_count", 0.15);
    ("consistency_score", 0.15);
    ("amount_consistency", 0.10);
    ("round_amount_ratio", 0.10);
    ("missing_info_count", 0.05) ].

(** The normalisation of one feature value, by feature name. *)
Definition normalize (feature_name : string) (value : Q) : Q :=
  if String.eqb feature_name "consistency_score" then 1.0 - value
  else if existsb (String.eqb feature_name) ["fraud_keyword_ratio"; "round_amount_ratio"]
  then pymin 1.0 (value * 5)
  else if existsb (String.eqb feature_name) ["suspicious_pattern_count"; "missing_info_count"]
  then pymin 1.0 (value * 0.2)
  else if String.eqb feature_name "amount_consistency" then pymin 1.0 value
  else pymin 1.0 (pymax 0.0 value).

(** One turn of the loop over [weights]; the state is
    [(fraud_score, weight_sum)]. *)
Definition score_step (features : dict) (acc : Q * Q) (fw : string * Q)
  : result (Q * Q) :=
  let '(feature_name, weight) := fw in
  match dict_get feature_name features with
  | Some value =>
      match as_num value with
      | Some v =>
          Ok (fst acc + weight * normalize feature_name v, snd acc + weight)
      | None => Raise (TypeError "unsupported operand type(s)")
      end
  | None => Ok acc
  end.

Definition fraud_score_body (features : dict) : result Q :=
  acc <- for_each weights (score_step features) (0.0, 0.0) ;;
  let '(fraud_score, weight_sum) := acc in
  let fraud_score :=
    if Qgtb weight_sum 0 then fraud_score / weight_sum else fraud_score in
  Ok (pymin 1.0 (pymax 0.0 fraud_score)).

Definition _calculate_fraud_score (features : dict) : Q :=
  match fraud_score_body features with
  | Ok s => s
  | Raise _ => 0.5
  end.

(** ** [_calculate_confidence], [_get_recommendation] *)

Definition _calculate_confidence (features : dict) (fraud_score : Q) : result Q :=
  text_length <- get_num features "text_length" 0 ;;
  let f1 := if Qgtb text_length 100 then 0.8
            else if Qgtb text_length 50 then 0.6 else 0.3 in
  amount_count <- get_num features "amount_count" 0 ;;
  let f2 := if Qgtb amount_count 0 then 0.9 else 0.4 in
  let f3 := if Qgtb fraud_score 0.7 || Qltb fraud_score 0.3 then 0.8 else 0.5 in
  Ok ((0 + f1 + f2 + f3) / 3).

Definition _get_recommendation (fraud_score confidence : Q) : string :=
  if Qgtb fraud_score 0.7 && Qgtb confidence 0.6 then "high_risk_reject"
  else if Qgtb fraud_score 0.5 then "manual_review_required"
  else if Qltb fraud_score 0.3 && Qgtb confidence 0.7 then "low_risk_approve"
  else "standard_review".

(** ** [_generate_fraud_report] *)

Definition _generate_fraud_report (features : dict) (fraud_score : Q)
  (claim_type : string) : result dict :=
  let issues := [] in
  let risk_factors := [] in
  (* fraud keywords *)
  kw_count <- get_num features "fraud_keyword_count" 0 ;;
  ir <- (if Qgtb kw_count 0 then
           detected <- get_strs features "detected_fraud_keywords" ;;
           Ok (append issues ("Suspicious keywords detected: " ++ join ", " detected),
               append risk_factors "suspicious_language")
         else Ok (issues, risk_factors)) ;;
  let '(issues, risk_factors) := ir in
  (* amounts *)
  anomaly <- get_num features "amount_anomaly_score" 0 ;;
  let '(issues, risk_factors) :=
    if Qgtb anomaly 0.5
    then (append issues "Claimed amount appears unusual for this type of claim",
          append risk_factors "unusual_amount")
    else (issues, risk_factors) in
  consistency <- get_num features "amount_consistency" 0 ;;
  let '(issues, risk_factors) :=
    if Qgtb consistency 0.3
    then (append issues "Inconsistency between claimed amount and extracted amounts",
          append risk_factors "amount_inconsistency")
    else (issues, risk_factors) in
  (* patterns *)
  pattern_count <- get_num features "suspicious_pattern_count" 0 ;;
  ir <- (if Qgtb pattern_count 0 then
           pattern_issues <- get_strs features "suspicious_indicators" ;;
           Ok (extend issues pattern_issues,
               append risk_factors "suspicious_patterns")
         else Ok (issues, risk_factors)) ;;
  let '(issues, risk_factors) := ir in
  (* consistency *)
  consistency_score <- get_num features "consistency_score" 1.0 ;;
  ir <- (if Qltb consistency_score 0.7 then
           consistency_issues <- get_strs features "consistency_issues" ;;
           Ok (extend issues consistency_issues,
               append risk_factors "internal_inconsistency")
         else Ok (issues, risk_factors)) ;;
  let '(issues, risk_factors) := ir in
  confidence <- _calculate_confidence features fraud_score ;;
  Ok [ ("fraud_score", VFloat fraud_score);
       ("confidence", VFloat confidence);
       ("risk_factors", VStrs risk_factors);
       ("issues", VStrs issues);
       ("recommendation", VStr (_get_recommendation fraud_score confidence));
       ("feature_analysis", VDict features);
       ("claim_type", VStr claim_type) ].

(** ** [analyze_text] *)

(** [{**text_features, **amount_features, **pattern_features,
      **consistency_features}] *)
Definition combine (text_features amount_features pattern_features
  consistency_features : dict) : dict :=
  dict_update (dict_update (dict_update (dict_update []
    text_features) amount_features) pattern_features) consistency_features.

(** The body of the [try] block. *)
Definition analyze_text_body (text : option string) (claim_type : string)
  (requested_amount : Q) : result dict :=
  text_features <- _extract_text_features text ;;
  amount_features <- _analyze_amounts text claim_type requested_amount ;;
  pattern_features <- _check_suspicious_patterns text ;;
  consistency_features <- _analyze_consistency text claim_type ;;
  let combined_features :=
    combine text_features amount_features pattern_features consistency_features in
  let fraud_score := _calculate_fraud_score combined_features in
  report <- _generate_fraud_report combined_features fraud_score claim_type ;;
  Ok report.

(** The report of the [except Exception as e] clause. *)
Definition error_report (e : exn) : dict :=
  [ ("fraud_score", VFloat 0.5);
    ("issues", VStrs ["Analysis error: " ++ exn_msg e]);
    ("confidence", VFloat 0.0) ].

Definition analyze_text (text : option string) (claim_type : string)
  (requested_amount : Q) : dict :=
  match analyze_text_body text claim_type requested_amount with
  | Ok report => report
  | Raise e => error_report e
  end.

End Fraud.

(* ===================================================================== *)
(** * services/document_validator.py *)
(* ===================================================================== *)

Module Validator.
Import Py.

(** ** Configuration ([DocumentValidator.__init__]) *)

(** One entry of [validation_rules]; a pattern that the entry does not
    define is [None] ([rules.get("amount_pattern")]). *)
Record rules := mkRules {
  required_fields : list string;
  amount_pattern : option string;
  date_pattern : option string;
  min_text_length : nat;
  expected_keywords : list string
}.

Definition general_rules : rules := mkRules [] None None 10 [].

Definition validation_rules : list (string * rules) :=
  [ ("medical_bill",
     mkRules ["patient_name"; "service_date"; "amount"; "provider"]
             (Some "\$\d+\.\d{2}") (Some "\d{1,2}/\d{1,2}/\d{4}") 50
             ["patient"; "service"; "bill"; "medical"; "treatment"]);
    ("vehicle_estimate",
     mkRules ["vehicle_info"; "damage_description"; "estimate_amount"]
             (Some "\$\d+\.\d{2}") (Some "\d{1,2}/\d{1,2}/\d{4}") 100
             ["vehicle"; "repair"; "estimate"; "damage"; "parts"; "labor"]);
    ("invoice",
     mkRules ["invoice_number"; "date"; "amount"; "vendor"]
             (Some "\$\d+\.\d{2}") (Some "\d{1,2}/\d{1,2}/\d{4}") 30
             ["invoice"; "bill"; "payment"; "total"; "due"]);
    ("receipt",
     mkRules ["date"; "amount"; "merchant"]
             (Some "\$\d+\.\d{2}") (Some "\d{1,2}/\d{1,2}/\d{4}") 20
             ["receipt"; "total"; "paid"; "transaction"]);
    ("police_report",
     mkRules ["report_number"; "date"; "incident_description"]
             None (Some "\d{1,2}/\d{1,2}/\d{4}") 100
             ["police"; "report"; "incident"; "officer"; "case"; "accident"]);
    ("general", general_rules) ].

Fixpoint rules_get (k : string) (t : list (string * rules)) : option rules :=
  match t with
  | [] => None
  | (k', v) :: t' => if String.eqb k k' then Some v else rules_get k t'
  end.

(** [self.validation_rules.get(document_type, self.validation_rules["general"])] *)
Definition rules_for (document_type : string) : rules :=
  match rules_get document_type validation_rules with
  | Some r => r
  | None => general_rules
  end.

Module patterns.
Definition email : string := "\b[A-Za-z0-9._%+-]+@[A-Za-z0-9.-]+\.[A-Z|a-z]{2,}\b".
Definition phone : string := "\b\d{3}[-.]?\d{3}[-.]?\d{4}\b".
Definition ssn : string := "\b\d{3}-\d{2}-\d{4}\b".
Definition credit_card : string := "\b\d{4}[-\s]?\d{4}[-\s]?\d{4}[-\s]?\d{4}\b".
Definition vin : string := "\b[A-HJ-NPR-Z0-9]{17}\b".
Definition license_plate : string := "\b[A-Z0-9]{2,8}\b".
End patterns.

Definition suspicious_indicators : list string :=
  [ "lorem ipsum"; "sample text"; "placeholder"; "test document";
    "draft"; "copy of copy"; "duplicate" ].

(** ** [_validate_text_content] *)

Definition too_short_issue (length min_length : nat) : string :=
  "Text too short: " ++ str_of_nat length ++ " characters (minimum: "
  ++ str_of_nat min_length ++ ")".

Definition _validate_text_content (text : option string) (rules : rules)
  : result dict :=
  match text with
  | None => Raise (TypeError "object of type 'NoneType' has no len()")
  | Some text =>
      let issues := [] in
      (* minimum text length *)
      let min_length := min_text_length rules in
      let issues :=
        if (len text <? min_length)%nat
        then append issues (too_short_issue (len text) min_length)
        else issues in
      (* suspicious content *)
      let text_lower := lower text in
      let issues :=
        extend issues
          (map (fun indicator => "Suspicious content detected: " ++ indicator)
               (filter (fun indicator => contains indicator text_lower)
                       suspicious_indicators)) in
      (* expected keywords *)
      let expected := expected_keywords rules in
      let issues :=
        match expected with
        | [] => issues
        | _ =>
            let found_keywords :=
              filter (fun kw => contains (lower kw) text_lower) expected in
            if Qltb (Qof_nat (List.length found_keywords))
                    (Qof_nat (List.length expected) * 0.5)
            then append issues
                   ("Missing expected keywords. Found: " ++ repr_strs found_keywords)
            else issues
        end in
      (* text quality *)
      let word_count := List.length (split_ws text) in
      let issues :=
        if (word_count <? 5)%nat then append issues "Text has too few words"
        else issues in
      (* excessive repetition *)
      let words := split_ws (lower text) in
      let unique_words := distinct words in
      let repetition_ratio :=
        match words with
        | [] => 0
        | _ => 1 - Qof_nat (List.length unique_words) / Qof_nat (List.length words)
        end in
      let issues :=
        if Qgtb repetition_ratio 0.7
        then append issues "Excessive word repetition detected"
        else issues in
      Ok [ ("text_validation_issues", VStrs issues);
           ("text_stats",
            VDict [ ("length", VNat (len text));
                    ("word_count", VNat word_count);
                    ("unique_words", VNat (List.length unique_words));
                    ("repetition_ratio", VFloat repetition_ratio) ]) ]
  end.

(** ** Structure checks *)

Definition missing_sections (suffix : string)
  (elements : list (string * list string)) (text_lower : string) : list string :=
  map (fun e => "Missing " ++ fst e ++ suffix)
      (filter (fun e => negb (any_in (snd e) text_lower)) elements).

Definition _validate_medical_bill_structure (text : string) : list string :=
  let text_lower := lower text in
  let medical_elements :=
    [ ("patient information", ["patient"; "name"]);
      ("provider information", ["provider"; "doctor"; "hospital"; "clinic"]);
      ("service information", ["service"; "treatment"; "procedure"]);
      ("billing information", ["bill"; "charge"; "amount"; "total"]) ] in
  let issues := missing_sections " section" medical_elements text_lower in
  let icd_codes := Re.findall "\b[A-Z]\d{2}(?:\.\d{1,2})?\b" text in
  let cpt_codes := Re.findall "\b\d{5}\b" text in
  match icd_codes, cpt_codes with
  | [], [] => append issues "No medical billing codes (ICD/CPT) found"
  | _, _ => issues
  end.

Definition _validate_vehicle_estimate_structure (text : string) : list string :=
  let text_lower := lower text in
  let vehicle_elements :=
    [ ("vehicle information",
       ["vehicle"; "car"; "truck"; "vin"; "year"; "make"; "model"]);
      ("damage description", ["damage"; "repair"; "replace"; "parts"]);
      ("cost breakdown", ["labor"; "parts"; "total"; "estimate"]) ] in
  let issues := missing_sections " section" vehicle_elements text_lower in
  if negb (Re.found patterns.vin false text)
  then append issues "No VIN number found"
  else issues.

Definition _validate_invoice_structure (text : string) : list string :=
  let text_lower := lower text in
  let invoice_elements :=
    [ ("header", ["invoice"; "receipt"; "bill"]);
      ("vendor info", ["from"; "vendor"; "company"; "business"]);
      ("amount", ["total"; "amount"; "due"; "paid"]) ] in
  missing_sections " information" invoice_elements text_lower.

(** [now] is the reading of [datetime.now()]. *)
Definition _is_reasonable_date (now : datetime) (date_str : string) : bool :=
  match split_on "/" date_str with
  | [p0; p1; p2] =>
      match (month <- int p0 ;; day <- int p1 ;; year <- int p2 ;;
             Ok (month, day, year)) with
      | Ok (month, day, year) =>
          if negb ((1 <=? month) && (month <=? 12))%Z then false
          else if negb ((1 <=? day) && (day <=? 31))%Z then false
          else if negb ((1900 <=? year) && (year <=? 2030))%Z then false
          else
            match mk_date year month day with
            | Ok date_obj => negb (dt_gtb date_obj (dt_add_days now 30))
            | Raise _ => false
            end
      | Raise _ => false
      end
  | _ => false
  end.

Definition re_type_error : exn :=
  TypeError "expected string or bytes-like object, got 'NoneType'".
Definition no_lower_error : exn :=
  mkExn "AttributeError" "'NoneType' object has no attribute 'lower'".

Definition _validate_document_structure (now : datetime) (text : option string)
  (document_type : string) (rules : rules) : result dict :=
  match text with
  | None =>
      (* the first use of the text raises, if there is one *)
      match amount_pattern rules, date_pattern rules with
      | None, None =>
          if existsb (String.eqb document_type)
                     ["medical_bill"; "vehicle_estimate"; "invoice"; "receipt"]
          then Raise no_lower_error
          else Ok [ ("structure_validation_issues", VStrs []) ]
      | _, _ => Raise re_type_error
      end
  | Some text =>
      let issues := [] in
      let issues :=
        match amount_pattern rules with
        | Some amount_pattern =>
            let amounts := Re.findall amount_pattern text in
            match amounts with
            | [] => append issues "No monetary amounts found in expected format"
            | _ =>
                if (10 <? List.length amounts)%nat
                then append issues
                       "Too many monetary amounts detected (possible OCR errors)"
                else issues
            end
        | None => issues
        end in
      let issues :=
        match date_pattern rules with
        | Some date_pattern =>
            let dates := Re.findall date_pattern text in
            match dates with
            | [] => append issues "No dates found in expected format"
            | _ =>
                extend issues
                  (map (fun date_str => "Unreasonable date detected: " ++ date_str)
                       (filter (fun date_str => negb (_is_reasonable_date now date_str))
                               dates))
            end
        | None => issues
        end in
      let issues :=
        if String.eqb document_type "medical_bill"
        then extend issues (_validate_medical_bill_structure text)
        else if String.eqb document_type "vehicle_estimate"
        then extend issues (_validate_vehicle_estimate_structure text)
        else if existsb (String.eqb document_type) ["invoice"; "receipt"]
        then extend issues (_validate_invoice_structure text)
        else issues in
      Ok [ ("structure_validation_issues", VStrs issues) ]
  end.

(** ** Extraction helpers *)

(** [_extract_amounts]: the validator's own copy of the amount loop. *)
Definition amount_of (m : string) : option Q :=
  let clean_amount := Re.sub "[^\d.]" "" m in
  if negb (len clean_amount =? 0)%nat && contains "." clean_amount then
    match float clean_amount with
    | Ok q => Some q
    | Raise _ => None
    end
  else None.

Fixpoint collect_amounts (matches : list string) : list Q :=
  match matches with
  | [] => []
  | m :: matches' =>
      match amount_of m with
      | Some q => q :: collect_amounts matches'
      | None => collect_amounts matches'
      end
  end.

Definition extract_pattern : string := "\$?\s*\d{1,3}(?:,\d{3})*(?:\.\d{2})?".

Definition _extract_amounts (text : string) : list Q :=
  collect_amounts (Re.findall extract_pattern text).

(** [_extract_dates]; the order of [list(set(dates))] is that of first
    occurrence here. *)
Definition _extract_dates (text : string) : list string :=
  let date_patterns :=
    [ "\d{1,2}/\d{1,2}/\d{4}"; "\d{1,2}-\d{1,2}-\d{4}"; "\d{4}-\d{1,2}-\d{1,2}" ] in
  distinct (flat_map (fun pattern => Re.findall pattern text) date_patterns).

(** ** Authenticity checks *)

(** [numpy] is not imported by this module, so ['np' in globals()] is
    false and the indentation variance is taken to be [0]. *)
Definition _has_formatting_inconsistencies (text : string) : bool :=
  let lines := split_on "010" text in
  let space_counts :=
    map (fun line => (len line - len (lstrip line))%nat)
        (filter (fun line => negb (String.eqb (strip line) "")) lines) in
  let indented :=
    match space_counts with
    | [] => false
    | _ => let space_variance := 0 in Qgtb space_variance 100
    end in
  if indented then true
  else
    let amounts := Re.findall "\d+[,.]?\d*" text in
    match amounts with
    | [] => false
    | _ =>
        let comma_amounts := filter (contains ",") amounts in
        let dot_amounts := filter (contains ".") amounts in
        match comma_amounts, dot_amounts with
        | _ :: _, _ :: _ =>
            negb (List.length comma_amounts =? List.length dot_amounts)%nat
        | _, _ => false
        end
    end.

Definition _has_unusual_characters (text : string) : bool :=
  let special_char_count :=
    count_chars (fun c => negb (is_alnum c) && negb (is_space c)) text in
  if Qgtb (Qof_nat special_char_count) (Qof_nat (len text) * 0.3) then true
  else
    match Re.findall "(.)\1{5,}" text with
    | [] => false
    | _ => true
    end.

(** One turn of the date loop of [_has_data_integrity_issues]. *)
Definition integrity_parse (parsed : list datetime) (date_str : string)
  : result (list datetime) :=
  match split_on "/" date_str with
  | [p0; p1; p2] =>
      month <- int p0 ;;
      day <- int p1 ;;
      year <- int p2 ;;
      d <- mk_date year month day ;;
      Ok (append parsed d)
  | _ => Ok parsed
  end.

Definition _has_data_integrity_issues (text : string) : result bool :=
  let amounts := _extract_amounts text in
  let too_large :=
    match amounts with
    | a :: amounts' => Qgtb (list_max a amounts') 1000000
    | [] => false
    end in
  if too_large then Ok true
  else
    let dates := _extract_dates text in
    if (1 <? List.length dates)%nat then
      match for_each dates integrity_parse [] with
      | Ok parsed_dates =>
          match parsed_dates with
          | [] => Ok false
          | _ => Ok (365 <? date_range parsed_dates)%Z
          end
      | Raise e =>
          if caught_by ["ValueError"; "IndexError"] e then Ok true else Raise e
      end
    else Ok false.

Definition placeholder_patterns : list string :=
  [ "xxx+"; "\[.*\]"; "<.*>"; "placeholder"; "sample"; "lorem ipsum" ].

(** The loop over the placeholder patterns: every pattern found adds an
    issue and costs [0.2]. *)
Fixpoint placeholder_loop (patterns : list string) (text : string)
  (acc : list string * Q) : list string * Q :=
  match patterns with
  | [] => acc
  | pattern :: patterns' =>
      placeholder_loop patterns' text
        (if Re.found pattern true text
         then (append (fst acc) ("Placeholder text detected: " ++ pattern),
               snd acc - 0.2)
         else acc)
  end.

Definition _validate_content_authenticity (text : option string)
  (document_type : string) : result dict :=
  match text with
  | None => Raise re_type_error
  | Some text =>
      let issues := [] in
      let authenticity_score := 1.0 in
      let '(issues, authenticity_score) :=
        placeholder_loop placeholder_patterns text (issues, authenticity_score) in
      let '(issues, authenticity_score) :=
        if _has_formatting_inconsistencies text
        then (append issues "Formatting inconsistencies detected",
              authenticity_score - 0.1)
        else (issues, authenticity_score) in
      let '(issues, authenticity_score) :=
        if _has_unusual_characters text
        then (append issues "Unusual character patterns detected",
              authenticity_score - 0.1)
        else (issues, authenticity_score) in
      integrity <- _has_data_integrity_issues text ;;
      let '(issues, authenticity_score) :=
        if (integrity : bool)
        then (append issues "Data integrity issues detected",
              authenticity_score - 0.2)
        else (issues, authenticity_score) in
      let authenticity_score := pymax 0.0 authenticity_score in
      Ok [ ("authenticity_validation_issues", VStrs issues);
           ("authenticity_score", VFloat authenticity_score) ]
  end.

(** ** Type-specific extraction *)

(** [for pattern in patterns: match = re.search(...); if match: ...; break] *)
Fixpoint first_match (patterns : list string) (text : string) : option Re.rmatch :=
  match patterns with
  | [] => None
  | pattern :: patterns' =>
      match Re.search pattern true text with
      | Some m => Some m
      | None => first_match patterns' text
      end
  end.

Definition _extract_medical_data (text : string) : dict :=
  let data := [] in
  let patient_patterns :=
    [ "(?:Patient|Name):\s*([A-Za-z\s]+)"; "Patient Name:\s*([A-Za-z\s]+)" ] in
  let data :=
    match first_match patient_patterns text with
    | Some m => dict_set "patient_name" (VStr (strip (Re.group m 1))) data
    | None => data
    end in
  let service_patterns :=
    [ "(?:Service|Date of Service):\s*(\d{1,2}/\d{1,2}/\d{4})";
      "Date:\s*(\d{1,2}/\d{1,2}/\d{4})" ] in
  let data :=
    match first_match service_patterns text with
    | Some m => dict_set "service_date" (VStr (Re.group m 1)) data
    | None => data
    end in
  let provider_patterns :=
    [ "(?:Provider|Doctor|Physician):\s*([A-Za-z\s]+)";
      "(?:Hospital|Clinic):\s*([A-Za-z\s]+)" ] in
  let data :=
    match first_match provider_patterns text with
    | Some m => dict_set "provider" (VStr (strip (Re.group m 1))) data
    | None => data
    end in
  data.

Definition _extract_vehicle_data (text : string) : dict :=
  let data := [] in
  let data :=
    match Re.search patterns.vin false text with
    | Some vin_match => dict_set "vin" (VStr (Re.m_text vin_match)) data
    | None => data
    end in
  let vehicle_patterns :=
    [ "(\d{4})\s+([A-Za-z]+)\s+([A-Za-z]+)"; "Vehicle:\s*([A-Za-z0-9\s]+)" ] in
  let data :=
    match first_match vehicle_patterns text with
    | Some m =>
        if (Re.m_ngroups m =? 3)%nat then
          let data := dict_set "vehicle_year" (VStr (Re.group m 1)) data in
          let data := dict_set "vehicle_make" (VStr (Re.group m 2)) data in
          dict_set "vehicle_model" (VStr (Re.group m 3)) data
        else dict_set "vehicle_info" (VStr (strip (Re.group m 1))) data
    | None => data
    end in
  let damage_patterns :=
    [ "(?:Damage|Description):\s*([A-Za-z0-9\s,.-]+)";
      "(?:Repair|Fix):\s*([A-Za-z0-9\s,.-]+)" ] in
  let data :=
    match first_match damage_patterns text with
    | Some m => dict_set "damage_description" (VStr (strip (Re.group m 1))) data
    | None => data
    end in
  data.

Definition _extract_invoice_data (text : string) : dict :=
  let data := [] in
  let invoice_patterns :=
    [ "(?:Invoice|Receipt)\s*#?\s*(\w+)"; "(?:Number|No):\s*(\w+)" ] in
  let data :=
    match first_match invoice_patterns text with
    | Some m => dict_set "invoice_number" (VStr (Re.group m 1)) data
    | None => data
    end in
  let vendor_patterns :=
    [ "(?:From|Vendor|Company):\s*([A-Za-z\s]+)";
      "(?:Merchant|Business):\s*([A-Za-z\s]+)" ] in
  let data :=
    match first_match vendor_patterns text with
    | Some m => dict_set "vendor" (VStr (strip (Re.group m 1))) data
    | None => data
    end in
  data.

(** ** [_cross_validate_data] *)

(** One turn of the date loop: a string that does not parse is skipped
    ([except (ValueError, IndexError): continue]). *)
Definition cross_parse (parsed : list datetime) (date_str : string)
  : result (list datetime) :=
  match (match split_on "/" date_str with
         | [p0; p1; p2] =>
             year <- int p2 ;;
             month <- int p0 ;;
             day <- int p1 ;;
             d <- mk_date year month day ;;
             Ok (append parsed d)
         | _ => Ok parsed
         end) with
  | Ok parsed' => Ok parsed'
  | Raise e => if caught_by ["ValueError"; "IndexError"] e then Ok parsed else Raise e
  end.

Definition _cross_validate_data (data : dict) (document_type : string)
  : result (list string) :=
  let issues := [] in
  (* date consistency *)
  dates <- get_strs data "dates" ;;
  issues <-
    (if (1 <? List.length dates)%nat then
       parsed_dates <- for_each dates cross_parse [] ;;
       match parsed_dates with
       | [] => Ok issues
       | _ =>
           if (90 <? date_range parsed_dates)%Z
           then Ok (append issues "Inconsistent dates detected")
           else Ok issues
       end
     else Ok issues) ;;
  (* amount consistency *)
  amounts <- get_nums data "amounts" ;;
  let issues :=
    match amounts with
    | a :: amounts' =>
        let amount_range := list_max a amounts' - list_min a amounts' in
        if Qgtb amount_range (list_max a amounts' * 0.5)
        then append issues "Large variance in monetary amounts"
        else issues
    | [] => issues
    end in
  (* document type specific validation *)
  if String.eqb document_type "medical_bill" then
    match dict_get "patient_name" data, dict_get "provider" data with
    | Some patient, Some provider =>
        if truthy patient && truthy provider then
          match patient, provider with
          | VStr patient, VStr provider =>
              if String.eqb (lower patient) (lower provider)
              then Ok (append issues "Patient and provider names are identical")
              else Ok issues
          | _, _ => Raise (mkExn "AttributeError" "object has no attribute 'lower'")
          end
        else Ok issues
    | _, _ => Ok issues
    end
  else Ok issues.

(** ** [_extract_and_validate_data] *)

Definition field_missing (extracted_data : dict) (field : string) : bool :=
  match dict_get field extracted_data with
  | None => true
  | Some v => negb (truthy v)
  end.

Definition _extract_and_validate_data (text : option string)
  (document_type : string) (rules : rules) : result dict :=
  match text with
  | None => Raise re_type_error
  | Some text =>
      let issues := [] in
      let extracted_data := [] in
      let extracted_data :=
        dict_set "emails" (VStrs (Re.findall patterns.email text)) extracted_data in
      let extracted_data :=
        dict_set "phones" (VStrs (Re.findall patterns.phone text)) extracted_data in
      let extracted_data :=
        dict_set "amounts" (VList (map VFloat (_extract_amounts text))) extracted_data in
      let extracted_data :=
        dict_set "dates" (VStrs (_extract_dates text)) extracted_data in
      let extracted_data :=
        if String.eqb document_type "medical_bill"
        then dict_update extracted_data (_extract_medical_data text)
        else if String.eqb document_type "vehicle_estimate"
        then dict_update extracted_data (_extract_vehicle_data text)
        else if existsb (String.eqb document_type) ["invoice"; "receipt"]
        then dict_update extracted_data (_extract_invoice_data text)
        else extracted_data in
      let issues :=
        extend issues
          (map (fun field => "Required field missing: " ++ field)
               (filter (field_missing extracted_data) (required_fields rules))) in
      cross_validation_issues <- _cross_validate_data extracted_data document_type ;;
      let issues := extend issues cross_validation_issues in
      Ok [ ("data_validation_issues", VStrs issues);
           ("data", VDict extracted_data) ]
  end.

(** ** [_merge_validation_results] *)

Definition is_list (v : pyval) : bool :=
  match v with VList _ => true | _ => false end.

(** One turn of the loop over [additional_result.items()]. *)
Definition merge_entry (main_result : dict) (kv : string * pyval) : result dict :=
  let '(key, value) := kv in
  if endswith key "_issues" && is_list value then
    issues <- dict_item "issues" main_result ;;
    match issues, value with
    | VList current, VList more =>
        Ok (dict_set "issues" (VList (extend current more)) main_result)
    | _, _ => Raise (mkExn "AttributeError" "object has no attribute 'extend'")
    end
  else if String.eqb key "authenticity_score" then
    current_confidence <- get_num main_result "confidence" 1.0 ;;
    match as_num value with
    | Some v =>
        Ok (dict_set "confidence" (VFloat ((current_confidence + v) / 2)) main_result)
    | None => Raise (TypeError "unsupported operand type(s)")
    end
  else Ok (dict_set key value main_result).

Definition _merge_validation_results (main_result additional_result : dict)
  : result dict :=
  for_each additional_result merge_entry main_result.

(** ** [_calculate_validation_score] *)

Definition validation_score_body (result : dict) : Py.result Q :=
  let base_score := 1.0 in
  issue_count <-
    pylen (match dict_get "issues" result with Some v => v | None => VList [] end) ;;
  let base_score := base_score - pymin 0.8 (Qof_nat issue_count * 0.1) in
  confidence <- get_num result "confidence" 1.0 ;;
  let base_score := base_score * confidence in
  authenticity <- get_num result "authenticity_score" 1.0 ;;
  let base_score := (base_score + authenticity) / 2 in
  Ok (pymax 0.0 (pymin 1.0 base_score)).

Definition _calculate_validation_score (result : dict) : Q :=
  match validation_score_body result with
  | Ok s => s
  | Raise _ => 0.5
  end.

(** ** [validate_document] *)

Definition initial_result : dict :=
  [ ("is_valid", VBool true);
    ("validation_score", VFloat 1.0);
    ("issues", VList []);
    ("extracted_data", VDict []);
    ("confidence", VFloat 1.0) ].

(** The checks and merges of the [try] block, up to the final score. *)
Definition run_checks (now : datetime) (document_type : string)
  (extracted_text : option string) : result dict :=
  let validation_result := initial_result in
  let rules := rules_for document_type in
  (* basic text validation *)
  text_validation <- _validate_text_content extracted_text rules ;;
  let validation_result := dict_update validation_result text_validation in
  (* structure validation *)
  structure_validation <-
    _validate_document_structure now extracted_text document_type rules ;;
  validation_result <- _merge_validation_results validation_result structure_validation ;;
  (* content validation *)
  content_validation <- _validate_content_authenticity extracted_text document_type ;;
  validation_result <- _merge_validation_results validation_result content_validation ;;
  (* data extraction and validation *)
  data_validation <- _extract_and_validate_data extracted_text document_type rules ;;
  data <- dict_item "data" data_validation ;;
  let validation_result := dict_set "extracted_data" data validation_result in
  validation_result <- _merge_validation_results validation_result data_validation ;;
  Ok validation_result.

(** The body of the [try] block.  [content] and [filename] only reach
    the log. *)
Definition validate_document_body (now : datetime) (content : list Byte.byte)
  (filename : string) (document_type : string) (extracted_text : option string)
  : result dict :=
  validation_result <- run_checks now document_type extracted_text ;;
  let score := _calculate_validation_score validation_result in
  let validation_result :=
    dict_set "validation_score" (VFloat score) validation_result in
  let validation_result :=
    dict_set "is_valid" (VBool (Qgeb score 0.6)) validation_result in
  Ok validation_result.

(** The result of the [except Exception as e] clause. *)
Definition error_result (e : exn) : dict :=
  [ ("is_valid", VBool false);
    ("validation_score", VFloat 0.0);
    ("issues", VStrs ["Validation error: " ++ exn_msg e]);
    ("extracted_data", VDict []);
    ("confidence", VFloat 0.0) ].

Definition validate_document (now : datetime) (content : list Byte.byte)
  (filename : string) (document_type : string) (extracted_text : option string)
  : dict :=
  match validate_document_body now content filename document_type extracted_text with
  | Ok validation_result => validation_result
  | Raise e => error_result e
  end.

End Validator.

(* ===================================================================== *)
(** * services/image_analysis_service.py *)
(* ===================================================================== *)

Module ImageAnalysis.
Import Py.

(** ** The decoded image

    The pixel computations are done by OpenCV, NumPy and PIL.  An image
    is represented by what those library calls yield on it: each field
    is the value a [try] block of the service has computed when it
    reaches its own arithmetic, or the exception raised on the way. *)
Record image := mkImage {
  (* [_check_compression_artifacts]: [freq_variance], and
     [block_variance] after the division by the number of blocks *)
  compression_measure : result (Q * Q);
  (* [_check_noise_patterns]: [noise_std], [np.max(top_magnitudes)],
     [np.mean(top_magnitudes)] *)
  noise_measure : result (Q * Q * Q);
  (* [_check_color_consistency]: [outlier_count] of the 16 regions *)
  color_measure : result nat;
  (* [_check_edge_discontinuities]: [discontinuity_count], [total_edges] *)
  edge_measure : result (nat * nat);
  (* [image._getexif()]: tag and [str] of its value, or [None] *)
  exif_data : result (option (list (Z * string)));
  (* [image.size] *)
  size : Z * Z;
  (* [_assess_quality]: [blur_score], [brightness], [contrast] *)
  quality_measure : result (Q * Q * Q);
  (* the [try] blocks of [_basic_image_analysis], [_analyze_content]
     and [_assess_damage], per analysis type *)
  basic_info : result dict;
  content_info : string -> result dict;
  damage_info : string -> result dict
}.

(** ** Configuration *)

Module tampering_thresholds.
Definition compression_artifacts : Q := 0.7.
Definition noise_patterns : Q := 0.6.
Definition color_inconsistency : Q := 0.5.
Definition edge_discontinuity : Q := 0.8.
End tampering_thresholds.

(** ** The four sub-detectors *)

Definition _check_compression_artifacts (img : image) : Q :=
  match compression_measure img with
  | Ok (freq_variance, block_variance) =>
      pymin 1.0 ((freq_variance / 1000 + block_variance / 100) / 2)
  | Raise _ => 0.0
  end.

Definition _check_noise_patterns (img : image) : Q :=
  match noise_measure img with
  | Ok (noise_std, top_max, top_mean) =>
      let magnitude_ratio := if Qgtb top_mean 0 then top_max / top_mean else 0 in
      pymin 1.0 ((noise_std / 50 + magnitude_ratio / 100) / 2)
  | Raise _ => 0.0
  end.

Definition _check_color_consistency (img : image) : Q :=
  match color_measure img with
  | Ok outlier_count => Qof_nat outlier_count / 16
  | Raise _ => 0.0
  end.

Definition _check_edge_discontinuities (img : image) : Q :=
  match edge_measure img with
  | Ok (discontinuity_count, total_edges) =>
      Qof_nat discontinuity_count / Qof_nat (Nat.max total_edges 1)
  | Raise _ => 0.0
  end.

(** The four sub-detectors as a family: the score each one returns, the
    exception its [try] block raised (if any), and its threshold. *)
Inductive detector : Type := Compression | Noise | Color | Edge.

Definition sub_score (d : detector) (img : image) : Q :=
  match d with
  | Compression => _check_compression_artifacts img
  | Noise => _check_noise_patterns img
  | Color => _check_color_consistency img
  | Edge => _check_edge_discontinuities img
  end.

Definition raised_in {A : Type} (c : result A) : option exn :=
  match c with
  | Ok _ => None
  | Raise e => Some e
  end.

Definition raised (d : detector) (img : image) : option exn :=
  match d with
  | Compression => raised_in (compression_measure img)
  | Noise => raised_in (noise_measure img)
  | Color => raised_in (color_measure img)
  | Edge => raised_in (edge_measure img)
  end.

Definition threshold (d : detector) : Q :=
  match d with
  | Compression => tampering_thresholds.compression_artifacts
  | Noise => tampering_thresholds.noise_patterns
  | Color => tampering_thresholds.color_inconsistency
  | Edge => tampering_thresholds.edge_discontinuity
  end.

(** ** [_analyze_exif_data] *)

Fixpoint exif_get (tag : Z) (exif : list (Z * string)) : option string :=
  match exif with
  | [] => None
  | (t, v) :: exif' => if (tag =? t)%Z then Some v else exif_get tag exif'
  end.

Definition editors : list string := [ "photoshop"; "gimp"; "paint"; "editor" ].

(** The loop over the software tags; the state is [(issues, suspicious)]. *)
Fixpoint software_loop (tags : list Z) (exif : list (Z * string))
  (acc : list string * bool) : list string * bool :=
  match tags with
  | [] => acc
  | tag :: tags' =>
      software_loop tags' exif
        (match exif_get tag exif with
         | Some v =>
             let software := lower v in
             if existsb (fun editor => contains editor software) editors
             then (append (fst acc) ("Image editing software detected: " ++ software),
                   true)
             else acc
         | None => acc
         end)
  end.

(** The values of the date tags that are present. *)
Fixpoint date_values (tags : list Z) (exif : list (Z * string)) : list string :=
  match tags with
  | [] => []
  | tag :: tags' =>
      match exif_get tag exif with
      | Some v => v :: date_values tags' exif
      | None => date_values tags' exif
      end
  end.

Definition _analyze_exif_data (img : image) : dict :=
  match exif_data img with
  | Ok exif =>
      let suspicious := false in
      let issues := [] in
      let '(issues, suspicious) :=
        match exif with
        | None => (append issues "No EXIF data found", true)
        | Some exif =>
            let '(issues, suspicious) :=
              software_loop [272; 305]%Z exif (issues, suspicious) in
            match date_values [306; 36867; 36868]%Z exif with
            | d0 :: d1 :: ds =>
                if negb (forallb (String.eqb d0) (d0 :: d1 :: ds))
                then (append issues "Inconsistent date/time stamps in EXIF", true)
                else (issues, suspicious)
            | _ => (issues, suspicious)
            end
        end in
      [ ("suspicious", VBool suspicious);
        ("issues", VStrs issues);
        ("has_exif", VBool (match exif with Some _ => true | None => false end));
        ("exif_tags_count",
         VNat (match exif with Some e => List.length e | None => 0%nat end)) ]
  | Raise e =>
      [ ("suspicious", VBool false); ("issues", VList []); ("error", VStr (exn_msg e)) ]
  end.

(** ** [_analyze_authenticity] *)

Definition authenticity_body (img : image) : result dict :=
  let authenticity_indicators := [] in
  let authenticity_score := 1.0 in
  let compression_score := _check_compression_artifacts img in
  let '(authenticity_indicators, authenticity_score) :=
    if Qgtb compression_score tampering_thresholds.compression_artifacts
    then (append authenticity_indicators "Suspicious compression artifacts detected",
          authenticity_score - 0.2)
    else (authenticity_indicators, authenticity_score) in
  let noise_score := _check_noise_patterns img in
  let '(authenticity_indicators, authenticity_score) :=
    if Qgtb noise_score tampering_thresholds.noise_patterns
    then (append authenticity_indicators "Unusual noise patterns detected",
          authenticity_score - 0.15)
    else (authenticity_indicators, authenticity_score) in
  let color_score := _check_color_consistency img in
  let '(authenticity_indicators, authenticity_score) :=
    if Qgtb color_score tampering_thresholds.color_inconsistency
    then (append authenticity_indicators "Color inconsistencies detected",
          authenticity_score - 0.2)
    else (authenticity_indicators, authenticity_score) in
  let edge_score := _check_edge_discontinuities img in
  let '(authenticity_indicators, authenticity_score) :=
    if Qgtb edge_score tampering_thresholds.edge_discontinuity
    then (append authenticity_indicators "Edge discontinuities suggest editing",
          authenticity_score - 0.25)
    else (authenticity_indicators, authenticity_score) in
  let exif_analysis := _analyze_exif_data img in
  suspicious <- dict_item "suspicious" exif_analysis ;;
  ir <- (if truthy suspicious then
           exif_issues <- get_strs exif_analysis "issues" ;;
           Ok (extend authenticity_indicators exif_issues, authenticity_score - 0.1)
         else Ok (authenticity_indicators, authenticity_score)) ;;
  let '(authenticity_indicators, authenticity_score) := ir in
  let authenticity_score := pymax 0.0 (pymin 1.0 authenticity_score) in
  Ok [ ("score", VFloat authenticity_score);
       ("indicators", VStrs authenticity_indicators);
       ("compression_score", VFloat compression_score);
       ("noise_score", VFloat noise_score);
       ("color_score", VFloat color_score);
       ("edge_score", VFloat edge_score);
       ("exif_analysis", VDict exif_analysis) ].

Definition _analyze_authenticity (img : image) : dict :=
  match authenticity_body img with
  | Ok d => d
  | Raise e => [ ("score", VFloat 0.5); ("error", VStr (exn_msg e)) ]
  end.

(** ** [_assess_quality] *)

Definition _assess_quality (img : image) : dict :=
  let quality_metrics := [] in
  let '(width, height) := size img in
  let total_pixels := (width * height)%Z in
  let quality_metrics :=
    dict_set "resolution"
      (VDict [ ("width", VInt width); ("height", VInt height);
               ("total_pixels", VInt total_pixels);
               ("quality",
                VStr (if (1000000 <? total_pixels)%Z then "high"
                      else if (300000 <? total_pixels)%Z then "medium"
                      else "low")) ]) quality_metrics in
  match quality_measure img with
  | Ok (blur_score, brightness, contrast) =>
      let quality_metrics :=
        dict_set "sharpness"
          (VDict [ ("score", VFloat blur_score);
                   ("quality",
                    VStr (if Qgtb blur_score 100 then "sharp"
                          else if Qgtb blur_score 50 then "acceptable"
                          else "blurred")) ]) quality_metrics in
      let well_exposed :=
        Qltb 50 brightness && Qltb brightness 200 && Qgtb contrast 20 in
      let quality_metrics :=
        dict_set "exposure"
          (VDict [ ("brightness", VFloat brightness);
                   ("contrast", VFloat contrast);
                   ("quality", VStr (if well_exposed then "good" else "poor")) ])
          quality_metrics in
      let resolution_score := pymin 1.0 (inject_Z total_pixels / 1000000) in
      let sharpness_score := pymin 1.0 (blur_score / 200) in
      let exposure_score := if well_exposed then 1.0 else 0.5 in
      let overall_score := (resolution_score + sharpness_score + exposure_score) / 3 in
      dict_set "overall_score" (VFloat overall_score) quality_metrics
  | Raise e =>
      [ ("overall_score", VFloat 0.5); ("error", VStr (exn_msg e)) ]
  end.

(** ** The remaining analyses *)

Definition or_error (body : result dict) : dict :=
  match body with
  | Ok d => d
  | Raise e => [ ("error", VStr (exn_msg e)) ]
  end.

Definition _basic_image_analysis (img : image) : dict := or_error (basic_info img).
Definition _analyze_content (img : image) (analysis_type : string) : dict :=
  or_error (content_info img analysis_type).
Definition _assess_damage (img : image) (damage_type : string) : dict :=
  or_error (damage_info img damage_type).

(** ** [analyze_image] *)

Section AnalyzeImage.

(** [Image.open(io.BytesIO(content))] followed by the conversion to an
    OpenCV array. *)
Variable decode : list Byte.byte -> result image.

(** [processing_time]: the two readings of [time.time()] subtracted. *)
Variable processing_time : Q.

(** The body of the [try] block. *)
Definition analyze_image_body (content : list Byte.byte) (filename : string)
  (analysis_type : string) : result dict :=
  img <- decode content ;;
  let basic_analysis := _basic_image_analysis img in
  let authenticity_analysis := _analyze_authenticity img in
  let content_analysis := _analyze_content img analysis_type in
  let damage_analysis :=
    if existsb (String.eqb analysis_type) ["vehicle"; "health"; "property"]
    then VDict (_assess_damage img analysis_type)
    else VNone in
  let quality_analysis := _assess_quality img in
  (* the result dictionary, entry by entry *)
  authenticity_score <- dict_item "score" authenticity_analysis ;;
  quality_score <- dict_item "score" quality_analysis ;;
  let result :=
    [ ("filename", VStr filename);
      ("analysis_type", VStr analysis_type);
      ("authenticity_score", authenticity_score);
      ("quality_score", quality_score);
      ("processing_time", VFloat processing_time);
      ("basic_info", VDict basic_analysis);
      ("authenticity_details", VDict authenticity_analysis);
      ("content_analysis", VDict content_analysis);
      ("quality_details", VDict quality_analysis) ] in
  let result :=
    match damage_analysis with
    | VDict d =>
        if truthy damage_analysis then
          let result := dict_set "damage_assessment" damage_analysis result in
          dict_set "estimated_cost"
            (match dict_get "estimated_cost" d with Some c => c | None => VInt 0 end)
            result
        else result
    | _ => result
    end in
  Ok result.

Definition analyze_image (content : list Byte.byte) (filename : string)
  (analysis_type : string) : dict :=
  match analyze_image_body content filename analysis_type with
  | Ok result => result
  | Raise e =>
      [ ("filename", VStr filename);
        ("error", VStr (exn_msg e));
        ("authenticity_score", VFloat 0.5);
        ("quality_score", VFloat 0.5);
        ("processing_time", VFloat processing_time) ]
  end.

End AnalyzeImage.

End ImageAnalysis.

(* ===================================================================== *)
(** * The patterns of the services *)
(* ===================================================================== *)

Module Patterns.

(** Every pattern string that the fraud engine and the validator hand
    to [re]. *)
Definition service_patterns : list string :=
  [ Fraud.amount_pattern; "[^\d.]";
    Fraud.suspicious_patterns.round_numbers;
    Fraud.suspicious_patterns.duplicate_amounts;
    Fraud.suspicious_patterns.inconsistent_dates ]
  ++ Fraud.suspicious_patterns.missing_info
  ++ [ "\$\d+\.\d{2}"; "\d{1,2}/\d{1,2}/\d{4}";
       Validator.patterns.email; Validator.patterns.phone;
       Validator.patterns.ssn; Validator.patterns.credit_card;
       Validator.patterns.vin; Validator.patterns.license_plate;
       "\b[A-Z]\d{2}(?:\.\d{1,2})?\b"; "\b\d{5}\b";
       "\d+[,.]?\d*"; "(.)\1{5,}";
       Validator.extract_pattern;
       "\d{1,2}-\d{1,2}-\d{4}"; "\d{4}-\d{1,2}-\d{1,2}" ]
  ++ Validator.placeholder_patterns
  ++ [ "(?:Patient|Name):\s*([A-Za-z\s]+)"; "Patient Name:\s*([A-Za-z\s]+)";
       "(?:Service|Date of Service):\s*(\d{1,2}/\d{1,2}/\d{4})";
       "Date:\s*(\d{1,2}/\d{1,2}/\d{4})";
       "(?:Provider|Doctor|Physician):\s*([A-Za-z\s]+)";
       "(?:Hospital|Clinic):\s*([A-Za-z\s]+)";
       "(\d{4})\s+([A-Za-z]+)\s+([A-Za-z]+)"; "Vehicle:\s*([A-Za-z0-9\s]+)";
       "(?:Damage|Description):\s*([A-Za-z0-9\s,.-]+)";
       "(?:Repair|Fix):\s*([A-Za-z0-9\s,.-]+)";
       "(?:Invoice|Receipt)\s*#?\s*(\w+)"; "(?:Number|No):\s*(\w+)";
       "(?:From|Vendor|Company):\s*([A-Za-z\s]+)";
       "(?:Merchant|Business):\s*([A-Za-z\s]+)" ].

Definition compiles (p : string) : bool :=
  match Re.compile p with
  | Some _ => true
  | None => false
  end.

End Patterns.

(* ===================================================================== *)
(** * Concrete inputs *)
(* ===================================================================== *)

Module Scenarios.
Import Py.

(** The claim narrative of the "emergency surgery" scenario. *)
Definition emergency_narrative : string :=
  "Emergency surgery needed ASAP, cash only, no receipt".

(** A medical bill of 47 characters that names patient, service date
    and provider, and carries a diagnosis code and an amount. *)
Definition short_bill : string :=
  "Name:X Service:1/1/2020 Doctor:Y bill A12 $1.00".

(** A reading of the clock: 24 April 2024, midnight. *)
Definition clock : datetime := mkDatetime 739000 0.

(** A narrative of six words with one keyword, and the same narrative
    followed by the keyword "asap" as a seventh word. *)
Definition plain_claim : string := "Claim for urgent hospital visit today".
Definition keyword_claim : string := plain_claim ++ " asap".

(** A narrative with one keyword in ten words, and the same narrative
    followed by eleven occurrences of a second keyword. *)
Definition sparse_claim : string := "urgent a b c d e f g h i".
Definition diluted_claim : string :=
  "urgent a b c d e f g h i fake fake fake fake fake fake fake fake fake fake fake".

Definition consistent_exif : list (Z * string) :=
  [ (271, "Canon"); (272, "Canon EOS 80D");
    (306, "2024:03:01 10:00:00"); (36867, "2024:03:01 10:00:00");
    (36868, "2024:03:01 10:00:00") ]%Z.

(** A uniform black 1024x1024 photograph with consistent metadata: no
    frequency or block variance, no noise, no colour outlier, no
    contour. *)
Definition uniform_image : ImageAnalysis.image :=
  ImageAnalysis.mkImage
    (Ok (0, 0)) (Ok (0, 0, 0)) (Ok 0%nat) (Ok (0%nat, 0%nat))
    (Ok (Some consistent_exif)) (1024, 1024)%Z (Ok (0, 0, 0))
    (Ok [ ("mode", VStr "RGB") ]) (fun _ => Ok []) (fun _ => Ok []).

Definition decode_uniform (content : list Byte.byte) : result ImageAnalysis.image :=
  Ok uniform_image.

End Scenarios.

(* ===================================================================== *)
(** * The Python runtime fragment, continued *)
(* ===================================================================== *)

Module PyExt.
Import Py.

(** [table.get(k)] on a dictionary literal of the source. *)
Fixpoint table_get {A : Type} (k : string) (t : list (string * A)) : option A :=
  match t with
  | [] => None
  | (k', v) :: t' => if String.eqb k k' then Some v else table_get k t'
  end.

(** [table[k] = v] *)
Fixpoint table_set {A : Type} (k : string) (v : A) (t : list (string * A))
  : list (string * A) :=
  match t with
  | [] => [(k, v)]
  | (k', v') :: t' =>
      if String.eqb k k' then (k', v) :: t' else (k', v') :: table_set k v t'
  end.

(** [round(x)] to the nearest integer, ties to the even one. *)
Definition round_half_even (q : Q) : Z :=
  let f := Qfloor q in
  match Qcompare (q - inject_Z f) (1 # 2) with
  | Lt => f
  | Gt => (f + 1)%Z
  | Eq => if Z.even f then f else (f + 1)%Z
  end.

(** [round(x, 2)] *)
Definition round2 (q : Q) : Q := inject_Z (round_half_even (q * 100)) / 100.

(** [a / b] on two [int]s. *)
Definition int_div (a b : Z) : result Q :=
  if (b =? 0)%Z then Raise (mkExn "ZeroDivisionError" "division by zero")
  else Ok (inject_Z a / inject_Z b).

(** [sorted(l, reverse=True)] on numbers: a stable insertion sort, an
    element going in front of those that are not greater. *)
Fixpoint insert_desc (x : Q) (l : list Q) : list Q :=
  match l with
  | [] => [x]
  | y :: l' => if Qltb x y then y :: insert_desc x l' else x :: l
  end.

Definition sorted_desc (l : list Q) : list Q := fold_right insert_desc [] l.

End PyExt.

(* ===================================================================== *)
(** * services/image_analysis_service.py: content and damage *)
(* ===================================================================== *)

Module Damage.
Import Py PyExt.

(** ** The OpenCV array

    The functions below receive the decoded array.  As for
    [ImageAnalysis.image], the pixel computations of OpenCV and NumPy
    are represented by their results, one field for each group of
    library calls; the arithmetic on those results is the service's. *)

(** A contour, as the loops use it: [cv2.contourArea] and
    [cv2.boundingRect]. *)
Record contour := mkContour {
  area : Q;
  bbox : Z * Z * Z * Z
}.

Record pixels := mkPixels {
  (* [image.shape[:2]]: [(img_h, img_w)] *)
  shape : Z * Z;
  (* [cvtColor], [Canny(gray, 50, 150)] and
     [np.sum(edges > 0) / (edges.shape[0] * edges.shape[1])] *)
  edge_density : result Q;
  (* [np.sum(np.var(image, axis=(0, 1)))] *)
  total_variance : result Q;
  (* [cv2.Laplacian(gray, cv2.CV_64F).var()] *)
  texture_score : result Q;
  (* [findContours] of the dilated edge map *)
  damage_contours : result (list contour);
  (* [cvtColor(image, COLOR_BGR2HSV)], then for each of the two colour
     ranges of [car_colors] the contours of its mask *)
  colour_contours : result (list (list contour))
}.

(** ** [_detect_objects], [_detect_text_in_image] *)

Definition bbox_value (c : contour) : pyval :=
  let '(x, y, w, h) := bbox c in VList [VInt x; VInt y; VInt w; VInt h].

(** The inner loop over the contours of one mask. *)
Fixpoint collect_objects (contours : list contour) (detected : list pyval)
  : list pyval :=
  match contours with
  | [] => detected
  | c :: contours' =>
      collect_objects contours'
        (if Qgtb (area c) 1000
         then append detected
                (VDict [ ("type", VStr "vehicle_part");
                         ("confidence", VFloat 0.6);
                         ("bbox", bbox_value c);
                         ("area", VFloat (area c)) ])
         else detected)
  end.

Definition _detect_objects (image : pixels) (analysis_type : string) : list pyval :=
  match (masks <- colour_contours image ;;
         let detected_objects := [] in
         let detected_objects :=
           if String.eqb analysis_type "vehicle"
           then fold_left (fun detected contours => collect_objects contours detected)
                          masks detected_objects
           else detected_objects in
         Ok (firstn 10 detected_objects)) with
  | Ok detected => detected
  | Raise _ => []
  end.

Definition _detect_text_in_image (image : pixels) : list string := [].

(** ** [_assess_damage_severity] *)

Definition _assess_damage_severity (image : pixels) (damage_type : string) : dict :=
  match (edge_density <- edge_density image ;;
         total_variance <- total_variance image ;;
         texture_score <- texture_score image ;;
         let damage_indicators :=
           [ ("edge_density", VFloat edge_density);
             ("color_variance", VFloat total_variance);
             ("texture_irregularity", VFloat texture_score) ] in
         let '(severity_level, severity_score) :=
           if String.eqb damage_type "vehicle" then
             if Qgtb edge_density 0.1 && Qgtb total_variance 1000
             then ("severe", 0.8)
             else if Qgtb edge_density 0.05 && Qgtb total_variance 500
             then ("moderate", 0.5)
             else ("minor", 0.2)
           else
             let severity_score :=
               pymin 1.0 ((edge_density * 5 + total_variance / 1000) / 2) in
             if Qgtb severity_score 0.7 then ("severe", severity_score)
             else if Qgtb severity_score 0.4 then ("moderate", severity_score)
             else ("minor", severity_score) in
         Ok [ ("level", VStr severity_level);
              ("score", VFloat severity_score);
              ("indicators", VDict damage_indicators) ]) with
  | Ok severity => severity
  | Raise e =>
      [ ("level", VStr "unknown"); ("score", VFloat 0.5); ("error", VStr (exn_msg e)) ]
  end.

(** ** [_estimate_damage_cost] *)

Definition base_costs : list (string * list (string * Z)) :=
  [ ("vehicle", [ ("minor", 500); ("moderate", 2000); ("severe", 8000) ]);
    ("health", [ ("minor", 200); ("moderate", 1000); ("severe", 5000) ]);
    ("property", [ ("minor", 300); ("moderate", 1500); ("severe", 10000) ]) ]%Z.

(** [base_costs.get(damage_type, base_costs["property"])[severity_level]] *)
Definition base_cost_of (damage_type : string) (severity_level : pyval) : result Z :=
  let costs :=
    match table_get damage_type base_costs with
    | Some costs => costs
    | None => [ ("minor", 300); ("moderate", 1500); ("severe", 10000) ]%Z
    end in
  match severity_level with
  | VStr level =>
      match table_get level costs with
      | Some cost => Ok cost
      | None => Raise (KeyError level)
      end
  | VList _ | VDict _ => Raise (TypeError "unhashable type")
  | _ => Raise (KeyError "level")
  end.

Definition _estimate_damage_cost (image : pixels) (damage_type : string)
  (severity : dict) : Q :=
  match (let severity_level :=
           match dict_get "level" severity with
           | Some level => level
           | None => VStr "moderate"
           end in
         base_cost <- base_cost_of damage_type severity_level ;;
         severity_score <- get_num severity "score" 0.5 ;;
         let adjusted_cost := inject_Z base_cost * (0.5 + severity_score) in
         Ok (round2 adjusted_cost)) with
  | Ok cost => cost
  | Raise _ => 1000.0
  end.

(** ** [_identify_damage_locations], [_get_location_description] *)

Definition _get_location_description (rel_x rel_y : Q) (damage_type : string)
  : string :=
  if String.eqb damage_type "vehicle" then
    if Qltb rel_y 0.3 then "Upper section"
    else if Qgtb rel_y 0.7 then "Lower section"
    else if Qltb rel_x 0.3 then "Left side"
    else if Qgtb rel_x 0.7 then "Right side"
    else "Center section"
  else
    let h_pos := if Qltb rel_x 0.33 then "left"
                 else if Qgtb rel_x 0.66 then "right" else "center" in
    let v_pos := if Qltb rel_y 0.33 then "upper"
                 else if Qgtb rel_y 0.66 then "lower" else "middle" in
    v_pos ++ " " ++ h_pos.

(** One turn of the loop over the contours. *)
Definition locate (image : pixels) (damage_type : string)
  (locations : list pyval) (c : contour) : result (list pyval) :=
  if Qgtb (area c) 500 then
    let '(x, y, w, h) := bbox c in
    let '(img_h, img_w) := shape image in
    rel_x <- int_div x img_w ;;
    rel_y <- int_div y img_h ;;
    let location_desc := _get_location_description rel_x rel_y damage_type in
    Ok (append locations
          (VDict [ ("description", VStr location_desc);
                   ("bbox", bbox_value c);
                   ("relative_position", VList [VFloat rel_x; VFloat rel_y]);
                   ("area", VFloat (area c)) ]))
  else Ok locations.

Definition _identify_damage_locations (image : pixels) (damage_type : string)
  : list pyval :=
  match (contours <- damage_contours image ;;
         locations <- for_each contours (locate image damage_type) [] ;;
         Ok (firstn 5 locations)) with
  | Ok locations => locations
  | Raise _ => []
  end.

(** ** [_check_damage_consistency] *)

Definition expected_edge_density : list (string * Q) :=
  [ ("vehicle", 0.05); ("health", 0.02); ("property", 0.08) ].

Definition _check_damage_consistency (image : pixels) (damage_type : string)
  (severity : dict) : Q :=
  match (let consistency_score := 1.0 in
         edge_density <- edge_density image ;;
         let expected :=
           match table_get damage_type expected_edge_density with
           | Some e => e
           | None => 0.05
           end in
         let density_diff := Qabs' (edge_density - expected) / expected in
         let consistency_score :=
           if Qgtb density_diff 0.5 then consistency_score - 0.3
           else consistency_score in
         let severity_score :=
           match dict_get "score" severity with
           | Some score => score
           | None => VFloat 0.5
           end in
         (* [damage_type == "vehicle" and severity_score > 0.8]: the
            comparison is evaluated for a vehicle only *)
         _ <- (if String.eqb damage_type "vehicle" then
                 match as_num severity_score with
                 | Some _ => Ok tt
                 | None => Raise (TypeError "'>' not supported")
                 end
               else Ok tt) ;;
         Ok (pymax 0.0 consistency_score)) with
  | Ok score => score
  | Raise _ => 0.5
  end.

(** ** [_assess_damage] *)

Definition _assess_damage (image : pixels) (damage_type : string) : dict :=
  let damage_assessment := [] in
  let severity := _assess_damage_severity image damage_type in
  let damage_assessment := dict_set "severity" (VDict severity) damage_assessment in
  let estimated_cost := _estimate_damage_cost image damage_type severity in
  let damage_assessment :=
    dict_set "estimated_cost" (VFloat estimated_cost) damage_assessment in
  let damage_locations := _identify_damage_locations image damage_type in
  let damage_assessment :=
    dict_set "damage_locations" (VList damage_locations) damage_assessment in
  let consistency_score := _check_damage_consistency image damage_type severity in
  let damage_assessment :=
    dict_set "consistency_score" (VFloat consistency_score) damage_assessment in
  damage_assessment.

End Damage.

(* ===================================================================== *)
(** * services/ocr_service.py *)
(* ===================================================================== *)

Module Ocr.
Import Py PyExt.

(** ** The OCR engines

    EasyOCR and Tesseract read the pixels; what they return is data of
    the service.  One line of [easyocr_reader.readtext(image, detail=1)]
    is a triple [(bbox, text, confidence)]. *)
Record reading := mkReading {
  r_bbox : pyval;
  r_text : string;
  r_confidence : Q
}.

(** The columns of [pytesseract.image_to_data(..., output_type=Output.DICT)]
    that the service reads; the entries of [conf] are given as the
    integers [int(conf)] makes of them. *)
Record tess_data := mkTessData {
  d_conf : list Z;
  d_text : list string;
  d_left : list Z;
  d_top : list Z;
  d_width : list Z;
  d_height : list Z
}.

(** [l[i]] *)
Definition index {A : Type} (l : list A) (i : nat) : result A :=
  match nth_error l i with
  | Some x => Ok x
  | None => Raise (mkExn "IndexError" "list index out of range")
  end.

(** [sum(scores) / len(scores) if scores else 0] *)
Definition average (scores : list Q) : pyval :=
  match scores with
  | [] => VInt 0
  | _ => VFloat (fold_left Qplus scores 0 / Qof_nat (List.length scores))
  end.

(** ** [_get_tesseract_config] *)

Definition configs : list (string * string) :=
  [ ("medical_bill", "--psm 6"); ("invoice", "--psm 6"); ("receipt", "--psm 6");
    ("police_report", "--psm 4"); ("general", "--psm 3") ].

Definition _get_tesseract_config (document_type : string) : string :=
  match table_get document_type configs with
  | Some config => config
  | None => "--psm 3"
  end.

(** ** The extraction of structured data *)

(** One turn of the loop of [_extract_amounts]. *)
Definition scan_amount (m : string) : option Q :=
  let clean_amount := Re.sub "[^\d.]" "" m in
  if negb (len clean_amount =? 0)%nat && contains "." clean_amount then
    match float clean_amount with
    | Ok q => Some q
    | Raise _ => None
    end
  else None.

Fixpoint scan_amounts (matches : list string) : list Q :=
  match matches with
  | [] => []
  | m :: matches' =>
      match scan_amount m with
      | Some q => q :: scan_amounts matches'
      | None => scan_amounts matches'
      end
  end.

Definition _extract_amounts (text : string) : list Q :=
  let pattern := "\$?\s*\d{1,3}(?:,\d{3})*(?:\.\d{2})?" in
  let matches := Re.findall pattern text in
  sorted_desc (scan_amounts matches).

(** [list(set(dates))], in the order of first occurrence. *)
Definition _extract_dates (text : string) : list string :=
  let date_patterns :=
    [ "\d{1,2}/\d{1,2}/\d{4}"; "\d{1,2}-\d{1,2}-\d{4}"; "\d{4}-\d{1,2}-\d{1,2}";
      "\w+ \d{1,2}, \d{4}" ] in
  distinct (flat_map (fun pattern => Re.findall pattern text) date_patterns).

Definition _extract_phone_numbers (text : string) : list string :=
  Re.findall "\b\d{3}[-.]?\d{3}[-.]?\d{4}\b" text.

Definition _extract_emails (text : string) : list string :=
  Re.findall "\b[A-Za-z0-9._%+-]+@[A-Za-z0-9.-]+\.[A-Z|a-z]{2,}\b" text.

Definition _extract_medical_data (text : string) : dict :=
  let data := [] in
  let data :=
    match Re.search "(?:Patient|Name):\s*([A-Za-z\s]+)" true text with
    | Some patient_match =>
        dict_set "patient_name" (VStr (strip (Re.group patient_match 1))) data
    | None => data
    end in
  let data :=
    dict_set "diagnosis_codes"
      (VStrs (Re.findall "\b[A-Z]\d{2}(?:\.\d{1,2})?\b" text)) data in
  dict_set "procedure_codes" (VStrs (Re.findall "\b\d{5}\b" text)) data.

Definition _extract_vehicle_data (text : string) : dict :=
  let data := [] in
  let data :=
    match Re.search "\b[A-HJ-NPR-Z0-9]{17}\b" false text with
    | Some vin_match => dict_set "vin" (VStr (Re.m_text vin_match)) data
    | None => data
    end in
  match Re.findall "\b[A-Z0-9]{2,8}\b" text with
  | [] => data
  | plates => dict_set "license_plates" (VStrs plates) data
  end.

Definition _extract_invoice_data (text : string) : result dict :=
  let data := [] in
  let data :=
    match Re.search "(?:Invoice|Receipt|Bill)\s*#?\s*(\w+)" true text with
    | Some invoice_match =>
        dict_set "invoice_number" (VStr (Re.group invoice_match 1)) data
    | None => data
    end in
  match Re.search "(?:Tax|GST|VAT):\s*\$?(\d+(?:\.\d{2})?)" true text with
  | Some tax_match =>
      tax <- float (Re.group tax_match 1) ;;
      Ok (dict_set "tax_amount" (VFloat tax) data)
  | None => Ok data
  end.

Definition _extract_structured_data (text document_type : string) : dict :=
  match (let structured_data := [] in
         let structured_data :=
           dict_set "amounts" (VList (map VFloat (_extract_amounts text)))
                    structured_data in
         let structured_data :=
           dict_set "dates" (VStrs (_extract_dates text)) structured_data in
         let structured_data :=
           dict_set "phone_numbers" (VStrs (_extract_phone_numbers text))
                    structured_data in
         let structured_data :=
           dict_set "emails" (VStrs (_extract_emails text)) structured_data in
         if String.eqb document_type "medical_bill"
         then Ok (dict_update structured_data (_extract_medical_data text))
         else if String.eqb document_type "vehicle_estimate"
         then Ok (dict_update structured_data (_extract_vehicle_data text))
         else if existsb (String.eqb document_type) ["invoice"; "receipt"]
         then invoice_data <- _extract_invoice_data text ;;
              Ok (dict_update structured_data invoice_data)
         else Ok structured_data) with
  | Ok structured_data => structured_data
  | Raise _ => []
  end.

(** ** The engines' results *)

Section Engines.

(** A PIL image (one page), and the array [_preprocess_image] makes of
    it; [preprocess] is that function with its fallback. *)
Variables page array : Type.
Variable preprocess : page -> result array.

(** [self.easyocr_ready], [self.tesseract_ready] *)
Variables easyocr_ready tesseract_ready : bool.

(** [self.easyocr_reader.readtext(image, detail=1)] *)
Variable readtext : array -> result (list reading).

(** [pytesseract.image_to_string] and [pytesseract.image_to_data], by
    image and configuration *)
Variable image_to_string : array -> string -> result string.
Variable image_to_data : array -> string -> result tess_data.

(** [convert_from_bytes(pdf_bytes, dpi=300)] and
    [Image.open(io.BytesIO(content))] *)
Variable convert_from_bytes : list Byte.byte -> result (list page).
Variable image_open : list Byte.byte -> result page.

(** The two readings of [time.time()] subtracted. *)
Variable processing_time : Q.

(** What the engines promise: a reading of EasyOCR has a confidence of
    at most 1, a word of Tesseract one of at most 100. *)
Definition calibrated : Prop :=
  (forall image rs r, readtext image = Ok rs -> In r rs -> (r_confidence r <= 1)%Q) /\
  (forall image config data c,
     image_to_data image config = Ok data -> In c (d_conf data) -> (c <= 100)%Z).

(** One turn of the loop over the EasyOCR results; the state is
    [(extracted_text, confidence_scores, bounding_boxes)]. *)
Definition easyocr_step (acc : list string * list Q * list pyval) (r : reading)
  : list string * list Q * list pyval :=
  let '(extracted_text, confidence_scores, bounding_boxes) := acc in
  if Qgtb (r_confidence r) 0.3 then
    (append extracted_text (r_text r),
     append confidence_scores (r_confidence r),
     append bounding_boxes
       (VDict [ ("text", VStr (r_text r));
                ("confidence", VFloat (r_confidence r));
                ("bbox", r_bbox r) ]))
  else acc.

Definition _easyocr_extract (image : array) : dict :=
  match (results <- readtext image ;;
         let '(extracted_text, confidence_scores, bounding_boxes) :=
           fold_left easyocr_step results ([], [], []) in
         let combined_text := join " " extracted_text in
         let avg_confidence := average confidence_scores in
         Ok [ ("text", VStr combined_text);
              ("confidence", avg_confidence);
              ("bounding_boxes", VList bounding_boxes);
              ("engine", VStr "easyocr") ]) with
  | Ok result => result
  | Raise e =>
      [ ("text", VStr ""); ("confidence", VFloat 0.0); ("error", VStr (exn_msg e)) ]
  end.

(** One turn of the loop over [range(len(data['text']))]. *)
Definition tesseract_box (data : tess_data) (bounding_boxes : list pyval) (i : nat)
  : result (list pyval) :=
  conf <- index (d_conf data) i ;;
  if (30 <? conf)%Z then
    text <- index (d_text data) i ;;
    if negb (String.eqb (strip text) "") then
      left <- index (d_left data) i ;;
      top <- index (d_top data) i ;;
      width <- index (d_width data) i ;;
      height <- index (d_height data) i ;;
      Ok (append bounding_boxes
            (VDict [ ("text", VStr text);
                     ("confidence", VFloat (inject_Z conf / 100));
                     ("bbox", VList [VInt left; VInt top; VInt width; VInt height]) ]))
    else Ok bounding_boxes
  else Ok bounding_boxes.

Definition tesseract_average (confidences : list Z) : pyval :=
  match confidences with
  | [] => VInt 0
  | _ =>
      VFloat (inject_Z (fold_left Z.add confidences 0%Z)
              / Qof_nat (List.length confidences) / 100)
  end.

Definition _tesseract_extract (image : array) (document_type : string) : dict :=
  match (let config := _get_tesseract_config document_type in
         text <- image_to_string image config ;;
         data <- image_to_data image config ;;
         let confidences := filter (fun conf => (0 <? conf)%Z) (d_conf data) in
         let avg_confidence := tesseract_average confidences in
         bounding_boxes <-
           for_each (seq 0 (List.length (d_text data))) (tesseract_box data) [] ;;
         Ok [ ("text", VStr (strip text));
              ("confidence", avg_confidence);
              ("bounding_boxes", VList bounding_boxes);
              ("engine", VStr "tesseract") ]) with
  | Ok result => result
  | Raise e =>
      [ ("text", VStr ""); ("confidence", VFloat 0.0); ("error", VStr (exn_msg e)) ]
  end.

(** ** [_process_image] *)

Definition _process_image (image : page) (document_type : string) : dict :=
  match (processed_image <- preprocess image ;;
         good <-
           (if easyocr_ready then
              let result := _easyocr_extract processed_image in
              confidence <- dict_item "confidence" result ;;
              match as_num confidence with
              | Some c => if Qgtb c 0.5 then Ok (Some result) else Ok None
              | None => Raise (TypeError "'>' not supported")
              end
            else Ok None) ;;
         match good with
         | Some result => Ok result
         | None =>
             if tesseract_ready
             then Ok (_tesseract_extract processed_image document_type)
             else Raise (mkExn "Exception" "No OCR engine available")
         end) with
  | Ok result => result
  | Raise e =>
      [ ("text", VStr ""); ("confidence", VFloat 0.0); ("error", VStr (exn_msg e)) ]
  end.

(** ** [process_document] *)

(** [filename.lower().split('.')[-1] if '.' in filename else ''] *)
Definition file_ext (filename : string) : string :=
  if contains "." filename
  then last (split_on "." (lower filename)) ""
  else "".

Definition nl : string := String "010" "".
Definition page_break : string := nl ++ nl ++ "--- PAGE BREAK ---" ++ nl ++ nl.

Definition as_str (v : pyval) : result string :=
  match v with
  | VStr s => Ok s
  | _ => Raise (TypeError "sequence item: expected str instance")
  end.

Definition as_number (v : pyval) : result Q :=
  match as_num v with
  | Some q => Ok q
  | None => Raise (TypeError "unsupported operand type(s) for +")
  end.

(** One turn of the loop over the pages; the state is
    [(text_results, confidence_scores)]. *)
Definition page_step (document_type : string) (acc : list pyval * list pyval)
  (image : page) : result (list pyval * list pyval) :=
  let '(text_results, confidence_scores) := acc in
  let result := _process_image image document_type in
  text <- dict_item "text" result ;;
  let text_results := append text_results text in
  confidence <- dict_item "confidence" result ;;
  Ok (text_results, append confidence_scores confidence).

Definition process_document (content : list Byte.byte) (filename : string)
  (document_type : string) : result dict :=
  let file_ext := file_ext filename in
  read <-
    (if String.eqb file_ext "pdf" then
       images <- convert_from_bytes content ;;
       acc <- for_each images (page_step document_type) ([], []) ;;
       let '(text_results, confidence_scores) := acc in
       texts <- for_each text_results
                  (fun l v => s <- as_str v ;; Ok (append l s)) [] ;;
       let combined_text := join page_break texts in
       avg_confidence <-
         match confidence_scores with
         | [] => Ok (VInt 0)
         | _ =>
             scores <- for_each confidence_scores
                         (fun l v => q <- as_number v ;; Ok (append l q)) [] ;;
             Ok (VFloat (fold_left Qplus scores 0
                         / Qof_nat (List.length confidence_scores)))
         end ;;
       Ok (VStr combined_text, avg_confidence, List.length images)
     else if existsb (String.eqb file_ext) ["jpg"; "jpeg"; "png"; "bmp"; "tiff"] then
       image <- image_open content ;;
       let result := _process_image image document_type in
       combined_text <- dict_item "text" result ;;
       avg_confidence <- dict_item "confidence" result ;;
       Ok (combined_text, avg_confidence, 1%nat)
     else Raise (ValueError ("Unsupported file type: " ++ file_ext))) ;;
  let '(combined_text, avg_confidence, pages_processed) := read in
  (* a text that is no string makes the first [re.findall] raise inside
     the [try] of [_extract_structured_data] *)
  let structured_data :=
    match combined_text with
    | VStr text => _extract_structured_data text document_type
    | _ => []
    end in
  Ok [ ("text", combined_text);
       ("confidence", avg_confidence);
       ("structured_data", VDict structured_data);
       ("metadata",
        VDict [ ("filename", VStr filename);
                ("document_type", VStr document_type);
                ("file_type", VStr file_ext);
                ("pages_processed", VNat pages_processed) ]);
       ("processing_time", VFloat processing_time) ].

End Engines.

End Ocr.

(* ===================================================================== *)
(** * utils/auth.py *)
(* ===================================================================== *)

Module Auth.
Import Py PyExt.

(** What a call raises: FastAPI's [HTTPException] with its status code
    and detail, or another exception. *)
Inductive raised : Type :=
| HTTPException (status_code : Z) (detail : string)
| Exception (e : exn).

Inductive outcome (A : Type) : Type :=
| Return (a : A)
| Raises (r : raised).

Arguments Return {A} a.
Arguments Raises {A} r.

(** [rate_limit_storage]: the time stamps of the requests let through,
    by API key. *)
Definition storage : Type := list (string * list Z).

(** ** [get_client_permissions], [get_rate_limit] *)

Definition permissions : list (string * list (string * bool)) :=
  [ ("chainsure_backend",
     [ ("analyze_claim", true); ("process_document", true);
       ("analyze_image", true); ("batch_process", true);
       ("admin_endpoints", false) ]);
    ("chainsure_admin",
     [ ("analyze_claim", true); ("process_document", true);
       ("analyze_image", true); ("batch_process", true);
       ("admin_endpoints", true) ]);
    ("chainsure_test",
     [ ("analyze_claim", true); ("process_document", true);
       ("analyze_image", false); ("batch_process", false);
       ("admin_endpoints", false) ]) ].

Definition get_client_permissions (client_name : string) : list (string * bool) :=
  match table_get client_name permissions with
  | Some p => p
  | None => []
  end.

Definition rate_limits : list (string * list (string * Z)) :=
  [ ("chainsure_backend", [ ("requests_per_minute", 100%Z) ]);
    ("chainsure_admin", [ ("requests_per_minute", 200%Z) ]);
    ("chainsure_test", [ ("requests_per_minute", 10%Z) ]) ].

Definition get_rate_limit (client_name : string) : list (string * Z) :=
  match table_get client_name rate_limits with
  | Some r => r
  | None => [ ("requests_per_minute", 10%Z) ]
  end.

(** ** [check_rate_limit]

    [current_time] is the reading of [int(time.time())].  The storage is
    updated before the limit is tested, so a refused request still
    drops the expired time stamps.  A [rate_limit] without the key
    raises [KeyError], which the function logs and ignores. *)
Definition check_rate_limit (api_key : string) (rate_limit : list (string * Z))
  (current_time : Z) (rate_limit_storage : storage) : outcome unit * storage :=
  let window_start := (current_time - 60)%Z in
  let rate_limit_storage :=
    match table_get api_key rate_limit_storage with
    | Some stamps =>
        table_set api_key
          (filter (fun timestamp => (window_start <? timestamp)%Z) stamps)
          rate_limit_storage
    | None => table_set api_key [] rate_limit_storage
    end in
  let stamps :=
    match table_get api_key rate_limit_storage with
    | Some stamps => stamps
    | None => []
    end in
  let current_requests := Z.of_nat (List.length stamps) in
  match table_get "requests_per_minute" rate_limit with
  | None => (Return tt, rate_limit_storage)
  | Some max_requests =>
      if (max_requests <=? current_requests)%Z then
        (Raises (HTTPException 429
                   ("Rate limit exceeded. Maximum " ++ str_of_Z max_requests
                    ++ " requests per minute.")),
         rate_limit_storage)
      else
        (Return tt,
         table_set api_key (append stamps current_time) rate_limit_storage)
  end.

(** ** [verify_api_key] *)

Section Environment.

(** [os.getenv(name)] when the module is imported. *)
Variable getenv : string -> option string.

Definition getenv_or (name default : string) : string :=
  match getenv name with
  | Some value => value
  | None => default
  end.

Definition API_KEYS : list (string * string) :=
  [ ("chainsure_backend", getenv_or "BACKEND_API_KEY" "chainsure_dev_key_2024");
    ("chainsure_admin", getenv_or "ADMIN_API_KEY" "chainsure_admin_key_2024");
    ("chainsure_test", getenv_or "TEST_API_KEY" "chainsure_test_key_2024") ].

(** The loop over [API_KEYS.items()], left at the first key that is
    equal. *)
Fixpoint find_client (api_key : string) (keys : list (string * string))
  : option string :=
  match keys with
  | [] => None
  | (client_name, valid_key) :: keys' =>
      if String.eqb api_key valid_key then Some client_name
      else find_client api_key keys'
  end.

Definition client_info_of (client_name : string) : dict :=
  [ ("client_name", VStr client_name);
    ("permissions",
     VDict (map (fun kv => (fst kv, VBool (snd kv)))
                (get_client_permissions client_name)));
    ("rate_limit",
     VDict (map (fun kv => (fst kv, VInt (snd kv))) (get_rate_limit client_name))) ].

(** [client_info["rate_limit"]] is [get_rate_limit(client_name)], which
    is what [check_rate_limit] is given here. *)
Definition verify_api_key (api_key : string) (current_time : Z)
  (rate_limit_storage : storage) : outcome dict * storage :=
  if String.eqb api_key "" then
    (Raises (HTTPException 401 "API key is required"), rate_limit_storage)
  else
    match find_client api_key API_KEYS with
    | None => (Raises (HTTPException 401 "Invalid API key"), rate_limit_storage)
    | Some client_name =>
        let client_info := client_info_of client_name in
        match check_rate_limit api_key (get_rate_limit client_name)
                               current_time rate_limit_storage with
        | (Return _, rate_limit_storage) => (Return client_info, rate_limit_storage)
        | (Raises (HTTPException status_code detail), rate_limit_storage) =>
            (Raises (HTTPException status_code detail), rate_limit_storage)
        | (Raises (Exception _), rate_limit_storage) =>
            (Raises (HTTPException 500 "Authentication service error"),
             rate_limit_storage)
        end
    end.

(** The server answering a sequence of calls, each with its API key and
    the reading of the clock; the state is the list of the calls let
    through and the storage. *)
Definition serve (state : list (string * Z) * storage) (call : string * Z)
  : list (string * Z) * storage :=
  let '(served, rate_limit_storage) := state in
  let '(api_key, current_time) := call in
  match verify_api_key api_key current_time rate_limit_storage with
  | (Return _, rate_limit_storage) =>
      (append served (api_key, current_time), rate_limit_storage)
  | (Raises _, rate_limit_storage) => (served, rate_limit_storage)
  end.

Definition session (calls : list (string * Z)) : list (string * Z) * storage :=
  fold_left serve calls ([], []).

End Environment.

(** ** [validate_permissions] *)

Definition validate_permissions (client_info : dict) (required_permission : string)
  : result pyval :=
  match dict_get "permissions" client_info with
  | None => Ok (VBool false)
  | Some (VDict permissions) =>
      match dict_get required_permission permissions with
      | Some allowed => Ok allowed
      | None => Ok (VBool false)
      end
  | Some _ => Raise (mkExn "AttributeError" "object has no attribute 'get'")
  end.

End Auth.

(* ===================================================================== *)
(** * main.py and models/analysis_models.py *)
(* ===================================================================== *)

Module Api.
Import Py PyExt Auth.

(** ** The declared models

    A numeric field declared with [Field(..., ge=lo, le=hi)], by model
    and field name; [None] is a bound that is not declared. *)
Definition declared_bounds : list (string * list (string * (option Q * option Q))) :=
  [ ("FraudAnalysisResult", [ ("fraudScore", (Some 0, Some 1)) ]);
    ("DocumentValidation", [ ("validationScore", (Some 0, Some 1)) ]);
    ("ClaimAnalysisResponse",
     [ ("fraudScore", (Some 0, Some 1));
       ("authenticityScore", (Some 0, Some 1));
       ("estimatedAmount", (Some 0, None));
       ("confidence", (Some 0, Some 1)) ]);
    ("DocumentProcessingResponse", [ ("confidence", (Some 0, Some 1)) ]) ]%Q.

Definition within (bounds : option Q * option Q) (v : Q) : bool :=
  match fst bounds with Some lo => Qle_bool lo v | None => true end
  && match snd bounds with Some hi => Qle_bool v hi | None => true end.

(** The keyword arguments [fields] give every bounded field of [model]
    a number within its bounds. *)
Definition meets_bounds (model : string) (fields : dict) : bool :=
  match table_get model declared_bounds with
  | Some bounds =>
      forallb (fun fb =>
                 match num_at (fst fb) fields with
                 | Some v => within (snd fb) v
                 | None => false
                 end) bounds
  | None => true
  end.

(** [class DocumentType(str, Enum)] *)
Definition document_types : list string :=
  [ "medical_bill"; "prescription"; "hospital_report"; "vehicle_estimate";
    "police_report"; "invoice"; "receipt"; "photo_id"; "insurance_card";
    "general" ].

(** [DocumentType(value)] *)
Definition DocumentType (value : string) : result pyval :=
  if existsb (String.eqb value) document_types then Ok (VStr value)
  else Raise (ValueError ("'" ++ value ++ "' is not a valid DocumentType")).

Record ClaimAnalysisRequest := mkClaimAnalysisRequest {
  claimId : string;
  claimType : string;
  requestedAmount : Q;
  description : string
}.

Definition lift {A : Type} (r : result A) : outcome A :=
  match r with
  | Ok a => Return a
  | Raise e => Raises (Exception e)
  end.

(** [d.get(k, default)] *)
Definition get_or (d : dict) (k : string) (default : pyval) : pyval :=
  match dict_get k d with
  | Some v => v
  | None => default
  end.

(** ** [get_client_info] *)

Definition development_client : dict :=
  [ ("client_name", VStr "development"); ("api_key", VStr "dev_key") ].

Section Application.

Variable getenv : string -> option string.

(** [credentials] is [None] when the credentials object has no
    [credentials] attribute to read. *)
Definition get_client_info (credentials : option string) (current_time : Z)
  (rate_limit_storage : storage) : dict * storage :=
  match credentials with
  | None => (development_client, rate_limit_storage)
  | Some api_key =>
      match verify_api_key getenv api_key current_time rate_limit_storage with
      | (Return client_info, rate_limit_storage) =>
          if negb (truthy (VDict client_info))
          then (development_client, rate_limit_storage)
          else (client_info, rate_limit_storage)
      | (Raises _, rate_limit_storage) => (development_client, rate_limit_storage)
      end
  end.

(** ** The endpoints

    The response models are pydantic classes: a constructor validates
    its keyword arguments and raises or returns the model.  [describe]
    is [str(e)], [percent] the format [{:.1%}]. *)
Variable FraudAnalysisResult : dict -> result pyval.
Variable ClaimAnalysisResponse : dict -> result pyval.
Variable DocumentValidation : dict -> result pyval.
Variable DocumentProcessingResponse : dict -> result pyval.
Variable describe : raised -> string.
Variable percent : pyval -> result string.
Variable processedAt : string.
Variable processingTime : Q.

(** [fraud_service and fraud_service.is_ready()] *)
Variable fraud_service_ready : bool.

(** The keyword arguments of [FraudAnalysisResult(...)]. *)
Definition fraud_result_fields (fraud_analysis : dict) : result dict :=
  fraud_score <- dict_item "fraud_score" fraud_analysis ;;
  Ok [ ("fraudScore", fraud_score);
       ("riskFactors", get_or fraud_analysis "risk_factors" (VList []));
       ("consistencyCheck", VDict []);
       ("anomalies", get_or fraud_analysis "issues" (VList [])) ].

(** The keyword arguments of [ClaimAnalysisResponse(...)], evaluated in
    the order they are written. *)
Definition claim_response_fields (request : ClaimAnalysisRequest)
  (fraud_analysis : dict) : result dict :=
  fraud_score <- dict_item "fraud_score" fraud_analysis ;;
  inner <- fraud_result_fields fraud_analysis ;;
  fraud_result <- FraudAnalysisResult inner ;;
  shown <- percent (get_or fraud_analysis "confidence" (VFloat 0.8)) ;;
  Ok [ ("claimId", VStr (claimId request));
       ("claimType", VStr (claimType request));
       ("fraudScore", fraud_score);
       ("authenticityScore", get_or fraud_analysis "confidence" (VFloat 0.8));
       ("estimatedAmount", VFloat (requestedAmount request));
       ("confidence", get_or fraud_analysis "confidence" (VFloat 0.8));
       ("detectedIssues", get_or fraud_analysis "issues" (VList []));
       ("fraudAnalysis", fraud_result);
       ("recommendation",
        get_or fraud_analysis "recommendation" (VStr "manual_review"));
       ("reasoning",
        VStr ("CPU-based AI analysis completed with " ++ shown ++ " confidence"));
       ("processedAt", VStr processedAt);
       ("processingTime", VFloat processingTime) ].

Definition analyze_claim (request : ClaimAnalysisRequest) : outcome pyval :=
  match (if negb fraud_service_ready then
           Raises (HTTPException 503 "Fraud detection service not available")
         else
           let fraud_analysis :=
             Fraud.analyze_text (Some (description request)) (claimType request)
                                (requestedAmount request) in
           lift (fields <- claim_response_fields request fraud_analysis ;;
                 ClaimAnalysisResponse fields)) with
  | Return response => Return response
  | Raises e => Raises (HTTPException 500 ("Analysis failed: " ++ describe e))
  end.

(** *** [process_document] *)

Variables page array : Type.
Variable preprocess : page -> result array.
Variables easyocr_ready tesseract_ready : bool.
Variable readtext : array -> result (list Ocr.reading).
Variable image_to_string : array -> string -> result string.
Variable image_to_data : array -> string -> result Ocr.tess_data.
Variable convert_from_bytes : list Byte.byte -> result (list page).
Variable image_open : list Byte.byte -> result page.
Variable ocr_time : Q.

(** [ocr_service] is set, and the reading of [datetime.now()] in the
    validator. *)
Variable ocr_service_set : bool.
Variable now : datetime.

Definition max_file_size_mb : Z := 50.

(** The text handed to the validator. *)
Definition text_argument (v : pyval) : option string :=
  match v with
  | VStr s => Some s
  | _ => None
  end.

(** The keyword arguments of [DocumentValidation(...)]. *)
Definition validation_fields (validation_result : dict) : result dict :=
  is_valid <- dict_item "is_valid" validation_result ;;
  validation_score <- dict_item "validation_score" validation_result ;;
  issues <- dict_item "issues" validation_result ;;
  extracted_data <- dict_item "extracted_data" validation_result ;;
  Ok [ ("isValid", is_valid);
       ("validationScore", validation_score);
       ("issues", issues);
       ("extractedData", extracted_data) ].

(** The keyword arguments of [DocumentProcessingResponse(...)]. *)
Definition document_response_fields (filename document_type : string)
  (ocr_result validation_result : dict) : result dict :=
  document_type_member <- DocumentType document_type ;;
  text <- dict_item "text" ocr_result ;;
  confidence <- dict_item "confidence" ocr_result ;;
  inner <- validation_fields validation_result ;;
  validation <- DocumentValidation inner ;;
  Ok [ ("filename", VStr filename);
       ("documentType", document_type_member);
       ("status", VStr "success");
       ("text", text);
       ("confidence", confidence);
       ("validation", validation);
       ("extractedFields", get_or ocr_result "structured_data" (VDict []));
       ("metadata", get_or ocr_result "metadata" (VDict []));
       ("processingTime", VFloat processingTime) ].

Definition process_document (content : list Byte.byte) (filename : string)
  (document_type : string) : outcome pyval :=
  match (if (max_file_size_mb * 1024 * 1024 <? Z.of_nat (List.length content))%Z then
           Raises (HTTPException 413 "File too large")
         else if negb (ocr_service_set && (tesseract_ready || easyocr_ready)) then
           Raises (HTTPException 503 "OCR service not available")
         else
           lift (ocr_result <-
                   Ocr.process_document page array preprocess easyocr_ready
                     tesseract_ready readtext image_to_string image_to_data
                     convert_from_bytes image_open ocr_time
                     content filename document_type ;;
                 text <- dict_item "text" ocr_result ;;
                 let validation_result :=
                   Validator.validate_document now content filename document_type
                     (text_argument text) in
                 fields <- document_response_fields filename document_type
                             ocr_result validation_result ;;
                 DocumentProcessingResponse fields)) with
  | Return response => Return response
  | Raises e =>
      Raises (HTTPException 500 ("Document processing failed: " ++ describe e))
  end.

End Application.

End Api.

(* ===================================================================== *)
(** * Concrete inputs, continued *)
(* ===================================================================== *)

Module Cases.
Import Py.

(** No variable of the environment is set: the keys are the defaults. *)
Definition no_env (name : string) : option string := None.

Definition test_key : string := "chainsure_test_key_2024".

(** A uniform black thumbnail of 4x4 pixels with the metadata of
    [Scenarios.uniform_image].  In [_check_compression_artifacts] the
    two loops over the 8x8 blocks, [range(0, h-8, 8)] and
    [range(0, w-8, 8)], are empty, so [block_variance] is still the
    [int] 0 when it is divided by the number of blocks,
    [(h//8) * (w//8)], which is 0. *)
Definition thumbnail : ImageAnalysis.image :=
  ImageAnalysis.mkImage
    (block_variance <- PyExt.int_div 0 ((4 / 8) * (4 / 8))%Z ;;
     Ok (0%Q, block_variance))
    (Ok (0%Q, 0%Q, 0%Q)) (Ok 0%nat) (Ok (0%nat, 0%nat))
    (Ok (Some Scenarios.consistent_exif)) (4, 4)%Z (Ok (0%Q, 0%Q, 0%Q))
    (Ok [ ("mode", VStr "RGB") ]) (fun _ => Ok []) (fun _ => Ok []).

(** Twelve calls of the test client in twelve seconds, and one more a
    minute later. *)
Definition burst : list (string * Z) :=
  map (fun t => (test_key, t)) [0; 1; 2; 3; 4; 5; 6; 7; 8; 9; 10; 11; 70]%Z.

(** A desk scanner: pages are numbered, EasyOCR reads three fragments
    of which one is weak, Tesseract reads the same line. *)
Definition desk_preprocess (p : nat) : result nat := Ok p.

Definition desk_readtext (image : nat) : result (list Ocr.reading) :=
  Ok [ Ocr.mkReading VNone "Receipt" 0.95;
       Ocr.mkReading VNone "Total $12.50" 0.8;
       Ocr.mkReading VNone "~" 0.1 ].

Definition desk_image_to_string (image : nat) (config : string) : result string :=
  Ok "Receipt Total $12.50".

Definition desk_image_to_data (image : nat) (config : string)
  : result Ocr.tess_data :=
  Ok (Ocr.mkTessData [96; 91; -1]%Z ["Receipt"; "Total $12.50"; ""]
                     [10; 90; 0]%Z [12; 12; 0]%Z [70; 110; 0]%Z [20; 20; 0]%Z).

Definition desk_pdf (content : list Byte.byte) : result (list nat) :=
  Ok [0; 1]%nat.

Definition desk_open (content : list Byte.byte) : result nat := Ok 0%nat.

(** A photograph of a dented door: dense edges, strong colour variance. *)
Definition dented_door : Damage.pixels :=
  Damage.mkPixels (480, 640)%Z (Ok 0.04) (Ok 700) (Ok 35) (Ok []) (Ok []).

End Cases.

(* ===================================================================== *)
(** * Facts about the runtime fragment *)
(* ===================================================================== *)

Module PyFacts.
Import Py.

Local Open Scope Q_scope.

(** Case analysis on every test of the goal. *)
Ltac split_tests :=
  repeat match goal with
  | |- context [if ?c then _ else _] => destruct c
  end.

(** Case analysis on the computation a hypothesis is stuck on. *)
Ltac split_binds H :=
  repeat match type of H with
  | match ?c with _ => _ end = _ => destruct c; try discriminate
  | (let '(_, _) := ?c in _) = _ => destruct c
  end.

(** ** [min] and [max] *)

Lemma pymin_le_l (a b : Q) : pymin a b <= a.
Proof. unfold pymin. destruct (Qlt_le_dec b a); lra. Qed.

Lemma pymin_le_r (a b : Q) : pymin a b <= b.
Proof. unfold pymin. destruct (Qlt_le_dec b a); lra. Qed.

Lemma pymin_glb (a b c : Q) : c <= a -> c <= b -> c <= pymin a b.
Proof. unfold pymin. destruct (Qlt_le_dec b a); lra. Qed.

Lemma pymax_ge_l (a b : Q) : a <= pymax a b.
Proof. unfold pymax. destruct (Qlt_le_dec a b); lra. Qed.

Lemma pymax_ge_r (a b : Q) : b <= pymax a b.
Proof. unfold pymax. destruct (Qlt_le_dec a b); lra. Qed.

Lemma pymax_lub (a b c : Q) : a <= c -> b <= c -> pymax a b <= c.
Proof. unfold pymax. destruct (Qlt_le_dec a b); lra. Qed.

Lemma pymin_mono (a b b' : Q) : b <= b' -> pymin a b <= pymin a b'.
Proof.
  unfold pymin. destruct (Qlt_le_dec b a), (Qlt_le_dec b' a); lra.
Qed.

Lemma pymax_mono (a b b' : Q) : b <= b' -> pymax a b <= pymax a b'.
Proof.
  unfold pymax. destruct (Qlt_le_dec a b), (Qlt_le_dec a b'); lra.
Qed.

(** [max(0.0, min(1.0, x))] and [min(1.0, max(0.0, x))] are in [0, 1]. *)
Lemma clamp_max_min (x : Q) : 0 <= pymax 0.0 (pymin 1.0 x) <= 1.
Proof.
  split.
  - apply (Qle_trans _ 0.0); [lra | apply pymax_ge_l].
  - apply pymax_lub; [lra |].
    apply (Qle_trans _ 1.0); [apply pymin_le_l | lra].
Qed.

Lemma clamp_min_max (x : Q) : 0 <= pymin 1.0 (pymax 0.0 x) <= 1.
Proof.
  split.
  - apply pymin_glb; [lra |].
    apply (Qle_trans _ 0.0); [lra | apply pymax_ge_l].
  - apply (Qle_trans _ 1.0); [apply pymin_le_l | lra].
Qed.

Lemma Qgeb_iff (a b : Q) : Qgeb a b = true <-> b <= a.
Proof. unfold Qgeb. apply Qle_bool_iff. Qed.

Lemma Qltb_iff (a b : Q) : Qltb a b = true <-> a < b.
Proof.
  unfold Qltb. rewrite negb_true_iff.
  split; intro H.
  - apply Qnot_le_lt. intro L. apply Qle_bool_iff in L. congruence.
  - destruct (Qle_bool b a) eqn:E; [| reflexivity].
    apply Qle_bool_iff in E. lra.
Qed.

Lemma Qof_nat_le (n m : nat) : (n <= m)%nat -> Qof_nat n <= Qof_nat m.
Proof.
  intro H. unfold Qof_nat. rewrite <- Zle_Qle. lia.
Qed.

Lemma Qof_nat_pos (n : nat) : (0 < n)%nat -> 0 < Qof_nat n.
Proof.
  intro H. unfold Qof_nat. replace 0 with (inject_Z 0) by reflexivity.
  rewrite <- Zlt_Qlt. lia.
Qed.

(** ** Dictionaries *)

Lemma dict_get_set_eq (k : string) (v : pyval) (d : dict) :
  dict_get k (dict_set k v d) = Some v.
Proof.
  induction d as [| [k' v'] d IH]; simpl.
  - now rewrite String.eqb_refl.
  - destruct (String.eqb k k') eqn:E; simpl; now rewrite E.
Qed.

Lemma dict_get_set_neq (k k' : string) (v : pyval) (d : dict) :
  k <> k' -> dict_get k (dict_set k' v d) = dict_get k d.
Proof.
  intro N. induction d as [| [k0 v0] d IH]; simpl.
  - destruct (String.eqb k k') eqn:E; [| reflexivity].
    apply String.eqb_eq in E. contradiction.
  - destruct (String.eqb k' k0) eqn:E; simpl.
    + apply String.eqb_eq in E. subst k0.
      destruct (String.eqb k k') eqn:E'; [| reflexivity].
      apply String.eqb_eq in E'. contradiction.
    + now rewrite IH.
Qed.

Lemma as_strs_map (l : list string) : as_strs (map VStr l) = Some l.
Proof.
  induction l as [| s l IH]; simpl; [reflexivity |]. now rewrite IH.
Qed.

Lemma strs_at_VStrs (k : string) (l : list string) (d : dict) :
  dict_get k d = Some (VStrs l) -> strs_at k d = Some l.
Proof. unfold strs_at, VStrs. intros ->. apply as_strs_map. Qed.

(** ** Substrings *)

Lemma chars_app (a b : string) : chars (a ++ b) = (chars a ++ chars b)%list.
Proof.
  unfold chars. induction a as [| c a IH]; simpl; [reflexivity |]. now rewrite IH.
Qed.

Lemma starts_with_app (p l : list ascii) : starts_with p (p ++ l)%list = true.
Proof.
  induction p as [| c p IH]; simpl; [reflexivity |].
  now rewrite Ascii.eqb_refl, IH.
Qed.

Lemma contains_chars_prefix (p l : list ascii) :
  starts_with p l = true -> contains_chars p l = true.
Proof. destruct l; simpl; intros ->; reflexivity. Qed.

Lemma contains_chars_app (p a b : list ascii) :
  contains_chars p (a ++ p ++ b)%list = true.
Proof.
  induction a as [| c a IH].
  - cbn [app]. apply contains_chars_prefix, starts_with_app.
  - cbn [app contains_chars]. rewrite IH. apply orb_true_r.
Qed.

Lemma contains_middle (p a b : string) : contains p (a ++ p ++ b) = true.
Proof.
  unfold contains. rewrite !chars_app. apply contains_chars_app.
Qed.

Lemma append_assoc (a b c : string) : (a ++ b) ++ c = a ++ (b ++ c).
Proof. induction a as [| x a IH]; simpl; [reflexivity |]. now rewrite IH. Qed.

Lemma append_empty (a : string) : a ++ "" = a.
Proof. induction a as [| x a IH]; simpl; [reflexivity |]. now rewrite IH. Qed.

Lemma contains_suffix (p a : string) : contains p (a ++ p) = true.
Proof.
  rewrite <- (append_empty p) at 2. apply contains_middle.
Qed.

End PyFacts.

(* ===================================================================== *)
(** * Facts about the pattern matcher *)
(* ===================================================================== *)

Module ReSpec.
Import Py Re Patterns.

Lemma service_patterns_compile : forallb compiles service_patterns = true.
Proof. vm_compute. reflexivity. Qed.

(** The amount pattern, compiled. *)
Example amount_pattern_compiled :
  compile Fraud.amount_pattern =
  Some (RSeq (RRepeat (RChar "$") 0 (Some 1%nat))
         (RSeq (RRepeat (RSet false [CSpace]) 0 None)
           (RSeq (RRepeat (RSet false [CDigit]) 1 (Some 3%nat))
             (RSeq (RRepeat (RSeq (RChar ",")
                                  (RRepeat (RSet false [CDigit]) 3 (Some 3%nat)))
                            0 None)
                   (RRepeat (RSeq (RChar ".")
                                  (RRepeat (RSet false [CDigit]) 2 (Some 2%nat)))
                            0 (Some 1%nat))))),
        0%nat).
Proof. vm_compute. reflexivity. Qed.

(** Matches as [re.findall] reports them. *)
Example findall_amounts :
  findall Fraud.amount_pattern "paid $1,234.56 and $500 on 1/2/2020"
  = [ "$1,234.56"; "$500"; " 1"; "2"; "202"; "0" ].
Proof. vm_compute. reflexivity. Qed.

Example findall_backreference :
  findall "(.)\1{5,}" "ok aaaaaaa ----- ======" = [ "a"; "=" ].
Proof. vm_compute. reflexivity. Qed.

Example search_ignores_case :
  option_map (fun m => group m 1)
    (search "(?:Patient|Name):\s*([A-Za-z\s]+)" true "PATIENT: Jane Doe, 42")
  = Some "Jane Doe".
Proof. vm_compute. reflexivity. Qed.

Example word_boundary :
  findall "\b\d{5}\b" "99213 x123456 12345. 1234" = [ "99213"; "12345" ].
Proof. vm_compute. reflexivity. Qed.

Example sub_cleans_amount : sub "[^\d.]" "" " $1,234.56" = "1234.56".
Proof. vm_compute. reflexivity. Qed.

End ReSpec.

(* ===================================================================== *)
(** * The text fraud signal engine *)
(* ===================================================================== *)

Module FraudSpec.
Import Py PyFacts Fraud Scenarios.

Local Open Scope Q_scope.

(** ** The shape of the feature bags *)

Lemma text_features_shape (t : string) :
  _extract_text_features (Some t) =
  Ok [ ("text_length", VNat (len t));
       ("word_count", VNat (word_count t));
       ("sentence_count", VNat (List.length (split_on "." t)));
       ("fraud_keyword_count", VNat (fraud_keyword_count t));
       ("fraud_keyword_ratio",
        VFloat (Qof_nat (fraud_keyword_count t) / Qof_nat (Nat.max (word_count t) 1)));
       ("detected_fraud_keywords", VStrs (detected_keywords t));
       ("uppercase_ratio",
        VFloat (Qof_nat (count_chars is_upper t) / Qof_nat (Nat.max (len t) 1)));
       ("punctuation_ratio",
        VFloat (Qof_nat (count_chars is_punct t) / Qof_nat (Nat.max (len t) 1)));
       ("word_repetition_ratio",
        VFloat (1 - Qof_nat (List.length (distinct (split_ws (lower t))))
                    / Qof_nat (Nat.max (List.length (split_ws (lower t))) 1))) ].
Proof. reflexivity. Qed.

Lemma amounts_shape (t ct : string) (amt : Q) :
  exists ea n mx ac rr an mxq rrq,
    as_num mx = Some mxq /\ as_num rr = Some rrq /\
    _analyze_amounts (Some t) ct amt =
    Ok [ ("extracted_amounts", VList ea); ("amount_count", VNat n);
         ("max_extracted_amount", mx); ("amount_consistency", VFloat ac);
         ("round_amount_ratio", rr); ("amount_anomaly_score", VFloat an) ].
Proof.
  unfold _analyze_amounts.
  destruct (extracted_amounts t) as [| a l]; repeat eexists; reflexivity.
Qed.

Lemma patterns_shape (t : string) (pf : dict) :
  _check_suspicious_patterns (Some t) = Ok pf ->
  exists mi si,
    pf = [ ("missing_info_count", VNat mi);
           ("suspicious_indicators", VStrs si);
           ("suspicious_pattern_count", VNat (List.length si)) ].
Proof.
  unfold _check_suspicious_patterns, bind.
  match goal with
  | |- match ?c with _ => _ end = _ -> _ => destruct c as [si | e]
  end; intro H; [| discriminate].
  injection H as <-. now repeat eexists.
Qed.

Lemma consistency_shape (t ct : string) (cf : dict) :
  _analyze_consistency (Some t) ct = Ok cf ->
  exists ci,
    cf = [ ("consistency_issues", VStrs ci);
           ("consistency_score",
            VFloat (pymax 0 (1 - Qof_nat (List.length ci) * 0.2))) ].
Proof.
  unfold _analyze_consistency, bind.
  match goal with
  | |- match ?c with _ => _ end = _ -> _ => destruct c as [ci | e]
  end; intro H; [| discriminate].
  injection H as <-. now repeat eexists.
Qed.

(** ** The report *)

(** A report that is produced carries the score it was given. *)
Lemma report_score (F : dict) (s : Q) (ct : string) (r : dict) :
  _generate_fraud_report F s ct = Ok r -> num_at "fraud_score" r = Some s.
Proof.
  unfold _generate_fraud_report, bind. intro H.
  split_binds H.
  injection H as <-. reflexivity.
Qed.

(** On the feature bags of the four extractors the report never fails. *)
Lemma report_ok (t ct : string) (amt : Q) (af pf cf : dict) (s : Q) :
  _analyze_amounts (Some t) ct amt = Ok af ->
  _check_suspicious_patterns (Some t) = Ok pf ->
  _analyze_consistency (Some t) ct = Ok cf ->
  forall tf, _extract_text_features (Some t) = Ok tf ->
  exists r, _generate_fraud_report (combine tf af pf cf) s ct = Ok r.
Proof.
  intros Ha Hp Hc tf Ht.
  rewrite text_features_shape in Ht. injection Ht as <-.
  destruct (amounts_shape t ct amt)
    as (ea & n & mx & ac & rr & an & mxq & rrq & Hmx & Hrr & Ha').
  rewrite Ha' in Ha. injection Ha as <-.
  destruct (patterns_shape _ _ Hp) as (mi & si & ->).
  destruct (consistency_shape _ _ _ Hc) as (ci & ->).
  unfold _generate_fraud_report, _calculate_confidence, combine.
  cbn [dict_update fold_left dict_set fst snd String.eqb Ascii.eqb Bool.eqb
       get_num get_strs dict_get bind as_num VNat VStrs].
  rewrite !as_strs_map.
  split_tests; cbn [bind]; eexists; reflexivity.
Qed.

(** ** Monotonicity of the weighted sum *)

Lemma Qdiv_le_compat (a b c : Q) : 0 < c -> a <= b -> a / c <= b / c.
Proof.
  intros Hc Hab. unfold Qdiv. apply Qmult_le_compat_r; [exact Hab |].
  apply Qinv_le_0_compat. lra.
Qed.

Lemma normalize_ratio_mono (r1 r2 : Q) :
  r1 <= r2 ->
  normalize "fraud_keyword_ratio" r1 <= normalize "fraud_keyword_ratio" r2.
Proof.
  intro H. change (pymin 1.0 (r1 * 5) <= pymin 1.0 (r2 * 5)).
  apply pymin_mono. lra.
Qed.

Section ScoreMonotone.

Variables F1 F2 : dict.
Variables r1 r2 : Q.
Hypothesis ratio1 : dict_get "fraud_keyword_ratio" F1 = Some (VFloat r1).
Hypothesis ratio2 : dict_get "fraud_keyword_ratio" F2 = Some (VFloat r2).
Hypothesis ratio_le : r1 <= r2.

(** Two runs of the loop over a weight table, on feature bags that
    agree on the table's other features, stay ordered: both fail, or
    both end with the same weight sum and ordered scores. *)
Lemma loop_ordered (ws : list (string * Q)) :
  (forall k w, In (k, w) ws -> 0 <= w) ->
  (forall k w, In (k, w) ws -> k <> "fraud_keyword_ratio"%string ->
               dict_get k F1 = dict_get k F2) ->
  forall a1 a2 b, a1 <= a2 ->
  match for_each ws (score_step F1) (a1, b),
        for_each ws (score_step F2) (a2, b) with
  | Ok (x1, y1), Ok (x2, y2) => x1 <= x2 /\ y1 = y2
  | Raise _, Raise _ => True
  | _, _ => False
  end.
Proof.
  induction ws as [| [k w] ws IH]; intros Hw Hk a1 a2 b Ha.
  - simpl. now split.
  - assert (0 <= w) as Hw0 by (apply (Hw k); now left).
    assert (forall a1' a2' b', a1' <= a2' ->
              match for_each ws (score_step F1) (a1', b'),
                    for_each ws (score_step F2) (a2', b') with
              | Ok (x1, y1), Ok (x2, y2) => x1 <= x2 /\ y1 = y2
              | Raise _, Raise _ => True
              | _, _ => False
              end) as IH'.
    { apply IH; intros; [eapply Hw | eapply Hk]; try right; eauto. }
    cbn [for_each bind score_step fst snd].
    destruct (string_dec k "fraud_keyword_ratio") as [-> | Hne].
    + rewrite ratio1, ratio2. cbn [as_num].
      apply IH'. pose proof (normalize_ratio_mono _ _ ratio_le). nra.
    + rewrite <- (Hk k w (or_introl eq_refl) Hne).
      destruct (dict_get k F1) as [v |]; [| now apply IH'].
      destruct (as_num v) as [q |]; [| exact I].
      apply IH'. lra.
Qed.

End ScoreMonotone.

Lemma score_mono (F1 F2 : dict) (r1 r2 : Q) :
  dict_get "fraud_keyword_ratio" F1 = Some (VFloat r1) ->
  dict_get "fraud_keyword_ratio" F2 = Some (VFloat r2) ->
  r1 <= r2 ->
  (forall k w, In (k, w) weights -> k <> "fraud_keyword_ratio"%string ->
               dict_get k F1 = dict_get k F2) ->
  _calculate_fraud_score F1 <= _calculate_fraud_score F2.
Proof.
  intros H1 H2 Hr Hk.
  assert (forall k w, In (k, w) weights -> 0 <= w) as Hw.
  { intros k w Hin. simpl in Hin.
    repeat (destruct Hin as [Hin | Hin]; [injection Hin as <- <-; lra |]).
    contradiction. }
  pose proof (loop_ordered F1 F2 r1 r2 H1 H2 Hr weights Hw Hk 0.0 0.0 0.0
                (Qle_refl _)) as Hord.
  unfold _calculate_fraud_score, fraud_score_body, bind.
  destruct (for_each weights (score_step F1) (0.0, 0.0)) as [[x1 y1] | e1],
           (for_each weights (score_step F2) (0.0, 0.0)) as [[x2 y2] | e2];
    try contradiction; [| lra].
  destruct Hord as [Hx <-].
  apply pymin_mono, pymax_mono.
  destruct (Qgtb y1 0) eqn:E; [| exact Hx].
  apply Qdiv_le_compat; [| exact Hx].
  now apply Qltb_iff.
Qed.

(** C8, as amended.  Monotonicity in the keyword ratio.  Take two
    narratives, the same category and the same claimed amount, whose
    amount, pattern and consistency features are equal.  If the keyword
    ratio of the second narrative, the number of fraud keywords detected
    in it divided by its number of words, is at least that of the first,
    then its [fraud_score] is at least the first one's.  The number of
    words may differ: a narrative extended by keywords as further words
    is covered as long as the ratio does not fall. *)
Theorem keyword_monotone (t1 t2 ct : string) (amt : Q) :
  _analyze_amounts (Some t1) ct amt = _analyze_amounts (Some t2) ct amt ->
  _check_suspicious_patterns (Some t1) = _check_suspicious_patterns (Some t2) ->
  _analyze_consistency (Some t1) ct = _analyze_consistency (Some t2) ct ->
  Qof_nat (fraud_keyword_count t1) / Qof_nat (Nat.max (word_count t1) 1)
  <= Qof_nat (fraud_keyword_count t2) / Qof_nat (Nat.max (word_count t2) 1) ->
  exists s1 s2,
    num_at "fraud_score" (analyze_text (Some t1) ct amt) = Some s1 /\
    num_at "fraud_score" (analyze_text (Some t2) ct amt) = Some s2 /\
    s1 <= s2.
Proof.
  intros Ha Hp Hc Hr.
  unfold analyze_text, analyze_text_body.
  destruct (_extract_text_features (Some t1)) as [tf1 |] eqn:T1;
    [| rewrite text_features_shape in T1; discriminate].
  destruct (_extract_text_features (Some t2)) as [tf2 |] eqn:T2;
    [| rewrite text_features_shape in T2; discriminate].
  cbn [bind].
  destruct (_analyze_amounts (Some t1) ct amt) as [af | e] eqn:A;
    rewrite <- Ha; cbn [bind]; [| exists 0.5, 0.5; repeat split; lra].
  destruct (_check_suspicious_patterns (Some t1)) as [pf | e] eqn:P;
    rewrite <- Hp; cbn [bind]; [| exists 0.5, 0.5; repeat split; lra].
  destruct (_analyze_consistency (Some t1) ct) as [cf | e] eqn:C;
    rewrite <- Hc; cbn [bind]; [| exists 0.5, 0.5; repeat split; lra].
  symmetry in Ha, Hp, Hc.
  destruct (report_ok t2 ct amt af pf cf
              (_calculate_fraud_score (combine tf2 af pf cf)) Ha Hp Hc tf2 T2)
    as [rep2 R2].
  destruct (report_ok t1 ct amt af pf cf
              (_calculate_fraud_score (combine tf1 af pf cf)) A P C tf1 T1)
    as [rep1 R1].
  rewrite R1, R2. cbn [bind].
  exists (_calculate_fraud_score (combine tf1 af pf cf)),
         (_calculate_fraud_score (combine tf2 af pf cf)).
  split; [eapply report_score; exact R1 |].
  split; [eapply report_score; exact R2 |].
  (* for the score, the two feature bags differ in the keyword ratio only *)
  rewrite text_features_shape in T1, T2.
  injection T1 as <-. injection T2 as <-.
  destruct (amounts_shape t1 ct amt)
    as (ea & n & mx & ac & rr & an & mxq & rrq & Hmx & Hrr & A').
  rewrite A' in A. injection A as <-.
  destruct (patterns_shape _ _ P) as (mi & si & ->).
  destruct (consistency_shape _ _ _ C) as (ci & ->).
  eapply score_mono.
  - reflexivity.
  - reflexivity.
  - exact Hr.
  - intros k w Hin Hne. simpl in Hin.
    repeat (destruct Hin as [Hin | Hin];
            [injection Hin as <- <-; try reflexivity; now contradiction Hne |]).
    contradiction.
Qed.

(** [keyword_claim] extends [plain_claim] by the word "asap", a second
    keyword: six words become seven, the ratio rises from 1/6 to 2/7
    and the score does not fall. *)
Lemma keyword_monotone_witness :
  _analyze_amounts (Some plain_claim) "health" 1000
    = _analyze_amounts (Some keyword_claim) "health" 1000 /\
  _check_suspicious_patterns (Some plain_claim)
    = _check_suspicious_patterns (Some keyword_claim) /\
  _analyze_consistency (Some plain_claim) "health"
    = _analyze_consistency (Some keyword_claim) "health" /\
  Qof_nat (fraud_keyword_count plain_claim)
    / Qof_nat (Nat.max (word_count plain_claim) 1)
  <= Qof_nat (fraud_keyword_count keyword_claim)
     / Qof_nat (Nat.max (word_count keyword_claim) 1) /\
  exists s1 s2,
    num_at "fraud_score" (analyze_text (Some plain_claim) "health" 1000) = Some s1 /\
    num_at "fraud_score" (analyze_text (Some keyword_claim) "health" 1000) = Some s2 /\
    s1 <= s2.
Proof.
  assert (_analyze_amounts (Some plain_claim) "health" 1000
          = _analyze_amounts (Some keyword_claim) "health" 1000) as Ha
    by (vm_compute; reflexivity).
  assert (_check_suspicious_patterns (Some plain_claim)
          = _check_suspicious_patterns (Some keyword_claim)) as Hp
    by (vm_compute; reflexivity).
  assert (_analyze_consistency (Some plain_claim) "health"
          = _analyze_consistency (Some keyword_claim) "health") as Hc
    by (vm_compute; reflexivity).
  assert (Qof_nat (fraud_keyword_count plain_claim)
            / Qof_nat (Nat.max (word_count plain_claim) 1)
          <= Qof_nat (fraud_keyword_count keyword_claim)
             / Qof_nat (Nat.max (word_count keyword_claim) 1)) as Hr
    by (vm_compute; discriminate).
  repeat (split; [assumption |]).
  exact (keyword_monotone plain_claim keyword_claim "health" 1000 Ha Hp Hc Hr).
Defined.

(** C8 as stated fails.  [diluted_claim] extends [sparse_claim] only by
    occurrences of a further fraud keyword, "fake"; the amount, pattern
    and consistency features are unchanged and one keyword more is
    detected.  The keyword ratio is taken over the number of words,
    which grows from 10 to 21, so the ratio falls from 1/10 to 2/21 and
    the score of the extended narrative is lower. *)
Lemma keyword_dilution :
  diluted_claim
  = sparse_claim ++ " fake fake fake fake fake fake fake fake fake fake fake" /\
  (fraud_keyword_count sparse_claim < fraud_keyword_count diluted_claim)%nat /\
  (word_count sparse_claim < word_count diluted_claim)%nat /\
  _analyze_amounts (Some sparse_claim) "health" 1000
    = _analyze_amounts (Some diluted_claim) "health" 1000 /\
  _check_suspicious_patterns (Some sparse_claim)
    = _check_suspicious_patterns (Some diluted_claim) /\
  _analyze_consistency (Some sparse_claim) "health"
    = _analyze_consistency (Some diluted_claim) "health" /\
  exists s1 s2,
    num_at "fraud_score" (analyze_text (Some sparse_claim) "health" 1000) = Some s1 /\
    num_at "fraud_score" (analyze_text (Some diluted_claim) "health" 1000) = Some s2 /\
    s2 < s1.
Proof.
  split; [reflexivity |].
  split; [vm_compute; repeat constructor |].
  split; [vm_compute; repeat constructor |].
  split; [vm_compute; reflexivity |].
  split; [vm_compute; reflexivity |].
  split; [vm_compute; reflexivity |].
  eexists. eexists.
  split; [vm_compute; reflexivity |].
  split; [vm_compute; reflexivity |].
  vm_compute. reflexivity.
Qed.

(** ** The "emergency surgery" scenario *)

(** The features of the scenario: four keywords in eight words, no
    amount in the text, a claimed amount at the upper end of the health
    band. *)
Lemma emergency_features :
  fraud_keyword_count emergency_narrative = 4%nat /\
  word_count emergency_narrative = 8%nat /\
  extracted_amounts emergency_narrative = [] /\
  amount_anomaly_score "health" 50000 == 0.2.
Proof. vm_compute. repeat split; reflexivity. Qed.

(** C2, as amended.  For the narrative "Emergency surgery needed ASAP,
    cash only, no receipt", category health, claimed amount 50000, the
    report's [risk_factors] contain "suspicious_language" and its
    [fraud_score] is 0.39: the weights 0.25 (keywords), 0.2 x 0.2
    (amount inside the band) and 0.10 (no amount in the text) add up to
    0.39, which is not above 0.5. *)
Theorem emergency_scenario :
  exists s rf,
    num_at "fraud_score" (analyze_text (Some emergency_narrative) "health" 50000)
      = Some s /\
    s == 0.39 /\
    strs_at "risk_factors" (analyze_text (Some emergency_narrative) "health" 50000)
      = Some rf /\
    In "suspicious_language"%string rf.
Proof.
  eexists. eexists.
  split; [vm_compute; reflexivity |].
  split; [vm_compute; reflexivity |].
  split; [vm_compute; reflexivity |].
  now left.
Qed.

(** C2 as stated fails: the scenario's score is not above 0.5. *)
Lemma emergency_scenario_not_above_half :
  ~ (exists s rf,
       num_at "fraud_score" (analyze_text (Some emergency_narrative) "health" 50000)
         = Some s /\
       0.5 < s /\
       strs_at "risk_factors" (analyze_text (Some emergency_narrative) "health" 50000)
         = Some rf /\
       In "suspicious_language"%string rf).
Proof.
  intros (s & rf & Hs & Hlt & _).
  vm_compute in Hs. injection Hs as <-.
  vm_compute in Hlt. discriminate.
Qed.

(** ** Failure handling *)

(** C7.  [analyze_text] returns a report for every text (a string or
    [None]), category and amount.  Either the analysis went through and
    its report is returned, or an exception [e] was raised inside and
    the report has [fraud_score] 0.5, [confidence] 0.0 and a single
    issue, which carries the message of [e] after the words
    "Analysis error: ". *)
Theorem analyze_text_never_raises (text : option string) (ct : string) (amt : Q) :
  (exists report,
     analyze_text_body text ct amt = Ok report /\
     analyze_text text ct amt = report)
  \/
  (exists e,
     analyze_text_body text ct amt = Raise e /\
     num_at "fraud_score" (analyze_text text ct amt) = Some 0.5 /\
     num_at "confidence" (analyze_text text ct amt) = Some 0.0 /\
     strs_at "issues" (analyze_text text ct amt)
       = Some [("Analysis error: " ++ exn_msg e)%string] /\
     contains (exn_msg e) ("Analysis error: " ++ exn_msg e) = true).
Proof.
  unfold analyze_text.
  destruct (analyze_text_body text ct amt) as [report | e].
  - left. now exists report.
  - right. exists e.
    split; [reflexivity |]. split; [reflexivity |]. split; [reflexivity |].
    split; [reflexivity | apply contains_suffix].
Qed.

(** The failure path is taken when the text is [None]. *)
Lemma analyze_text_never_raises_witness :
  strs_at "issues" (analyze_text None "health" 50000)
    = Some ["Analysis error: object of type 'NoneType' has no len()"%string].
Proof.
  destruct (analyze_text_never_raises None "health" 50000)
    as [(report & H & _) | (e & H & _ & _ & Hi & _)].
  - vm_compute in H. discriminate.
  - vm_compute in H. injection H as <-. exact Hi.
Defined.

(** On a string, the text features are always produced. *)
Lemma analyze_text_on_string_reaches_score (t ct : string) (amt : Q) :
  exists s, num_at "fraud_score" (analyze_text (Some t) ct amt) = Some s /\ 0 <= s <= 1.
Proof.
  unfold analyze_text, analyze_text_body.
  rewrite text_features_shape. cbn [bind].
  destruct (_analyze_amounts (Some t) ct amt) as [af | e] eqn:A; cbn [bind];
    [| exists 0.5; split; [reflexivity | lra]].
  destruct (_check_suspicious_patterns (Some t)) as [pf | e] eqn:P; cbn [bind];
    [| exists 0.5; split; [reflexivity | lra]].
  destruct (_analyze_consistency (Some t) ct) as [cf | e] eqn:C; cbn [bind];
    [| exists 0.5; split; [reflexivity | lra]].
  match goal with
  | |- context [_generate_fraud_report ?F ?s ct] =>
      destruct (report_ok t ct amt af pf cf s A P C _ (text_features_shape t))
        as [rep R]; exists s
  end.
  unfold combine in R |- *. rewrite R. cbn [bind].
  split; [eapply report_score; exact R |].
  unfold _calculate_fraud_score, fraud_score_body, bind.
  match goal with
  | |- context [for_each ?w ?f ?a] => destruct (for_each w f a) as [[x y] | e]
  end; [apply clamp_min_max | lra].
Qed.

(** ** The amount extractor *)

Lemma amount_of_match_dot (m : string) (q : Q) :
  amount_of_match m = Some q ->
  contains "." (clean_amount m) = true /\ float (clean_amount m) = Ok q.
Proof.
  unfold amount_of_match.
  destruct (negb (len (clean_amount m) =? 0)%nat) eqn:N; cbn [andb];
    [| discriminate].
  destruct (contains "." (clean_amount m)) eqn:D; [| discriminate].
  destruct (float (clean_amount m)) as [q' | e]; [| discriminate].
  intro H. injection H as <-. now split.
Qed.

Lemma amount_of_match_no_dot (m : string) :
  contains "." (clean_amount m) = false -> amount_of_match m = None.
Proof.
  unfold amount_of_match. intros ->. now rewrite andb_false_r.
Qed.

Lemma keep_amounts_in (ms : list string) (q : Q) :
  In q (keep_amounts ms) ->
  exists m, In m ms /\ amount_of_match m = Some q.
Proof.
  induction ms as [| m ms IH]; simpl; [contradiction |].
  destruct (amount_of_match m) as [q' |] eqn:E.
  - intros [<- | Hin].
    + exists m. split; [now left | exact E].
    + destruct (IH Hin) as (m' & Hm & Hq). exists m'. split; [now right | exact Hq].
  - intro Hin. destruct (IH Hin) as (m' & Hm & Hq).
    exists m'. split; [now right | exact Hq].
Qed.

Lemma keep_amounts_none (ms : list string) :
  (forall m, In m ms -> contains "." (clean_amount m) = false) ->
  keep_amounts ms = [].
Proof.
  induction ms as [| m ms IH]; intro H; simpl; [reflexivity |].
  rewrite (amount_of_match_no_dot m) by (apply H; now left).
  apply IH. intros m' Hm'. apply H. now right.
Qed.

End FraudSpec.

(* ===================================================================== *)
(** * The document structural validator *)
(* ===================================================================== *)

Module ValidatorSpec.
Import Py PyFacts Validator Scenarios.

Local Open Scope Q_scope.

(** ** The shape of the four checks' results *)

Lemma text_content_shape (t : string) (rules : rules) :
  exists issues stats,
    _validate_text_content (Some t) rules =
    Ok [ ("text_validation_issues", VStrs issues); ("text_stats", VDict stats) ].
Proof. unfold _validate_text_content. repeat eexists. Qed.

Lemma structure_shape (now : datetime) (t dt : string) (rules : rules) :
  exists issues,
    _validate_document_structure now (Some t) dt rules =
    Ok [ ("structure_validation_issues", VStrs issues) ].
Proof. unfold _validate_document_structure. repeat eexists. Qed.

Lemma placeholder_loop_le (ps : list string) (t : string) (acc : list string * Q) :
  snd (placeholder_loop ps t acc) <= snd acc.
Proof.
  revert acc. induction ps as [| p ps IH]; intro acc; simpl; [lra |].
  eapply Qle_trans; [apply IH |].
  destruct (Re.found p true t); simpl; lra.
Qed.

Lemma authenticity_shape (t dt : string) (cv : dict) :
  _validate_content_authenticity (Some t) dt = Ok cv ->
  exists issues a,
    cv = [ ("authenticity_validation_issues", VStrs issues);
           ("authenticity_score", VFloat a) ] /\
    0 <= a <= 1.
Proof.
  unfold _validate_content_authenticity, bind.
  pose proof (placeholder_loop_le placeholder_patterns t ([], 1.0)) as Hle.
  destruct (placeholder_loop placeholder_patterns t ([], 1.0)) as [i0 s0].
  simpl in Hle.
  destruct (_has_formatting_inconsistencies t);
  destruct (_has_unusual_characters t);
  destruct (_has_data_integrity_issues t) as [[|] | e]; intro H;
    try discriminate; injection H as <-;
    eexists; eexists; (split; [reflexivity |]);
    (split; [eapply Qle_trans; [| apply pymax_ge_l]; lra
            | apply pymax_lub; lra]).
Qed.

Lemma data_shape (t dt : string) (rules : rules) (dv : dict) :
  _extract_and_validate_data (Some t) dt rules = Ok dv ->
  exists issues data,
    dv = [ ("data_validation_issues", VStrs issues); ("data", VDict data) ].
Proof.
  unfold _extract_and_validate_data, bind.
  match goal with
  | |- match ?c with _ => _ end = _ -> _ => destruct c as [ci | e]
  end; intro H; [| discriminate].
  injection H as <-. now repeat eexists.
Qed.

Lemma run_checks_shape (now : datetime) (dt : string) (text : option string) (vr : dict) :
  run_checks now dt text = Ok vr ->
  exists t ti stats si ai a di data,
    text = Some t /\
    _validate_text_content text (rules_for dt) =
      Ok [ ("text_validation_issues", VStrs ti); ("text_stats", VDict stats) ] /\
    _validate_document_structure now text dt (rules_for dt) =
      Ok [ ("structure_validation_issues", VStrs si) ] /\
    _validate_content_authenticity text dt =
      Ok [ ("authenticity_validation_issues", VStrs ai);
           ("authenticity_score", VFloat a) ] /\
    0 <= a <= 1 /\
    _extract_and_validate_data text dt (rules_for dt) =
      Ok [ ("data_validation_issues", VStrs di); ("data", VDict data) ] /\
    vr = [ ("is_valid", VBool true);
           ("validation_score", VFloat 1.0);
           ("issues", VStrs (extend (extend si ai) di));
           ("extracted_data", VDict data);
           ("confidence", VFloat ((1.0 + a) / 2));
           ("text_validation_issues", VStrs ti);
           ("text_stats", VDict stats);
           ("data", VDict data) ].
Proof.
  unfold run_checks.
  destruct text as [t |]; [| discriminate].
  destruct (text_content_shape t (rules_for dt)) as (ti & stats & Ht).
  destruct (structure_shape now t dt (rules_for dt)) as (si & Hs).
  rewrite Ht, Hs. cbn [bind].
  destruct (_validate_content_authenticity (Some t) dt) as [cv | e] eqn:Hc.
  2:{ unfold _merge_validation_results. cbn -[Qplus Qdiv]. discriminate. }
  destruct (authenticity_shape _ _ _ Hc) as (ai & a & -> & Ha).
  destruct (_extract_and_validate_data (Some t) dt (rules_for dt)) as [dv | e] eqn:Hd.
  2:{ unfold _merge_validation_results. cbn -[Qplus Qdiv]. discriminate. }
  destruct (data_shape _ _ _ _ Hd) as (di & data & ->).
  unfold _merge_validation_results, initial_result.
  cbn -[Qplus Qdiv].
  intro H. injection H as <-.
  exists t, ti, stats, si, ai, a, di, data.
  repeat split; try reflexivity; try tauto.
  unfold VStrs, extend. now rewrite !map_app.
Qed.

Lemma validation_score_bounds (vr : dict) :
  0 <= _calculate_validation_score vr <= 1.
Proof.
  unfold _calculate_validation_score, validation_score_body, bind.
  destruct (pylen _) as [n | e]; [| lra].
  destruct (get_num vr "confidence" 1.0) as [c | e]; [| lra].
  destruct (get_num vr "authenticity_score" 1.0) as [a | e]; [| lra].
  apply clamp_max_min.
Qed.

(** C5.  For every clock reading, content, filename, document type and
    extracted text (a string or [None]), the result of
    [validate_document] has a [validation_score] in [0, 1], and
    [is_valid] is true exactly when the score is at least 0.6: on the
    normal path the score is clamped and compared, on the failure path
    the result carries score 0.0 and [is_valid] false. *)
Theorem validation_score_invariant (now : datetime) (content : list Byte.byte)
  (filename document_type : string) (extracted_text : option string) :
  exists s b,
    num_at "validation_score"
      (validate_document now content filename document_type extracted_text) = Some s /\
    bool_at "is_valid"
      (validate_document now content filename document_type extracted_text) = Some b /\
    0 <= s <= 1 /\
    (b = true <-> 0.6 <= s).
Proof.
  unfold validate_document, validate_document_body, bind.
  destruct (run_checks now document_type extracted_text) as [vr | e].
  - exists (_calculate_validation_score vr),
           (Qgeb (_calculate_validation_score vr) 0.6).
    unfold num_at, bool_at.
    rewrite dict_get_set_neq by discriminate.
    rewrite !dict_get_set_eq. cbn [as_num].
    split; [reflexivity |]. split; [reflexivity |].
    split; [apply validation_score_bounds | apply Qgeb_iff].
  - exists 0.0, false.
    split; [reflexivity |]. split; [reflexivity |].
    split; [lra |]. split; [discriminate | intro H; lra].
Qed.

(** C10.  On the non-failing path of [validate_document] the returned
    [confidence] is [(1.0 + authenticity_score) / 2], where
    [authenticity_score] is the score of the authenticity check on the
    same text; it therefore lies in [0.5, 1.0] whatever the number of
    issues. *)
Theorem confidence_from_authenticity (now : datetime) (content : list Byte.byte)
  (filename document_type : string) (extracted_text : option string) (r : dict) :
  validate_document_body now content filename document_type extracted_text = Ok r ->
  exists cv a c,
    _validate_content_authenticity extracted_text document_type = Ok cv /\
    num_at "authenticity_score" cv = Some a /\
    num_at "confidence"
      (validate_document now content filename document_type extracted_text) = Some c /\
    c == (1.0 + a) / 2 /\
    0.5 <= c <= 1.0.
Proof.
  intro H. unfold validate_document. rewrite H.
  unfold validate_document_body, bind in H.
  destruct (run_checks now document_type extracted_text) as [vr |] eqn:R;
    [| discriminate].
  injection H as <-.
  destruct (run_checks_shape _ _ _ _ R)
    as (t & ti & stats & si & ai & a & di & data & -> & Ht & Hs & Hc & Ha & Hd & ->).
  eexists. exists a, ((1.0 + a) / 2).
  split; [exact Hc |].
  split; [reflexivity |].
  split; [reflexivity |].
  split; [reflexivity |].
  split.
  - apply Qle_shift_div_l; lra.
  - apply Qle_shift_div_r; lra.
Qed.

Lemma too_short_mentions_minimum (n : nat) :
  contains "minimum: 50" (too_short_issue n 50) = true.
Proof.
  unfold too_short_issue.
  change (str_of_nat 50) with "50".
  replace ("Text too short: " ++ str_of_nat n ++ " characters (minimum: " ++ "50" ++ ")")
    with (("Text too short: " ++ str_of_nat n ++ " characters (") ++ "minimum: 50" ++ ")").
  - apply contains_middle.
  - rewrite !append_assoc. reflexivity.
Qed.

(** C4 as stated fails on [short_bill]: the text has 47 characters, yet
    the document is valid and no entry of [issues] mentions a minimum. *)
Lemma short_bill_is_valid :
  (len short_bill < 50)%nat /\
  bool_at "is_valid"
    (validate_document clock [] "bill.pdf" "medical_bill" (Some short_bill))
    = Some true /\
  ~ (bool_at "is_valid"
       (validate_document clock [] "bill.pdf" "medical_bill" (Some short_bill))
       = Some false /\
     exists issues i,
       strs_at "issues"
         (validate_document clock [] "bill.pdf" "medical_bill" (Some short_bill))
         = Some issues /\
       In i issues /\ contains "minimum" i = true).
Proof.
  split; [vm_compute; repeat constructor |].
  split; [vm_compute; reflexivity |].
  intros [H _]. vm_compute in H. discriminate.
Qed.

(** C3, on the code.  For [short_bill] as a medical bill the
    text-quality check finds two issues, the minimum-length one first;
    the structural and authenticity checks find none and the extraction
    check finds one.  The returned [issues] list holds the extraction
    issue only: the text-quality issues are stored under
    [text_validation_issues] and never reach [issues]. *)
Theorem text_issues_not_merged :
  exists tv,
    _validate_text_content (Some short_bill) (rules_for "medical_bill") = Ok tv /\
    strs_at "text_validation_issues" tv
      = Some [ "Text too short: 47 characters (minimum: 50)"%string;
               "Missing expected keywords. Found: ['service', 'bill']"%string ] /\
    strs_at "issues"
      (validate_document clock [] "bill.pdf" "medical_bill" (Some short_bill))
      = Some [ "Required field missing: amount"%string ] /\
    strs_at "text_validation_issues"
      (validate_document clock [] "bill.pdf" "medical_bill" (Some short_bill))
      = Some [ "Text too short: 47 characters (minimum: 50)"%string;
               "Missing expected keywords. Found: ['service', 'bill']"%string ].
Proof.
  eexists.
  split; [reflexivity |].
  split; [vm_compute; reflexivity |].
  split; vm_compute; reflexivity.
Qed.

(** What [issues] holds in general: the issues of the structural, the
    authenticity and the extraction check, in this order. *)
Lemma issues_of_three_checks (now : datetime) (content : list Byte.byte)
  (filename document_type : string) (extracted_text : option string) (r : dict) :
  validate_document_body now content filename document_type extracted_text = Ok r ->
  exists sv cv dv si ai di,
    _validate_document_structure now extracted_text document_type
      (rules_for document_type) = Ok sv /\
    strs_at "structure_validation_issues" sv = Some si /\
    _validate_content_authenticity extracted_text document_type = Ok cv /\
    strs_at "authenticity_validation_issues" cv = Some ai /\
    _extract_and_validate_data extracted_text document_type
      (rules_for document_type) = Ok dv /\
    strs_at "data_validation_issues" dv = Some di /\
    strs_at "issues" r = Some (si ++ ai ++ di)%list.
Proof.
  intro H. unfold validate_document_body, bind in H.
  destruct (run_checks now document_type extracted_text) as [vr |] eqn:R;
    [| discriminate].
  injection H as <-.
  destruct (run_checks_shape _ _ _ _ R)
    as (t & ti & stats & si & ai & a & di & data & -> & Ht & Hs & Hc & Ha & Hd & ->).
  do 3 eexists. exists si, ai, di.
  split; [exact Hs |].
  split; [apply strs_at_VStrs; reflexivity |].
  split; [exact Hc |].
  split; [apply strs_at_VStrs; reflexivity |].
  split; [exact Hd |].
  split; [apply strs_at_VStrs; reflexivity |].
  apply strs_at_VStrs. unfold extend. now rewrite <- app_assoc.
Qed.

(** [short_bill] is validated without failure; its authenticity score
    is 1 and so is the confidence. *)
Lemma confidence_from_authenticity_witness :
  exists r cv a c,
    validate_document_body clock [] "bill.pdf" "medical_bill" (Some short_bill)
      = Ok r /\
    _validate_content_authenticity (Some short_bill) "medical_bill" = Ok cv /\
    num_at "authenticity_score" cv = Some a /\
    num_at "confidence"
      (validate_document clock [] "bill.pdf" "medical_bill" (Some short_bill))
      = Some c /\
    c == (1.0 + a) / 2 /\
    0.5 <= c <= 1.0.
Proof.
  destruct (validate_document_body clock [] "bill.pdf" "medical_bill"
              (Some short_bill)) as [r | e] eqn:E.
  - exists r.
    destruct (confidence_from_authenticity clock [] "bill.pdf" "medical_bill"
                (Some short_bill) r E) as (cv & a & c & H).
    exists cv, a, c. split; [reflexivity | exact H].
  - vm_compute in E. discriminate.
Defined.

End ValidatorSpec.

(* ===================================================================== *)
(** * The two amount extractors *)
(* ===================================================================== *)

Module AmountsSpec.
Import Py PyFacts.

Lemma keep_amounts_skip (l1 l2 : list string) (m : string) :
  contains "." (Fraud.clean_amount m) = false ->
  Fraud.keep_amounts (l1 ++ m :: l2) = Fraud.keep_amounts (l1 ++ l2).
Proof.
  intro H. induction l1 as [| x l1 IH]; simpl.
  - now rewrite (FraudSpec.amount_of_match_no_dot m H).
  - rewrite IH. reflexivity.
Qed.

Lemma amount_of_dot (m : string) (q : Q) :
  Validator.amount_of m = Some q ->
  contains "." (Re.sub "[^\d.]" "" m) = true /\ float (Re.sub "[^\d.]" "" m) = Ok q.
Proof.
  unfold Validator.amount_of.
  destruct (negb (len (Re.sub "[^\d.]" "" m) =? 0)%nat) eqn:N; cbn [andb];
    [| discriminate].
  destruct (contains "." (Re.sub "[^\d.]" "" m)) eqn:D; [| discriminate].
  destruct (float (Re.sub "[^\d.]" "" m)) as [q' | e]; [| discriminate].
  intro H. injection H as <-. now split.
Qed.

Lemma amount_of_no_dot (m : string) :
  contains "." (Re.sub "[^\d.]" "" m) = false -> Validator.amount_of m = None.
Proof.
  unfold Validator.amount_of. intros ->. now rewrite andb_false_r.
Qed.

Lemma collect_amounts_in (ms : list string) (q : Q) :
  In q (Validator.collect_amounts ms) ->
  exists m, In m ms /\ Validator.amount_of m = Some q.
Proof.
  induction ms as [| m ms IH]; simpl; [contradiction |].
  destruct (Validator.amount_of m) as [q' |] eqn:E.
  - intros [<- | Hin].
    + exists m. split; [now left | exact E].
    + destruct (IH Hin) as (m' & Hm & Hq). exists m'. split; [now right | exact Hq].
  - intro Hin. destruct (IH Hin) as (m' & Hm & Hq).
    exists m'. split; [now right | exact Hq].
Qed.

Lemma collect_amounts_skip (l1 l2 : list string) (m : string) :
  contains "." (Re.sub "[^\d.]" "" m) = false ->
  Validator.collect_amounts (l1 ++ m :: l2) = Validator.collect_amounts (l1 ++ l2).
Proof.
  intro H. induction l1 as [| x l1 IH]; simpl.
  - now rewrite (amount_of_no_dot m H).
  - rewrite IH. reflexivity.
Qed.

(** C9.  Both amount extractors (the fraud engine's [_analyze_amounts]
    and the validator's [_extract_amounts]) keep a matched currency
    substring only if its cleaned text has a decimal point:
    - every extracted amount is the value of a match whose cleaned text
      contains ".";
    - a match whose cleaned text has no ".", such as "$500", can be
      removed from the list of matches without changing the extracted
      amounts;
    - so when the fraud engine finds such matches only, its features
      are those of a text without amounts ([amount_count] 0,
      [amount_consistency] 1.0, [round_amount_ratio] 0). *)
Theorem amounts_need_decimal_point (text : string) :
  (forall q, In q (Fraud.extracted_amounts text) ->
     exists m, In m (Re.findall Fraud.amount_pattern text) /\
               contains "." (Fraud.clean_amount m) = true /\
               float (Fraud.clean_amount m) = Ok q)
  /\
  (forall q, In q (Validator._extract_amounts text) ->
     exists m, In m (Re.findall Validator.extract_pattern text) /\
               contains "." (Re.sub "[^\d.]" "" m) = true /\
               float (Re.sub "[^\d.]" "" m) = Ok q)
  /\
  (forall l1 m l2,
     Re.findall Fraud.amount_pattern text = (l1 ++ m :: l2)%list ->
     contains "." (Fraud.clean_amount m) = false ->
     Fraud.extracted_amounts text = Fraud.keep_amounts (l1 ++ l2))
  /\
  (forall l1 m l2,
     Re.findall Validator.extract_pattern text = (l1 ++ m :: l2)%list ->
     contains "." (Re.sub "[^\d.]" "" m) = false ->
     Validator._extract_amounts text = Validator.collect_amounts (l1 ++ l2))
  /\
  ((forall m, In m (Re.findall Fraud.amount_pattern text) ->
              contains "." (Fraud.clean_amount m) = false) ->
   forall ct amt,
     exists f,
       Fraud._analyze_amounts (Some text) ct amt = Ok f /\
       num_at "amount_count" f = Some 0%Q /\
       num_at "amount_consistency" f = Some 1.0%Q /\
       num_at "round_amount_ratio" f = Some 0%Q).
Proof.
  repeat split.
  - intros q Hin. unfold Fraud.extracted_amounts in Hin.
    destruct (FraudSpec.keep_amounts_in _ _ Hin) as (m & Hm & Hq).
    exists m. split; [exact Hm |]. now apply FraudSpec.amount_of_match_dot.
  - intros q Hin. unfold Validator._extract_amounts in Hin.
    destruct (collect_amounts_in _ _ Hin) as (m & Hm & Hq).
    exists m. split; [exact Hm |]. now apply amount_of_dot.
  - intros l1 m l2 Hf Hd. unfold Fraud.extracted_amounts.
    rewrite Hf. now apply keep_amounts_skip.
  - intros l1 m l2 Hf Hd. unfold Validator._extract_amounts.
    rewrite Hf. now apply collect_amounts_skip.
  - intros Hall ct amt. unfold Fraud._analyze_amounts.
    assert (Fraud.extracted_amounts text = []) as ->
      by (now apply FraudSpec.keep_amounts_none).
    eexists. split; [reflexivity |]. repeat split; reflexivity.
Qed.

(** "$500" is matched by both patterns and dropped by both extractors;
    "$1,234.56" is kept as 1234.56. *)
Lemma amounts_need_decimal_point_witness :
  Re.findall Fraud.amount_pattern "$500" = ["$500"] /\
  Fraud.extracted_amounts "$500" = [] /\
  Validator._extract_amounts "$500" = [] /\
  Fraud.extracted_amounts "$1,234.56" = [Qred (123456 # 100)].
Proof.
  destruct (amounts_need_decimal_point "$500") as (_ & _ & Hf & Hv & _).
  split; [vm_compute; reflexivity |].
  split; [| split].
  - apply (Hf [] "$500" []); vm_compute; reflexivity.
  - apply (Hv [] "$500" []); vm_compute; reflexivity.
  - vm_compute; reflexivity.
Defined.

End AmountsSpec.

(* ===================================================================== *)
(** * The image forensic analyzer *)
(* ===================================================================== *)

Module ImageSpec.
Import Py PyFacts ImageAnalysis Scenarios.

Local Open Scope Q_scope.

(** ** The authenticity analysis *)

Lemma exif_shape (img : image) :
  exists b issues more,
    _analyze_exif_data img =
    ("suspicious", VBool b) :: ("issues", VStrs issues) :: more.
Proof.
  unfold _analyze_exif_data.
  destruct (exif_data img) as [[exif |] | e].
  - destruct (software_loop [272%Z; 305%Z] exif ([], false)) as [i0 b0].
    destruct (date_values [306%Z; 36867%Z; 36868%Z] exif) as [| d0 [| d1 ds]];
      try (repeat eexists; reflexivity).
    destruct (negb (forallb (String.eqb d0) (d0 :: d1 :: ds)));
      repeat eexists; reflexivity.
  - repeat eexists; reflexivity.
  - exists false, []. eexists. reflexivity.
Qed.

(** The authenticity analysis always yields a score, and it is in
    [0, 1]. *)
Lemma authenticity_score_bounds (img : image) :
  exists s, num_at "score" (_analyze_authenticity img) = Some s /\ 0 <= s <= 1.
Proof.
  unfold _analyze_authenticity, authenticity_body.
  destruct (exif_shape img) as (b & issues & more & ->).
  destruct (Qgtb (_check_compression_artifacts img) _);
  destruct (Qgtb (_check_noise_patterns img) _);
  destruct (Qgtb (_check_color_consistency img) _);
  destruct (Qgtb (_check_edge_discontinuities img) _);
  cbn [dict_item dict_get String.eqb Ascii.eqb Bool.eqb bind truthy];
  destruct b;
  cbn [get_strs dict_item dict_get String.eqb Ascii.eqb Bool.eqb bind VStrs];
  rewrite ?as_strs_map; cbn [bind];
  eexists; (split; [reflexivity | apply clamp_max_min]).
Qed.

Lemma authenticity_has_score (img : image) :
  exists v, dict_item "score" (_analyze_authenticity img) = Ok v.
Proof.
  destruct (authenticity_score_bounds img) as (s & H & _).
  unfold num_at in H. unfold dict_item.
  destruct (dict_get "score" (_analyze_authenticity img)) as [v |];
    [now exists v | discriminate].
Qed.

(** When no sub-score exceeds its threshold and the metadata is not
    suspicious, nothing is deducted: the authenticity analysis ends with
    score 1.0. *)
Lemma clean_image_scores_one (img : image) (more : dict) (issues : list string) :
  (forall d, Qgtb (sub_score d img) (threshold d) = false) ->
  _analyze_exif_data img
    = ("suspicious", VBool false) :: ("issues", VStrs issues) :: more ->
  exists s, num_at "score" (_analyze_authenticity img) = Some s /\ s == 1.
Proof.
  intros Hd He.
  pose proof (Hd Compression) as Hc. pose proof (Hd Noise) as Hn.
  pose proof (Hd Color) as Ho. pose proof (Hd Edge) as Hg.
  cbn [sub_score threshold] in Hc, Hn, Ho, Hg.
  unfold _analyze_authenticity, authenticity_body.
  rewrite Hc, Hn, Ho, Hg, He.
  cbn [dict_item dict_get String.eqb Ascii.eqb Bool.eqb bind truthy].
  eexists. split; [reflexivity |]. vm_compute. reflexivity.
Qed.

(** ** The quality assessment *)

(** No dictionary returned by [_assess_quality] has a key "score": the
    overall score is stored under "overall_score". *)
Lemma quality_has_no_score (img : image) :
  dict_item "score" (_assess_quality img) = Raise (KeyError "score").
Proof.
  unfold _assess_quality.
  destruct (size img) as [width height].
  destruct (quality_measure img) as [[[blur brightness] contrast] | e];
    reflexivity.
Qed.

(** ** [analyze_image] *)

(** C1, on the code.  Whatever the bytes decode to, [analyze_image]
    returns [authenticity_score] 0.5.  For an image that decodes, the
    result dictionary reads [quality_analysis["score"]], a key that
    [_assess_quality] never sets, so the [except] clause answers: for
    the uniform, metadata-rich, artefact-free image the authenticity
    analysis itself computes 1.0, and the caller receives 0.5 together
    with the error "'score'". *)
Theorem analyze_image_returns_neutral :
  (forall decode processing_time content filename analysis_type,
     num_at "authenticity_score"
       (analyze_image decode processing_time content filename analysis_type)
     = Some 0.5)
  /\
  (forall decode processing_time content filename analysis_type img,
     decode content = Ok img ->
     str_at "error"
       (analyze_image decode processing_time content filename analysis_type)
     = Some "'score'"%string)
  /\
  num_at "score" (_analyze_authenticity uniform_image) = Some 1.0
  /\
  num_at "authenticity_score"
    (analyze_image decode_uniform 0 [] "photo.jpg" "general") = Some 0.5.
Proof.
  assert (forall decode processing_time content filename analysis_type img,
            decode content = Ok img ->
            analyze_image_body decode processing_time content filename analysis_type
            = Raise (KeyError "score")) as Hbody.
  { intros decode pt content filename analysis_type img Hd.
    unfold analyze_image_body. rewrite Hd. cbn [bind].
    destruct (authenticity_has_score img) as [v ->]. cbn [bind].
    now rewrite quality_has_no_score. }
  split; [| split; [| split]].
  - intros decode pt content filename analysis_type.
    unfold analyze_image.
    destruct (decode content) as [img | e] eqn:Hd.
    + now rewrite (Hbody _ pt content filename analysis_type img Hd).
    + unfold analyze_image_body. rewrite Hd. reflexivity.
  - intros decode pt content filename analysis_type img Hd.
    unfold analyze_image.
    now rewrite (Hbody _ pt content filename analysis_type img Hd).
  - vm_compute. reflexivity.
  - vm_compute. reflexivity.
Qed.

(** ** Failures inside a sub-detector *)

(** C6, as amended.  When the [try] block of an authenticity
    sub-detector (compression-artifact, noise-pattern,
    colour-consistency or edge-discontinuity check) raises, the
    sub-detector returns 0.0; this is below its threshold, so nothing is
    deducted for it, and the exception does not leave the sub-detector:
    the authenticity analysis still yields a score in [0, 1]. *)
Theorem sub_detector_failure (d : detector) (img : image) (e : exn) :
  raised d img = Some e ->
  sub_score d img = 0.0 /\
  Qgtb (sub_score d img) (threshold d) = false /\
  exists s, num_at "score" (_analyze_authenticity img) = Some s /\ 0 <= s <= 1.
Proof.
  intro H.
  assert (sub_score d img = 0.0) as Hs.
  { destruct d; cbn [raised sub_score] in *;
      [ unfold _check_compression_artifacts; destruct (compression_measure img)
      | unfold _check_noise_patterns; destruct (noise_measure img)
      | unfold _check_color_consistency; destruct (color_measure img)
      | unfold _check_edge_discontinuities; destruct (edge_measure img) ];
      (discriminate || reflexivity). }
  split; [exact Hs |].
  split; [rewrite Hs; destruct d; reflexivity |].
  apply authenticity_score_bounds.
Qed.

(** The compression check of the 4x4 thumbnail raises
    [ZeroDivisionError], since the image has no 8x8 block: its sub-score
    is 0.0 and the analysis still ends with a score. *)
Lemma sub_detector_failure_witness :
  raised Compression Cases.thumbnail
    = Some (mkExn "ZeroDivisionError" "division by zero") /\
  sub_score Compression Cases.thumbnail = 0.0 /\
  Qgtb (sub_score Compression Cases.thumbnail) (threshold Compression) = false /\
  exists s,
    num_at "score" (_analyze_authenticity Cases.thumbnail) = Some s /\ 0 <= s <= 1.
Proof.
  split; [reflexivity |].
  exact (sub_detector_failure Compression Cases.thumbnail
           (mkExn "ZeroDivisionError" "division by zero") eq_refl).
Defined.

(** C6 as stated fails on the 4x4 thumbnail: its compression check
    raises [ZeroDivisionError] and contributes 0.0, not 0.5. *)
Lemma failed_sub_detector_is_not_neutral :
  raised Compression Cases.thumbnail
    = Some (mkExn "ZeroDivisionError" "division by zero") /\
  ~ (sub_score Compression Cases.thumbnail == 0.5).
Proof.
  split; [reflexivity |].
  vm_compute. discriminate.
Qed.

End ImageSpec.

(* ===================================================================== *)
(** * The fraud report *)
(* ===================================================================== *)

Module FraudReportSpec.
Import Py PyFacts Fraud FraudSpec.
Local Open Scope Q_scope.

Lemma for_each_raise {A S : Type} (P : exn -> Prop) (body : S -> A -> result S) :
  (forall s x e, body s x = Raise e -> P e) ->
  forall l s e, for_each l body s = Raise e -> P e.
Proof.
  intros Hb l. induction l as [| x l IH]; intros s e; cbn [for_each].
  - discriminate.
  - unfold bind. destruct (body s x) as [s' | e'] eqn:B.
    + apply IH.
    + intro H. injection H as <-. eapply Hb, B.
Qed.

Lemma int_raises (s : string) (e : exn) :
  int s = Raise e -> exn_type e = "ValueError".
Proof. unfold int. destruct (all_digits _); [discriminate |]. now intros [= <-]. Qed.

Lemma mk_date_raises (y m d : Z) (e : exn) :
  mk_date y m d = Raise e -> exn_type e = "ValueError".
Proof.
  unfold mk_date. split_tests; try discriminate; now intros [= <-].
Qed.

Lemma parse_mdy_raises (p : list datetime) (s : string) (e : exn) :
  parse_mdy p s = Raise e -> exn_type e = "ValueError".
Proof.
  unfold parse_mdy.
  destruct (split_on "/" s) as [| p0 [| p1 [| p2 [| ? ?]]]]; try discriminate.
  unfold bind.
  destruct (int p0) eqn:E0; [| intros [= <-]; eapply int_raises, E0].
  destruct (int p1) eqn:E1; [| intros [= <-]; eapply int_raises, E1].
  destruct (int p2) eqn:E2; [| intros [= <-]; eapply int_raises, E2].
  destruct (mk_date _ _ _) eqn:E3; [discriminate | intros [= <-]; eapply mk_date_raises, E3].
Qed.

Lemma patterns_ok (t : string) :
  exists pf, _check_suspicious_patterns (Some t) = Ok pf.
Proof.
  unfold _check_suspicious_patterns.
  destruct (1 <? List.length (Re.findall suspicious_patterns.inconsistent_dates t))%nat;
    cbn [bind]; [| eexists; reflexivity].
  destruct (for_each _ parse_mdy []) as [pd | e] eqn:E.
  - destruct pd; [cbn [bind]; eexists; reflexivity |].
    destruct (365 <? _)%Z; cbn [bind]; eexists; reflexivity.
  - apply (for_each_raise (fun e => exn_type e = "ValueError") parse_mdy
             parse_mdy_raises) in E.
    unfold caught_by. rewrite E. cbn. eexists; reflexivity.
Qed.

Lemma consistency_ok (t ct : string) :
  exists cf, _analyze_consistency (Some t) ct = Ok cf.
Proof.
  unfold _analyze_consistency. split_tests; cbn [bind]; eexists; reflexivity.
Qed.


(** The report, written out on a feature bag whose lookups are known. *)
Lemma report_anatomy (F : dict) (s : Q) (ct : string)
  (kw an ac pc cs tl cnt : Q) (dk pis cis : list string) :
  get_num F "fraud_keyword_count" 0 = Ok kw ->
  get_strs F "detected_fraud_keywords" = Ok dk ->
  get_num F "amount_anomaly_score" 0 = Ok an ->
  get_num F "amount_consistency" 0 = Ok ac ->
  get_num F "suspicious_pattern_count" 0 = Ok pc ->
  get_strs F "suspicious_indicators" = Ok pis ->
  get_num F "consistency_score" 1.0 = Ok cs ->
  get_strs F "consistency_issues" = Ok cis ->
  get_num F "text_length" 0 = Ok tl ->
  get_num F "amount_count" 0 = Ok cnt ->
  let c := (0 + (if Qgtb tl 100 then 0.8 else if Qgtb tl 50 then 0.6 else 0.3)
              + (if Qgtb cnt 0 then 0.9 else 0.4)
              + (if Qgtb s 0.7 || Qltb s 0.3 then 0.8 else 0.5)) / 3 in
  _generate_fraud_report F s ct =
  Ok [ ("fraud_score", VFloat s);
       ("confidence", VFloat c);
       ("risk_factors",
        VStrs ((if Qgtb kw 0 then ["suspicious_language"] else [])
               ++ (if Qgtb an 0.5 then ["unusual_amount"] else [])
               ++ (if Qgtb ac 0.3 then ["amount_inconsistency"] else [])
               ++ (if Qgtb pc 0 then ["suspicious_patterns"] else [])
               ++ (if Qltb cs 0.7 then ["internal_inconsistency"] else []))%list);
       ("issues",
        VStrs ((if Qgtb kw 0
                then [("Suspicious keywords detected: " ++ join ", " dk)%string]
                else [])
               ++ (if Qgtb an 0.5
                   then ["Claimed amount appears unusual for this type of claim"]
                   else [])
               ++ (if Qgtb ac 0.3
                   then ["Inconsistency between claimed amount and extracted amounts"]
                   else [])
               ++ (if Qgtb pc 0 then pis else [])
               ++ (if Qltb cs 0.7 then cis else []))%list);
       ("recommendation", VStr (_get_recommendation s c));
       ("feature_analysis", VDict F);
       ("claim_type", VStr ct) ].
Proof.
  intros K DK AN AC PC PIS CS CIS TL CNT c. subst c.
  unfold _generate_fraud_report, _calculate_confidence.
  rewrite K, AN, AC, PC, CS, TL, CNT. cbn [bind].
  destruct (Qgtb kw 0); [rewrite DK |]; cbn [bind];
  destruct (Qgtb an 0.5); destruct (Qgtb ac 0.3);
  (destruct (Qgtb pc 0); [rewrite PIS |]); cbn [bind];
  (destruct (Qltb cs 0.7); [rewrite CIS |]); cbn [bind];
  unfold append, extend; cbn [List.app]; rewrite ?app_nil_r, <- ?app_assoc;
  cbn [List.app]; reflexivity.
Qed.

Lemma bind_ret {A : Type} (c : result A) : (x <- c ;; Ok x) = c.
Proof. now destruct c. Qed.

Lemma get_num_at (F : dict) (k : string) (d v : Q) :
  num_at k F = Some v -> get_num F k d = Ok v.
Proof.
  unfold num_at, get_num. destruct (dict_get k F); [| discriminate].
  now intros ->.
Qed.

Lemma get_strs_at (F : dict) (k : string) (l : list string) :
  strs_at k F = Some l -> get_strs F k = Ok l.
Proof.
  unfold strs_at, get_strs. destruct (dict_get k F) as [[]|]; try discriminate.
  now intros ->.
Qed.

(** The feature bag of a narrative that is a string, by its lookups. *)
Lemma string_features (t ct : string) (amt : Q) :
  exists F ac si ci rr mi,
    analyze_text_body (Some t) ct amt
      = _generate_fraud_report F (_calculate_fraud_score F) ct /\
    _analyze_consistency (Some t) ct
      = Ok [ ("consistency_issues", VStrs ci);
             ("consistency_score",
              VFloat (pymax 0 (1 - Qof_nat (List.length ci) * 0.2))) ] /\
    num_at "fraud_keyword_count" F = Some (Qof_nat (fraud_keyword_count t)) /\
    strs_at "detected_fraud_keywords" F = Some (detected_keywords t) /\
    num_at "amount_anomaly_score" F = Some (amount_anomaly_score ct amt) /\
    num_at "amount_consistency" F = Some ac /\
    (extracted_amounts t = [] -> ac = 1.0) /\
    num_at "suspicious_pattern_count" F = Some (Qof_nat (List.length si)) /\
    strs_at "suspicious_indicators" F = Some si /\
    num_at "consistency_score" F
      = Some (pymax 0 (1 - Qof_nat (List.length ci) * 0.2)) /\
    strs_at "consistency_issues" F = Some ci /\
    num_at "text_length" F = Some (Qof_nat (len t)) /\
    num_at "amount_count" F = Some (Qof_nat (List.length (extracted_amounts t))) /\
    num_at "fraud_keyword_ratio" F
      = Some (Qof_nat (fraud_keyword_count t) / Qof_nat (Nat.max (word_count t) 1)) /\
    num_at "round_amount_ratio" F = Some rr /\
    num_at "missing_info_count" F = Some mi.
Proof.
  destruct (patterns_ok t) as [pf P].
  destruct (consistency_ok t ct) as [cf C].
  destruct (patterns_shape _ _ P) as (mi & si & ->).
  destruct (consistency_shape _ _ _ C) as (ci & ->).
  unfold analyze_text_body. rewrite text_features_shape, P, C.
  unfold _analyze_amounts. cbn [bind]. rewrite bind_ret.
  destruct (extracted_amounts t) as [| a l] eqn:E.
  - eexists _, 1.0, si, ci, _, _.
    split; [reflexivity |]. split; [reflexivity |].
    unfold combine.
    cbn [dict_update fold_left dict_set fst snd String.eqb Ascii.eqb Bool.eqb
         strs_at num_at dict_get bind as_num VNat VStrs List.length].
    rewrite !as_strs_map.
    repeat (split; [first [reflexivity | intros; reflexivity] |]). reflexivity.
  - eexists _, _, si, ci, _, _.
    split; [reflexivity |]. split; [reflexivity |].
    unfold combine.
    cbn [dict_update fold_left dict_set fst snd String.eqb Ascii.eqb Bool.eqb
         strs_at num_at dict_get bind as_num VNat VStrs].
    rewrite !as_strs_map.
    repeat (split; [first [reflexivity | intros; discriminate] |]). reflexivity.
Qed.

(** The report on a narrative that is a string. *)
Lemma string_report (t ct : string) (amt : Q) :
  exists F ac si ci rr mi,
    let s := _calculate_fraud_score F in
    let c := (0 + (if Qgtb (Qof_nat (len t)) 100 then 0.8
                   else if Qgtb (Qof_nat (len t)) 50 then 0.6 else 0.3)
                + (if Qgtb (Qof_nat (List.length (extracted_amounts t))) 0
                   then 0.9 else 0.4)
                + (if Qgtb s 0.7 || Qltb s 0.3 then 0.8 else 0.5)) / 3 in
    let cs := pymax 0 (1 - Qof_nat (List.length ci) * 0.2) in
    (extracted_amounts t = [] -> ac = 1.0) /\
    strs_at "consistency_issues" F = Some ci /\
    num_at "fraud_keyword_ratio" F
      = Some (Qof_nat (fraud_keyword_count t) / Qof_nat (Nat.max (word_count t) 1)) /\
    num_at "amount_anomaly_score" F = Some (amount_anomaly_score ct amt) /\
    num_at "suspicious_pattern_count" F = Some (Qof_nat (List.length si)) /\
    num_at "consistency_score" F = Some cs /\
    num_at "amount_consistency" F = Some ac /\
    num_at "round_amount_ratio" F = Some rr /\
    num_at "missing_info_count" F = Some mi /\
    analyze_text_body (Some t) ct amt = Ok (analyze_text (Some t) ct amt) /\
    analyze_text (Some t) ct amt =
    [ ("fraud_score", VFloat s);
      ("confidence", VFloat c);
      ("risk_factors",
       VStrs ((if Qgtb (Qof_nat (fraud_keyword_count t)) 0
               then ["suspicious_language"] else [])
              ++ (if Qgtb (amount_anomaly_score ct amt) 0.5
                  then ["unusual_amount"] else [])
              ++ (if Qgtb ac 0.3 then ["amount_inconsistency"] else [])
              ++ (if Qgtb (Qof_nat (List.length si)) 0
                  then ["suspicious_patterns"] else [])
              ++ (if Qltb cs 0.7 then ["internal_inconsistency"] else []))%list);
      ("issues",
       VStrs ((if Qgtb (Qof_nat (fraud_keyword_count t)) 0
               then [("Suspicious keywords detected: "
                      ++ join ", " (detected_keywords t))%string]
               else [])
              ++ (if Qgtb (amount_anomaly_score ct amt) 0.5
                  then ["Claimed amount appears unusual for this type of claim"]
                  else [])
              ++ (if Qgtb ac 0.3
                  then ["Inconsistency between claimed amount and extracted amounts"]
                  else [])
              ++ (if Qgtb (Qof_nat (List.length si)) 0 then si else [])
              ++ (if Qltb cs 0.7 then ci else []))%list);
      ("recommendation", VStr (_get_recommendation s c));
      ("feature_analysis", VDict F);
      ("claim_type", VStr ct) ].
Proof.
  destruct (string_features t ct amt)
    as (F & ac & si & ci & rr & mi & B & _ & K & DK & AN & AC & E & PC & PIS
        & CS & CIS & TL & CNT & KR & RR & MI).
  exists F, ac, si, ci, rr, mi. cbv zeta.
  repeat (split; [assumption |]).
  unfold analyze_text. rewrite B.
  rewrite (report_anatomy F _ ct _ _ _ _ _ _ _ _ _ _
             (get_num_at _ _ _ _ K) (get_strs_at _ _ _ DK)
             (get_num_at _ _ _ _ AN) (get_num_at _ _ _ _ AC)
             (get_num_at _ _ _ _ PC) (get_strs_at _ _ _ PIS)
             (get_num_at _ _ _ _ CS) (get_strs_at _ _ _ CIS)
             (get_num_at _ _ _ _ TL) (get_num_at _ _ _ _ CNT)).
  split; reflexivity.
Qed.


Lemma Qgtb_iff (a b : Q) : Qgtb a b = true <-> b < a.
Proof. unfold Qgtb. apply Qltb_iff. Qed.

Lemma Qgtb_false (a b : Q) : Qgtb a b = false <-> a <= b.
Proof.
  split; intro H.
  - destruct (Qlt_le_dec b a) as [L | L]; [| exact L].
    apply Qgtb_iff in L. congruence.
  - destruct (Qgtb a b) eqn:E; [| reflexivity].
    apply Qgtb_iff in E. lra.
Qed.

Lemma Qltb_false (a b : Q) : Qltb a b = false <-> b <= a.
Proof. apply (Qgtb_false b a). Qed.

Lemma fraud_score_unit (F : dict) : 0 <= _calculate_fraud_score F <= 1.
Proof.
  unfold _calculate_fraud_score, fraud_score_body, bind.
  destruct (for_each _ _ _) as [[x y] | e]; [apply clamp_min_max | lra].
Qed.

Lemma thresholds_ordered (ct : string) :
  low (thresholds_for ct) < high (thresholds_for ct).
Proof.
  unfold thresholds_for, amount_thresholds, thresholds_get.
  split_tests; cbn [low high]; lra.
Qed.

(** For every narrative that is a string the analysis completes: the
    report is the one of the [try] block, its fraud score lies in
    [[0, 1]], its confidence, the mean of three factors between 0.3
    and 0.9, lies in [[0.3, 0.9]], and the recommendation is one of the
    four of [_get_recommendation]. *)
Theorem string_report_ranges (t ct : string) (amt : Q) :
  analyze_text_body (Some t) ct amt = Ok (analyze_text (Some t) ct amt) /\
  exists s c rec,
    num_at "fraud_score" (analyze_text (Some t) ct amt) = Some s /\
    0 <= s <= 1 /\
    num_at "confidence" (analyze_text (Some t) ct amt) = Some c /\
    0.3 <= c <= 0.9 /\
    str_at "recommendation" (analyze_text (Some t) ct amt) = Some rec /\
    In rec ["high_risk_reject"; "manual_review_required"; "low_risk_approve";
            "standard_review"].
Proof.
  destruct (string_report t ct amt)
    as (F & ac & si & ci & rr & mi & _ & _ & _ & _ & _ & _ & _ & _ & _ & B & R).
  split; [exact B |]. rewrite R.
  eexists _, _, _.
  split; [reflexivity |]. split; [apply fraud_score_unit |].
  split; [reflexivity |]. split.
  - split_tests; split; apply Qle_bool_iff; reflexivity.
  - split; [reflexivity |].
    unfold _get_recommendation. split_tests; cbn [In]; tauto.
Qed.

(** The risk factor [unusual_amount] is reported exactly when the
    requested amount exceeds the upper threshold of the claim type; an
    amount below the lower threshold is never reported. *)
Theorem unusual_amount_iff (t ct : string) (amt : Q) :
  exists rf issues,
    strs_at "risk_factors" (analyze_text (Some t) ct amt) = Some rf /\
    strs_at "issues" (analyze_text (Some t) ct amt) = Some issues /\
    (In "unusual_amount" rf <-> high (thresholds_for ct) < amt) /\
    (high (thresholds_for ct) < amt ->
     In "Claimed amount appears unusual for this type of claim" issues).
Proof.
  destruct (string_report t ct amt)
    as (F & ac & si & ci & rr & mi & _ & _ & _ & _ & _ & _ & _ & _ & _ & _ & R).
  rewrite R.
  cbn [strs_at dict_get String.eqb Ascii.eqb Bool.eqb VStrs].
  rewrite !as_strs_map. eexists _, _.
  split; [reflexivity |]. split; [reflexivity |].
  assert (G : Qgtb (amount_anomaly_score ct amt) 0.5 = true
              <-> high (thresholds_for ct) < amt).
  { pose proof (thresholds_ordered ct) as O.
    unfold amount_anomaly_score.
    destruct (Qltb amt _) eqn:L.
    - apply Qltb_iff in L. split; [intro H; vm_compute in H; discriminate | lra].
    - destruct (Qgtb amt _) eqn:H.
      + apply Qgtb_iff in H. split; [intros _; exact H | reflexivity].
      + apply Qgtb_false in H. rewrite Qgtb_iff.
        pose proof (pymin_le_l 0.2
                      (Qabs' ((amt - low (thresholds_for ct))
                              / (high (thresholds_for ct) - low (thresholds_for ct))
                              - 0.5))).
        lra. }
  split.
  - rewrite <- G.
    destruct (Qgtb (amount_anomaly_score ct amt) 0.5).
    + rewrite !in_app_iff. cbn [In]. tauto.
    + split; [| discriminate].
      rewrite !in_app_iff. split_tests; cbn [In]; intuition discriminate.
  - intro H. apply G in H. rewrite H.
    rewrite !in_app_iff. cbn [In]. tauto.
Qed.


Lemma consistency_flag (n : nat) :
  Qltb (pymax 0 (1 - Qof_nat n * 0.2)) 0.7 = true <-> (2 <= n)%nat.
Proof.
  rewrite Qltb_iff. split.
  - intro H. destruct n as [| [| n]]; [exfalso | exfalso | lia].
    + pose proof (pymax_ge_r 0 (1 - Qof_nat 0 * 0.2)) as G.
      change (Qof_nat 0) with 0 in *. lra.
    + pose proof (pymax_ge_r 0 (1 - Qof_nat 1 * 0.2)) as G.
      change (Qof_nat 1) with 1 in *. lra.
  - intro H. apply Qof_nat_le in H.
    apply Qle_lt_trans with (y := 0.6); [| lra].
    apply pymax_lub; [lra |].
    change (Qof_nat 2) with 2 in H. lra.
Qed.

(** The risk factor [internal_inconsistency] is reported exactly when
    the consistency check of the claim type found at least two
    contradictions: a single one lowers the consistency score to 0.8,
    which the report does not mention. *)
Theorem internal_inconsistency_iff (t ct : string) (amt : Q) :
  exists F ci rf,
    dict_get "feature_analysis" (analyze_text (Some t) ct amt) = Some (VDict F) /\
    strs_at "consistency_issues" F = Some ci /\
    strs_at "risk_factors" (analyze_text (Some t) ct amt) = Some rf /\
    (In "internal_inconsistency" rf <-> (2 <= List.length ci)%nat).
Proof.
  destruct (string_report t ct amt)
    as (F & ac & si & ci & rr & mi & _ & CI & _ & _ & _ & _ & _ & _ & _ & _ & R).
  rewrite R.
  cbn [strs_at dict_get String.eqb Ascii.eqb Bool.eqb VStrs].
  rewrite !as_strs_map. exists F, ci. eexists.
  split; [reflexivity |]. split; [exact CI |]. split; [reflexivity |].
  rewrite <- consistency_flag.
  destruct (Qltb (pymax 0 (1 - Qof_nat (List.length ci) * 0.2)) 0.7).
  - rewrite !in_app_iff. cbn [In]. tauto.
  - split; [| discriminate].
    rewrite !in_app_iff. split_tests; cbn [In]; intuition discriminate.
Qed.

(** A narrative from which no amount with a decimal point is extracted
    (for instance one that writes its amounts without cents) always
    carries the risk factor [amount_inconsistency] and its issue,
    whatever the requested amount. *)
Theorem no_amounts_flagged (t ct : string) (amt : Q) :
  extracted_amounts t = [] ->
  exists rf issues,
    strs_at "risk_factors" (analyze_text (Some t) ct amt) = Some rf /\
    In "amount_inconsistency" rf /\
    strs_at "issues" (analyze_text (Some t) ct amt) = Some issues /\
    In "Inconsistency between claimed amount and extracted amounts" issues.
Proof.
  intro E.
  destruct (string_report t ct amt)
    as (F & ac & si & ci & rr & mi & A & _ & _ & _ & _ & _ & _ & _ & _ & _ & R).
  rewrite (A E) in R. rewrite R.
  cbn [strs_at dict_get String.eqb Ascii.eqb Bool.eqb VStrs].
  rewrite !as_strs_map. eexists _, _.
  split; [reflexivity |]. split.
  { rewrite !in_app_iff. right. right. left. now left. }
  split; [reflexivity |].
  rewrite !in_app_iff. right. right. left. now left.
Qed.

Lemma no_amounts_flagged_witness :
  extracted_amounts "Windscreen replaced for $500 at the garage" = [] /\
  exists rf issues,
    strs_at "risk_factors"
      (analyze_text (Some "Windscreen replaced for $500 at the garage") "vehicle" 500)
      = Some rf /\
    In "amount_inconsistency" rf /\
    strs_at "issues"
      (analyze_text (Some "Windscreen replaced for $500 at the garage") "vehicle" 500)
      = Some issues /\
    In "Inconsistency between claimed amount and extracted amounts" issues.
Proof.
  split; [vm_compute; reflexivity |].
  apply no_amounts_flagged. vm_compute. reflexivity.
Defined.

(** What a recommendation requires: [low_risk_approve] is given only
    when the score is below 0.3, an amount with a decimal point was
    extracted and the narrative is longer than 50 characters;
    [high_risk_reject] only when the score is above 0.7 and an amount
    was extracted or the narrative is longer than 100 characters. *)
Theorem recommendation_requirements (t ct : string) (amt : Q) :
  exists s rec,
    num_at "fraud_score" (analyze_text (Some t) ct amt) = Some s /\
    str_at "recommendation" (analyze_text (Some t) ct amt) = Some rec /\
    (rec = "low_risk_approve" ->
     s < 0.3 /\ extracted_amounts t <> [] /\ (50 < len t)%nat) /\
    (rec = "high_risk_reject" ->
     0.7 < s /\ (extracted_amounts t <> [] \/ (100 < len t)%nat)).
Proof.
  destruct (string_report t ct amt)
    as (F & ac & si & ci & rr & mi & _ & _ & _ & _ & _ & _ & _ & _ & _ & _ & R).
  rewrite R.
  cbn [num_at str_at dict_get String.eqb Ascii.eqb Bool.eqb as_num].
  eexists _, _. split; [reflexivity |]. split; [reflexivity |].
  set (s := _calculate_fraud_score F). unfold _get_recommendation.
  set (f1 := if Qgtb (Qof_nat (len t)) 100 then 0.8
             else if Qgtb (Qof_nat (len t)) 50 then 0.6 else 0.3).
  set (f2 := if Qgtb (Qof_nat (List.length (extracted_amounts t))) 0
             then 0.9 else 0.4).
  set (f3 := if Qgtb s 0.7 || Qltb s 0.3 then 0.8 else 0.5).
  assert (F1 : f1 <= 0.8 /\ ((len t <= 100)%nat -> f1 <= 0.6)
               /\ ((len t <= 50)%nat -> f1 <= 0.3)).
  { subst f1. split; [split_tests; lra |].
    split; intro L; apply Qof_nat_le in L.
    - change (Qof_nat 100) with 100 in L.
      apply Qgtb_false in L. rewrite L. split_tests; lra.
    - change (Qof_nat 50) with 50 in L.
      assert (L' : Qof_nat (len t) <= 100) by lra.
      apply Qgtb_false in L, L'. rewrite L, L'. lra. }
  assert (F2 : f2 <= 0.9 /\ (extracted_amounts t = [] -> f2 <= 0.4)).
  { subst f2. split; [split_tests; lra |].
    intros ->. apply Qle_bool_iff. reflexivity. }
  assert (F3 : f3 <= 0.8) by (subst f3; split_tests; lra).
  clearbody f1 f2 f3.
  set (c := (0 + f1 + f2 + f3) / 3).
  assert (C : c * 3 == 0 + f1 + f2 + f3) by (subst c; field).
  clearbody c.
  destruct F1 as (F1 & F1' & F1''). destruct F2 as (F2 & F2').
  destruct (Qgtb s 0.7 && Qgtb c 0.6) eqn:H1.
  - apply andb_true_iff in H1 as [S7 C6]. apply Qgtb_iff in S7, C6.
    split; [discriminate |]. intros _. split; [exact S7 |].
    destruct (extracted_amounts t) eqn:E; [right | left; discriminate].
    destruct (Nat.lt_ge_cases 100 (len t)) as [L | L]; [exact L | exfalso].
    specialize (F1' L). specialize (F2' eq_refl). lra.
  - destruct (Qgtb s 0.5); [split; discriminate |].
    destruct (Qltb s 0.3 && Qgtb c 0.7) eqn:H3; [| split; discriminate].
    apply andb_true_iff in H3 as [S3 C7]. apply Qltb_iff in S3.
    apply Qgtb_iff in C7.
    split; [| discriminate]. intros _. split; [exact S3 |]. split.
    + intro E. specialize (F2' E). lra.
    + destruct (Nat.lt_ge_cases 50 (len t)) as [L | L]; [exact L | exfalso].
      specialize (F1'' L). lra.
Qed.

Lemma score_step_present (F : dict) (acc : Q * Q) (k : string) (w v : Q) :
  num_at k F = Some v ->
  score_step F acc (k, w) = Ok (fst acc + w * normalize k v, snd acc + w).
Proof.
  unfold num_at, score_step. destruct (dict_get k F); [| discriminate].
  now intros ->.
Qed.

Lemma clamp_compat (a b : Q) :
  a == b -> pymin 1.0 (pymax 0.0 a) == pymin 1.0 (pymax 0.0 b).
Proof.
  intro H. apply Qle_antisym; apply pymin_mono; try lra; apply pymax_mono; lra.
Qed.

(** The score of a narrative that is a string is the clamped weighted
    sum of its seven normalised features, read from the report's own
    [feature_analysis]: all seven are present, so the sum of the
    weights that divides it is 1. *)
Theorem fraud_score_closed_form (t ct : string) (amt : Q) :
  exists F kr an pc cs ac rr mi s,
    dict_get "feature_analysis" (analyze_text (Some t) ct amt) = Some (VDict F) /\
    num_at "fraud_keyword_ratio" F = Some kr /\
    num_at "amount_anomaly_score" F = Some an /\
    num_at "suspicious_pattern_count" F = Some pc /\
    num_at "consistency_score" F = Some cs /\
    num_at "amount_consistency" F = Some ac /\
    num_at "round_amount_ratio" F = Some rr /\
    num_at "missing_info_count" F = Some mi /\
    num_at "fraud_score" (analyze_text (Some t) ct amt) = Some s /\
    s == pymin 1.0 (pymax 0.0
           (0.25 * pymin 1.0 (kr * 5)
            + 0.20 * pymin 1.0 (pymax 0.0 an)
            + 0.15 * pymin 1.0 (pc * 0.2)
            + 0.15 * (1.0 - cs)
            + 0.10 * pymin 1.0 ac
            + 0.10 * pymin 1.0 (rr * 5)
            + 0.05 * pymin 1.0 (mi * 0.2))).
Proof.
  destruct (string_report t ct amt)
    as (F & ac & si & ci & rr & mi & _ & _ & KR & AN & PC & CS & AC & RR & MI
        & _ & R).
  rewrite R.
  cbn [num_at dict_get String.eqb Ascii.eqb Bool.eqb as_num].
  exists F. eexists _, _, _, _, _, _, _, _.
  split; [reflexivity |].
  repeat (split; [eassumption |]).
  split; [reflexivity |].
  unfold _calculate_fraud_score, fraud_score_body, weights.
  cbn [for_each].
  rewrite (score_step_present _ _ _ _ _ KR). cbn [bind].
  rewrite (score_step_present _ _ _ _ _ AN). cbn [bind].
  rewrite (score_step_present _ _ _ _ _ PC). cbn [bind].
  rewrite (score_step_present _ _ _ _ _ CS). cbn [bind].
  rewrite (score_step_present _ _ _ _ _ AC). cbn [bind].
  rewrite (score_step_present _ _ _ _ _ RR). cbn [bind].
  rewrite (score_step_present _ _ _ _ _ MI). cbn [bind fst snd].
  change (Qgtb (0.0 + 0.25 + 0.20 + 0.15 + 0.15 + 0.10 + 0.10 + 0.05) 0)
    with true. cbv iota.
  apply clamp_compat.
  unfold normalize. cbn [String.eqb Ascii.eqb Bool.eqb existsb orb].
  match goal with
  | |- ?x / ?w == _ =>
      assert (W : w == 1) by reflexivity;
      transitivity (x / 1); [now rewrite W |]
  end.
  unfold Qdiv. change (/ 1) with 1.
  generalize (pymin 1.0 (Qof_nat (fraud_keyword_count t)
                         / Qof_nat (Nat.max (word_count t) 1) * 5)).
  generalize (pymin 1.0 (pymax 0.0 (amount_anomaly_score ct amt))).
  generalize (pymin 1.0 (Qof_nat (List.length si) * 0.2)).
  generalize (pymax 0 (1 - Qof_nat (List.length ci) * 0.2)).
  generalize (pymin 1.0 ac). generalize (pymin 1.0 (rr * 5)).
  generalize (pymin 1.0 (mi * 0.2)).
  intros. lra.
Qed.

End FraudReportSpec.

(* ===================================================================== *)
(** * The validation result *)
(* ===================================================================== *)

Module ValidationSpec.
Import Py PyFacts Validator ValidatorSpec FraudReportSpec.
Local Open Scope Q_scope.

Lemma for_each_ok {A S : Type} (body : S -> A -> result S) :
  (forall s x, exists s', body s x = Ok s') ->
  forall l s, exists s', for_each l body s = Ok s'.
Proof.
  intros Hb l. induction l as [| x l IH]; intro s; cbn [for_each].
  - now exists s.
  - destruct (Hb s x) as [s' ->]. cbn [bind]. apply IH.
Qed.

Lemma as_nums_floats (l : list Q) : as_nums (map VFloat l) = Some l.
Proof.
  induction l as [| q l IH]; cbn [map as_nums as_num]; [reflexivity |].
  now rewrite IH.
Qed.

Lemma integrity_parse_raises (p : list datetime) (s : string) (e : exn) :
  integrity_parse p s = Raise e -> exn_type e = "ValueError".
Proof.
  unfold integrity_parse.
  destruct (split_on "/" s) as [| p0 [| p1 [| p2 [| ? ?]]]]; try discriminate.
  unfold bind.
  destruct (int p0) eqn:E0; [| intros [= <-]; eapply int_raises, E0].
  destruct (int p1) eqn:E1; [| intros [= <-]; eapply int_raises, E1].
  destruct (int p2) eqn:E2; [| intros [= <-]; eapply int_raises, E2].
  destruct (mk_date _ _ _) eqn:E3; [discriminate | intros [= <-]; eapply mk_date_raises, E3].
Qed.

Lemma integrity_ok (t : string) : exists b, _has_data_integrity_issues t = Ok b.
Proof.
  unfold _has_data_integrity_issues.
  match goal with |- context [if ?c then Ok true else _] => destruct c end;
    [eexists; reflexivity |].
  destruct (1 <? _)%nat; [| eexists; reflexivity].
  destruct (for_each _ integrity_parse []) as [pd | e] eqn:E.
  - destruct pd; eexists; reflexivity.
  - apply (for_each_raise (fun e => exn_type e = "ValueError") integrity_parse
             integrity_parse_raises) in E.
    unfold caught_by. rewrite E. cbn. eexists; reflexivity.
Qed.

(** The placeholder loop takes 0.2 off the score for every issue it adds. *)
Lemma placeholder_loop_count (ps : list string) (t : string) (acc : list string * Q) :
  (List.length (fst acc) <= List.length (fst (placeholder_loop ps t acc)))%nat /\
  snd (placeholder_loop ps t acc)
  == snd acc - 0.2 * (Qof_nat (List.length (fst (placeholder_loop ps t acc)))
                      - Qof_nat (List.length (fst acc))).
Proof.
  revert acc. induction ps as [| p ps IH]; intro acc; cbn [placeholder_loop].
  - split; [lia | ring].
  - destruct (Re.found p true t).
    + destruct (IH (append (fst acc) ("Placeholder text detected: " ++ p),
                    snd acc - 0.2)) as [L E].
      cbn [fst snd] in L, E. unfold append in L, E.
      rewrite length_app in L, E. cbn [List.length] in L, E.
      unfold append. split; [lia |]. rewrite E.
      unfold Qof_nat. rewrite Nat2Z.inj_add, inject_Z_plus.
      change (inject_Z (Z.of_nat 1)) with 1. ring.
    + apply IH.
Qed.

Lemma pymax0_one (x : Q) : x <= 1 -> (pymax 0.0 x == 1 <-> x == 1).
Proof.
  intro H. unfold pymax. destruct (Qlt_le_dec 0.0 x); split; intro E; lra.
Qed.

Lemma authenticity_ok (t dt : string) :
  exists ai a,
    _validate_content_authenticity (Some t) dt =
      Ok [ ("authenticity_validation_issues", VStrs ai);
           ("authenticity_score", VFloat a) ] /\
    0 <= a <= 1.
Proof.
  destruct (_validate_content_authenticity (Some t) dt) as [cv | e] eqn:V.
  - destruct (authenticity_shape _ _ _ V) as (ai & a & -> & B).
    now exists ai, a.
  - exfalso. unfold _validate_content_authenticity in V.
    destruct (integrity_ok t) as [b E]. rewrite E in V.
    destruct (placeholder_loop placeholder_patterns t ([], 1.0)) as [i0 s0].
    destruct (_has_formatting_inconsistencies t);
      destruct (_has_unusual_characters t); destruct b; discriminate V.
Qed.


Lemma cross_parse_ok (p : list datetime) (s : string) :
  exists p', cross_parse p s = Ok p'.
Proof.
  unfold cross_parse.
  destruct (split_on "/" s) as [| p0 [| p1 [| p2 [| ? ?]]]];
    try (eexists; reflexivity).
  unfold bind.
  destruct (int p2) eqn:E2;
    [| apply int_raises in E2; unfold caught_by; rewrite E2; eexists; reflexivity].
  destruct (int p0) eqn:E0;
    [| apply int_raises in E0; unfold caught_by; rewrite E0; eexists; reflexivity].
  destruct (int p1) eqn:E1;
    [| apply int_raises in E1; unfold caught_by; rewrite E1; eexists; reflexivity].
  destruct (mk_date _ _ _) eqn:E3; [eexists; reflexivity |].
  apply mk_date_raises in E3. unfold caught_by. rewrite E3. eexists; reflexivity.
Qed.

Lemma cross_validate_ok (ed : dict) (dt : string) (ds : list string) (am : list Q) :
  get_strs ed "dates" = Ok ds ->
  get_nums ed "amounts" = Ok am ->
  (forall v, dict_get "patient_name" ed = Some v -> exists s, v = VStr s) ->
  (forall v, dict_get "provider" ed = Some v -> exists s, v = VStr s) ->
  exists ci, _cross_validate_data ed dt = Ok ci.
Proof.
  intros D A PN PR. unfold _cross_validate_data. rewrite D. cbn [bind].
  assert (I : exists i,
            (if (1 <? List.length ds)%nat
             then parsed_dates <- for_each ds cross_parse [] ;;
                  match parsed_dates with
                  | [] => Ok []
                  | _ :: _ =>
                      if (90 <? date_range parsed_dates)%Z
                      then Ok (append [] "Inconsistent dates detected")
                      else Ok []
                  end
             else Ok []) = Ok i).
  { destruct (1 <? _)%nat; [| eexists; reflexivity].
    destruct (for_each_ok cross_parse cross_parse_ok ds []) as [pd ->].
    cbn [bind]. destruct pd; [eexists; reflexivity |].
    destruct (90 <? _)%Z; eexists; reflexivity. }
  destruct I as [i ->]. cbn [bind]. rewrite A. cbn [bind].
  destruct (String.eqb dt "medical_bill"); [| eexists; reflexivity].
  destruct (dict_get "patient_name" ed) as [pn |]; [| eexists; reflexivity].
  destruct (dict_get "provider" ed) as [pr |]; [| eexists; reflexivity].
  destruct (PN _ eq_refl) as [s1 ->]. destruct (PR _ eq_refl) as [s2 ->].
  destruct (truthy _ && truthy _); [| eexists; reflexivity].
  destruct (String.eqb _ _); eexists; reflexivity.
Qed.

(** The required fields that no extraction step ever fills. *)
Lemma data_ok (t dt : string) (rules : rules) :
  exists di data,
    _extract_and_validate_data (Some t) dt rules =
      Ok [ ("data_validation_issues", VStrs di); ("data", VDict data) ] /\
    (forall field, In field (required_fields rules) ->
                   dict_get field data = None ->
                   In ("Required field missing: " ++ field)%string di) /\
    (forall field,
       In field ["amount"; "estimate_amount"; "date"; "merchant";
                 "report_number"; "incident_description"] ->
       dict_get field data = None).
Proof.
  unfold _extract_and_validate_data.
  match goal with
  | |- context [_cross_validate_data ?ed dt] =>
      set (data := ed);
      assert (H : exists ci, _cross_validate_data data dt = Ok ci
                  /\ forall field,
                       In field ["amount"; "estimate_amount"; "date"; "merchant";
                                 "report_number"; "incident_description"] ->
                       dict_get field data = None)
  end.
  { subst data.
    destruct (String.eqb dt "medical_bill") eqn:M;
      [| destruct (String.eqb dt "vehicle_estimate") eqn:V;
         [| destruct (existsb (String.eqb dt) ["invoice"; "receipt"]) eqn:I]];
    cbv iota;
    unfold _extract_medical_data, _extract_vehicle_data, _extract_invoice_data;
    repeat match goal with
    | |- context [match first_match ?ps t with _ => _ end] =>
        destruct (first_match ps t)
    | |- context [match Re.search ?p ?f t with _ => _ end] =>
        destruct (Re.search p f t)
    | |- context [if (Re.m_ngroups ?m =? 3)%nat then _ else _] =>
        destruct (Re.m_ngroups m =? 3)%nat
    end;
    (match goal with
     | |- exists ci, _cross_validate_data ?ed dt = Ok ci /\ _ =>
         destruct (cross_validate_ok ed dt (_extract_dates t) (_extract_amounts t))
           as [ci C];
         [ cbn [dict_update fold_left dict_set fst snd String.eqb Ascii.eqb
                Bool.eqb get_strs dict_get VStrs];
           rewrite as_strs_map; reflexivity
         | cbn [dict_update fold_left dict_set fst snd String.eqb Ascii.eqb
                Bool.eqb get_nums dict_get VStrs];
           rewrite as_nums_floats; reflexivity
         | cbn [dict_update fold_left dict_set fst snd String.eqb Ascii.eqb
                Bool.eqb dict_get]; intros v E;
           first [discriminate E | injection E as <-; eexists; reflexivity]
         | cbn [dict_update fold_left dict_set fst snd String.eqb Ascii.eqb
                Bool.eqb dict_get]; intros v E;
           first [discriminate E | injection E as <-; eexists; reflexivity]
         | exists ci; split; [exact C |] ]
     end);
    intros field F; cbn [In] in F;
    repeat (destruct F as [<- | F]; [reflexivity |]); contradiction. }
  destruct H as (ci & -> & N). cbn [bind].
  eexists _, data. split; [reflexivity |]. split; [| exact N].
  intros field R G. unfold extend. cbn [List.app].
  apply in_or_app. left. apply in_map, filter_In. split; [exact R |].
  unfold field_missing. now rewrite G.
Qed.


(** The result of the four checks on a text that is a string. *)
Lemma string_run_checks (now : datetime) (dt t : string) :
  exists ti stats si ai a di data,
    0 <= a <= 1 /\
    (forall field, In field (required_fields (rules_for dt)) ->
                   dict_get field data = None ->
                   In ("Required field missing: " ++ field)%string di) /\
    (forall field,
       In field ["amount"; "estimate_amount"; "date"; "merchant";
                 "report_number"; "incident_description"] ->
       dict_get field data = None) /\
    run_checks now dt (Some t) =
    Ok [ ("is_valid", VBool true);
         ("validation_score", VFloat 1.0);
         ("issues", VStrs (extend (extend si ai) di));
         ("extracted_data", VDict data);
         ("confidence", VFloat ((1.0 + a) / 2));
         ("text_validation_issues", VStrs ti);
         ("text_stats", VDict stats);
         ("data", VDict data) ].
Proof.
  destruct (text_content_shape t (rules_for dt)) as (ti & stats & Ht).
  destruct (structure_shape now t dt (rules_for dt)) as (si & Hs).
  destruct (authenticity_ok t dt) as (ai & a & Ha & Ra).
  destruct (data_ok t dt (rules_for dt)) as (di & data & Hd & Rd & Nd).
  exists ti, stats, si, ai, a, di, data.
  repeat (split; [assumption |]).
  unfold run_checks. rewrite Ht, Hs, Ha, Hd.
  unfold _merge_validation_results, initial_result.
  cbn -[Qplus Qdiv].
  unfold VStrs, extend. now rewrite !map_app.
Qed.

Lemma string_validation (now : datetime) (content : list Byte.byte)
  (filename dt t : string) :
  exists ti stats si ai a di data,
    let issues := extend (extend si ai) di in
    let score :=
      pymax 0.0 (pymin 1.0
        (((1.0 - pymin 0.8 (Qof_nat (List.length issues) * 0.1))
          * ((1.0 + a) / 2) + 1.0) / 2)) in
    0 <= a <= 1 /\
    (forall field, In field (required_fields (rules_for dt)) ->
                   dict_get field data = None ->
                   In ("Required field missing: " ++ field)%string di) /\
    (forall field,
       In field ["amount"; "estimate_amount"; "date"; "merchant";
                 "report_number"; "incident_description"] ->
       dict_get field data = None) /\
    validate_document_body now content filename dt (Some t)
      = Ok (validate_document now content filename dt (Some t)) /\
    validate_document now content filename dt (Some t) =
    [ ("is_valid", VBool (Qgeb score 0.6));
      ("validation_score", VFloat score);
      ("issues", VStrs issues);
      ("extracted_data", VDict data);
      ("confidence", VFloat ((1.0 + a) / 2));
      ("text_validation_issues", VStrs ti);
      ("text_stats", VDict stats);
      ("data", VDict data) ].
Proof.
  destruct (string_run_checks now dt t)
    as (ti & stats & si & ai & a & di & data & Ra & Rd & Nd & R).
  exists ti, stats, si, ai, a, di, data. cbv zeta.
  repeat (split; [assumption |]).
  unfold validate_document, validate_document_body. rewrite R. cbn [bind].
  split; [reflexivity |].
  unfold _calculate_validation_score, validation_score_body.
  cbn [dict_get dict_set String.eqb Ascii.eqb Bool.eqb pylen VStrs get_num
       as_num bind].
  rewrite length_map. reflexivity.
Qed.


Lemma score_floor (n : nat) (a : Q) :
  0 <= a <= 1 ->
  let x := ((1.0 - pymin 0.8 (Qof_nat n * 0.1)) * ((1.0 + a) / 2) + 1.0) / 2 in
  0.55 <= pymax 0.0 (pymin 1.0 x) <= 1 /\
  ((n <= 6)%nat -> 0.6 <= pymax 0.0 (pymin 1.0 x)) /\
  (a == 1 -> 0.6 <= pymax 0.0 (pymin 1.0 x)).
Proof.
  intros A x.
  assert (N : 0 <= Qof_nat n) by (change 0 with (Qof_nat 0); apply Qof_nat_le; lia).
  pose proof (pymin_le_l 0.8 (Qof_nat n * 0.1)) as D1.
  pose proof (pymin_le_r 0.8 (Qof_nat n * 0.1)) as D1'.
  assert (D0 : 0 <= pymin 0.8 (Qof_nat n * 0.1)) by (apply pymin_glb; lra).
  set (d := pymin 0.8 (Qof_nat n * 0.1)) in *.
  assert (X : x == ((1 - d) * (1 + a) + 2) / 4) by (subst x; field).
  assert (L : forall b, b <= ((1 - d) * (1 + a) + 2) / 4 -> b <= 1 ->
                        b <= pymax 0.0 (pymin 1.0 x)).
  { intros b B1 B2. eapply Qle_trans; [| apply pymax_ge_r].
    apply pymin_glb; [lra |]. rewrite X. exact B1. }
  split; [split |]; [| apply clamp_max_min | split].
  - apply L; [| lra]. apply Qle_shift_div_l; [lra |]. nra.
  - intro H. apply L; [| lra]. apply Qle_shift_div_l; [lra |].
    apply Qof_nat_le in H. change (Qof_nat 6) with 6 in H.
    assert (d <= 0.6) by lra. nra.
  - intro H. apply L; [| lra]. apply Qle_shift_div_l; [lra |]. nra.
Qed.

(** C4, as amended.  For a medical bill whose extracted text has fewer
    than 50 characters, the text-quality check reports the issue
    "Text too short: N characters (minimum: 50)".  This does not by
    itself make the document invalid: [is_valid] is true whenever the
    issues of the text-quality check and the entries of [issues] number
    at most six together. *)
Theorem short_medical_bill (now : datetime) (content : list Byte.byte)
  (filename text : string) :
  (len text < 50)%nat ->
  exists tv ti issues b,
    _validate_text_content (Some text) (rules_for "medical_bill") = Ok tv /\
    strs_at "text_validation_issues" tv = Some ti /\
    In (too_short_issue (len text) 50) ti /\
    contains "minimum: 50" (too_short_issue (len text) 50) = true /\
    strs_at "issues"
      (validate_document now content filename "medical_bill" (Some text))
      = Some issues /\
    bool_at "is_valid"
      (validate_document now content filename "medical_bill" (Some text)) = Some b /\
    ((List.length ti + List.length issues <= 6)%nat -> b = true).
Proof.
  intro Hlen.
  destruct (string_validation now content filename "medical_bill" text)
    as (ti' & stats & si & ai & a & di & data & Ra & _ & _ & _ & R).
  rewrite R.
  cbn [strs_at bool_at dict_get String.eqb Ascii.eqb Bool.eqb VStrs].
  rewrite as_strs_map.
  eexists. eexists. eexists. eexists.
  split; [reflexivity |].
  split; [unfold strs_at; cbn [dict_get String.eqb Ascii.eqb Bool.eqb VStrs];
          apply as_strs_map |].
  split.
  - change (min_text_length (rules_for "medical_bill")) with 50%nat.
    apply Nat.ltb_lt in Hlen. rewrite Hlen.
    unfold append, extend.
    cbn [app].
    repeat match goal with
    | |- In _ (if ?c then _ else _) => destruct c
    | |- In _ (match ?c with _ => _ end) => destruct c
    | |- In _ (_ ++ _)%list => apply in_or_app; left
    end; try (now left).
  - split; [apply too_short_mentions_minimum |].
    split; [reflexivity |]. split; [reflexivity |].
    intro H. apply Qgeb_iff.
    destruct (score_floor (List.length (extend (extend si ai) di)) a Ra)
      as (_ & S6 & _).
    apply S6. eapply Nat.le_trans; [apply Nat.le_add_l | exact H].
Qed.

(** The 47-character bill [short_bill]: the text-quality check reports
    two issues, [issues] has one entry, and the bill is valid. *)
Lemma short_medical_bill_witness :
  (len Scenarios.short_bill < 50)%nat /\
  exists tv ti issues b,
    _validate_text_content (Some Scenarios.short_bill) (rules_for "medical_bill") = Ok tv /\
    strs_at "text_validation_issues" tv = Some ti /\
    In (too_short_issue (len Scenarios.short_bill) 50) ti /\
    contains "minimum: 50" (too_short_issue (len Scenarios.short_bill) 50) = true /\
    strs_at "issues"
      (validate_document Scenarios.clock [] "bill.pdf" "medical_bill" (Some Scenarios.short_bill))
      = Some issues /\
    bool_at "is_valid"
      (validate_document Scenarios.clock [] "bill.pdf" "medical_bill" (Some Scenarios.short_bill))
      = Some b /\
    ((List.length ti + List.length issues <= 6)%nat -> b = true).
Proof.
  assert (len Scenarios.short_bill < 50)%nat as H by (vm_compute; repeat constructor).
  split; [exact H |].
  exact (short_medical_bill Scenarios.clock [] "bill.pdf" Scenarios.short_bill H).
Defined.

(** For every text that is a string the validation completes: the
    result is the one of the [try] block, with a validation score in
    [[0.55, 1]] and a confidence in [[0.5, 1]]. *)
Theorem string_validation_floor (now : datetime) (content : list Byte.byte)
  (filename dt t : string) :
  validate_document_body now content filename dt (Some t)
    = Ok (validate_document now content filename dt (Some t)) /\
  exists s conf,
    num_at "validation_score" (validate_document now content filename dt (Some t))
      = Some s /\
    0.55 <= s <= 1 /\
    num_at "confidence" (validate_document now content filename dt (Some t))
      = Some conf /\
    0.5 <= conf <= 1.
Proof.
  destruct (string_validation now content filename dt t)
    as (ti & stats & si & ai & a & di & data & Ra & _ & _ & B & R).
  split; [exact B |]. rewrite R. eexists _, _.
  split; [reflexivity |]. split; [apply (score_floor _ a Ra) |].
  split; [reflexivity |].
  split; [apply Qle_shift_div_l | apply Qle_shift_div_r]; lra.
Qed.

(** A text that is a string is declared invalid only when more than six
    issues were collected and the authenticity check lowered the
    confidence below 1. *)
Theorem invalid_needs_seven_issues (now : datetime) (content : list Byte.byte)
  (filename dt t : string) :
  exists issues valid conf,
    strs_at "issues" (validate_document now content filename dt (Some t))
      = Some issues /\
    bool_at "is_valid" (validate_document now content filename dt (Some t))
      = Some valid /\
    num_at "confidence" (validate_document now content filename dt (Some t))
      = Some conf /\
    ((List.length issues <= 6)%nat -> valid = true) /\
    (conf == 1 -> valid = true).
Proof.
  destruct (string_validation now content filename dt t)
    as (ti & stats & si & ai & a & di & data & Ra & _ & _ & _ & R).
  rewrite R.
  cbn [strs_at bool_at num_at dict_get String.eqb Ascii.eqb Bool.eqb VStrs as_num].
  rewrite as_strs_map. eexists _, _, _.
  split; [reflexivity |]. split; [reflexivity |]. split; [reflexivity |].
  destruct (score_floor (List.length (extend (extend si ai) di)) a Ra)
    as (_ & S6 & S1).
  split; intro H; apply Qgeb_iff.
  - apply S6, H.
  - apply S1.
    assert (E : (1.0 + a) / 2 * 2 == 1.0 + a) by field. lra.
Qed.

(** The authenticity check of a string never fails, its score lies in
    [[0, 1]], and the score is 1 exactly when the check reports no
    issue. *)
Theorem authenticity_clean_iff (t dt : string) :
  exists ai a,
    _validate_content_authenticity (Some t) dt =
      Ok [ ("authenticity_validation_issues", VStrs ai);
           ("authenticity_score", VFloat a) ] /\
    0 <= a <= 1 /\ (ai = [] <-> a == 1).
Proof.
  unfold _validate_content_authenticity.
  destruct (placeholder_loop_count placeholder_patterns t ([], 1.0)) as [_ E].
  destruct (placeholder_loop placeholder_patterns t ([], 1.0)) as [i0 s0].
  cbn [fst snd List.length] in E. change (Qof_nat 0) with 0 in E.
  assert (P : 0 <= Qof_nat (List.length i0)).
  { change 0 with (Qof_nat 0). apply Qof_nat_le. lia. }
  assert (Z : i0 = [] <-> Qof_nat (List.length i0) == 0).
  { destruct i0; [split; [reflexivity | reflexivity] |].
    split; [discriminate |]. intro H.
    assert (0 < Qof_nat (List.length (s :: i0))) by (apply Qof_nat_pos; cbn; lia).
    lra. }
  destruct (integrity_ok t) as [b ->]. cbn [bind].
  destruct (_has_formatting_inconsistencies t);
  destruct (_has_unusual_characters t); destruct b;
    eexists; eexists; (split; [reflexivity |]);
    (split; [split; [eapply Qle_trans; [| apply pymax_ge_l]; lra
                    | apply pymax_lub; lra] |]);
    rewrite pymax0_one by lra; unfold append;
    (split; [intro H; try (apply app_eq_nil in H; destruct H; discriminate);
             try (apply Z in H; lra)
            | intro H; try (exfalso; lra); apply Z; lra]).
Qed.

(** Required fields that no extraction step produces are reported as
    missing for every text: [amount] of a medical bill,
    [estimate_amount] of a vehicle estimate, [date] and [amount] of an
    invoice, all three fields of a receipt and of a police report. *)
Theorem unextractable_fields (now : datetime) (content : list Byte.byte)
  (filename dt field t : string) :
  In (dt, field)
     [ ("medical_bill", "amount"); ("vehicle_estimate", "estimate_amount");
       ("invoice", "date"); ("invoice", "amount");
       ("receipt", "date"); ("receipt", "amount"); ("receipt", "merchant");
       ("police_report", "report_number"); ("police_report", "date");
       ("police_report", "incident_description") ] ->
  exists issues,
    strs_at "issues" (validate_document now content filename dt (Some t))
      = Some issues /\
    In ("Required field missing: " ++ field)%string issues.
Proof.
  intro T.
  destruct (string_validation now content filename dt t)
    as (ti & stats & si & ai & a & di & data & _ & Rd & Nd & _ & R).
  rewrite R.
  cbn [strs_at dict_get String.eqb Ascii.eqb Bool.eqb VStrs].
  rewrite as_strs_map. eexists. split; [reflexivity |].
  unfold extend. apply in_or_app. right.
  cbn [In] in T.
  repeat (destruct T as [[= <- <-] | T];
          [apply Rd; [vm_compute; tauto | apply Nd; cbn [In]; tauto] |]).
  contradiction.
Qed.


Lemma unextractable_fields_witness :
  In ("medical_bill", "amount")
     [ ("medical_bill", "amount"); ("vehicle_estimate", "estimate_amount");
       ("invoice", "date"); ("invoice", "amount");
       ("receipt", "date"); ("receipt", "amount"); ("receipt", "merchant");
       ("police_report", "report_number"); ("police_report", "date");
       ("police_report", "incident_description") ] /\
  exists issues,
    strs_at "issues"
      (validate_document Scenarios.clock [] "bill.png" "medical_bill"
         (Some "Patient: Ann Lee Service: 3/4/2024 Doctor: Bob Ray Amount: $120.00"))
      = Some issues /\
    In "Required field missing: amount" issues.
Proof.
  split; [cbn [In]; tauto |].
  apply (unextractable_fields Scenarios.clock [] "bill.png" "medical_bill" "amount").
  cbn [In]. tauto.
Defined.

(** A document type without an entry in [validation_rules] (for
    instance [prescription] or [photo_id]) is validated exactly as the
    type [general]. *)
Theorem unknown_type_is_general (now : datetime) (content : list Byte.byte)
  (filename dt : string) (text : option string) :
  rules_get dt validation_rules = None ->
  validate_document now content filename dt text
  = validate_document now content filename "general" text.
Proof.
  intro H. unfold validation_rules, rules_get in H.
  destruct (String.eqb dt "medical_bill") eqn:M; [discriminate |].
  destruct (String.eqb dt "vehicle_estimate") eqn:V; [discriminate |].
  destruct (String.eqb dt "invoice") eqn:I; [discriminate |].
  destruct (String.eqb dt "receipt") eqn:Rc; [discriminate |].
  destruct (String.eqb dt "police_report") eqn:P; [discriminate |].
  destruct (String.eqb dt "general") eqn:G; [discriminate |].
  assert (R : rules_for dt = rules_for "general").
  { unfold rules_for, validation_rules, rules_get.
    rewrite M, V, I, Rc, P, G. reflexivity. }
  assert (S : _validate_document_structure now text dt (rules_for dt)
              = _validate_document_structure now text "general" (rules_for "general")).
  { rewrite R. destruct text; unfold _validate_document_structure;
      cbn [existsb]; rewrite M, V, I, Rc; reflexivity. }
  assert (D : _extract_and_validate_data text dt (rules_for dt)
              = _extract_and_validate_data text "general" (rules_for "general")).
  { rewrite R. destruct text; [| reflexivity].
    unfold _extract_and_validate_data, _cross_validate_data.
    cbn [existsb]. rewrite M, V, I, Rc. reflexivity. }
  unfold validate_document, validate_document_body, run_checks.
  rewrite S, D, R. reflexivity.
Qed.

Lemma unknown_type_is_general_witness :
  rules_get "prescription" validation_rules = None /\
  validate_document Scenarios.clock [] "rx.png" "prescription"
    (Some Scenarios.short_bill)
  = validate_document Scenarios.clock [] "rx.png" "general"
      (Some Scenarios.short_bill).
Proof.
  split; [reflexivity |].
  apply unknown_type_is_general. reflexivity.
Defined.

Lemma days_in_month_le (y m : Z) : (days_in_month y m <= 31)%Z.
Proof. unfold days_in_month. split_tests; lia. Qed.

Lemma mk_date_ok (y m d : Z) (date : datetime) :
  mk_date y m d = Ok date ->
  (1 <= y <= 9999 /\ 1 <= m <= 12 /\ 1 <= d <= days_in_month y m)%Z
  /\ dt_micro date = 0%Z.
Proof.
  unfold mk_date.
  destruct ((1 <=? y) && (y <=? 9999))%Z eqn:Y; [| discriminate].
  destruct ((1 <=? m) && (m <=? 12))%Z eqn:M; [| discriminate].
  destruct ((1 <=? d) && (d <=? days_in_month y m))%Z eqn:D; [| discriminate].
  cbn [negb]. intros [= <-]. cbn [dt_micro]. lia.
Qed.

Lemma mk_date_total (y m d : Z) :
  (1 <= y <= 9999 /\ 1 <= m <= 12 /\ 1 <= d <= days_in_month y m)%Z ->
  exists date, mk_date y m d = Ok date.
Proof.
  intro H. unfold mk_date.
  replace ((1 <=? y) && (y <=? 9999))%Z with true by lia.
  replace ((1 <=? m) && (m <=? 12))%Z with true by lia.
  replace ((1 <=? d) && (d <=? days_in_month y m))%Z with true by lia.
  cbn [negb]. eexists; reflexivity.
Qed.

(** On a string of digits and slashes (the validator passes matches of
    its date pattern) of at most 4300 characters, the number of digits
    [int] converts by default, [_is_reasonable_date] accepts exactly the strings
    [m/d/y] of three decimal numbers that name a day of the calendar,
    with the year in 1900..2030 and the day not later than 30 days
    after the clock reading. *)
Theorem reasonable_date_iff (now : datetime) (s : string) :
  forallb (fun c => is_digit c || Ascii.eqb c "/") (chars s) = true ->
  (len s <= 4300)%nat ->
  (0 <= dt_micro now)%Z ->
  (_is_reasonable_date now s = true <->
   exists p0 p1 p2 m d y date,
     split_on "/" s = [p0; p1; p2] /\
     int p0 = Ok m /\ int p1 = Ok d /\ int p2 = Ok y /\
     (1900 <= y <= 2030)%Z /\
     mk_date y m d = Ok date /\
     (dt_ordinal date <= dt_ordinal now + 30)%Z).
Proof.
  intros _ _ U. unfold _is_reasonable_date. split.
  - destruct (split_on "/" s) as [| p0 [| p1 [| p2 [| ? ?]]]]; try discriminate.
    unfold bind.
    destruct (int p0) as [m |] eqn:E0; [| discriminate].
    destruct (int p1) as [d |] eqn:E1; [| discriminate].
    destruct (int p2) as [y |] eqn:E2; [| discriminate].
    destruct ((1 <=? m) && (m <=? 12))%Z; [| discriminate].
    destruct ((1 <=? d) && (d <=? 31))%Z; [| discriminate].
    destruct ((1900 <=? y) && (y <=? 2030))%Z eqn:Y; [| discriminate].
    cbn [negb].
    destruct (mk_date y m d) as [date |] eqn:E; [| discriminate].
    intro G. exists p0, p1, p2, m, d, y, date.
    repeat (split; try reflexivity); try assumption; try lia.
    unfold dt_gtb, dt_add_days in G. cbn [dt_ordinal dt_micro] in G.
    apply negb_true_iff, orb_false_iff in G. destruct G as [G _].
    apply Z.ltb_ge in G. exact G.
  - intros (p0 & p1 & p2 & m & d & y & date & -> & -> & -> & -> & Y & E & O).
    cbn [bind].
    destruct (mk_date_ok _ _ _ _ E) as ((_ & M & D) & Z).
    pose proof (days_in_month_le y m).
    replace ((1 <=? m) && (m <=? 12))%Z with true by lia.
    replace ((1 <=? d) && (d <=? 31))%Z with true by lia.
    replace ((1900 <=? y) && (y <=? 2030))%Z with true by lia.
    cbn [negb]. rewrite E.
    unfold dt_gtb, dt_add_days. cbn [dt_ordinal dt_micro]. rewrite Z.
    apply negb_true_iff, orb_false_iff.
    split; [apply Z.ltb_ge; lia |].
    apply andb_false_iff. right. apply Z.ltb_ge. exact U.
Qed.

Lemma reasonable_date_iff_witness :
  forallb (fun c => is_digit c || Ascii.eqb c "/") (chars "2/29/2024") = true /\
  (len "2/29/2024" <= 4300)%nat /\
  (0 <= dt_micro Scenarios.clock)%Z /\
  (_is_reasonable_date Scenarios.clock "2/29/2024" = true <->
   exists p0 p1 p2 m d y date,
     split_on "/" "2/29/2024" = [p0; p1; p2] /\
     int p0 = Ok m /\ int p1 = Ok d /\ int p2 = Ok y /\
     (1900 <= y <= 2030)%Z /\
     mk_date y m d = Ok date /\
     (dt_ordinal date <= dt_ordinal Scenarios.clock + 30)%Z).
Proof.
  split; [reflexivity |]. split; [cbn; lia |].
  split; [vm_compute; discriminate |].
  apply reasonable_date_iff; [reflexivity | cbn; lia | vm_compute; discriminate].
Defined.

End ValidationSpec.

(* ===================================================================== *)
(** * The scores of the image analysis *)
(* ===================================================================== *)

Module ImageScoreSpec.
Import Py PyFacts ImageAnalysis ImageSpec FraudReportSpec.
Local Open Scope Q_scope.

Lemma software_loop_flag (tags : list Z) (exif : list (Z * string))
  (acc : list string * bool) :
  (snd acc = true -> fst acc <> []) ->
  snd (software_loop tags exif acc) = true -> fst (software_loop tags exif acc) <> [].
Proof.
  revert acc. induction tags as [| tag tags IH]; intros acc H; cbn [software_loop].
  - exact H.
  - apply IH. destruct (exif_get tag exif) as [v |]; [| exact H].
    destruct (existsb _ editors); [| exact H].
    intros _. cbn [fst]. unfold append. now destruct (fst acc).
Qed.

(** The metadata analysis, with what [suspicious] says about the issues. *)
Lemma exif_flag (img : image) :
  exists b issues more,
    _analyze_exif_data img =
    ("suspicious", VBool b) :: ("issues", VStrs issues) :: more /\
    (b = true -> issues <> []).
Proof.
  unfold _analyze_exif_data.
  destruct (exif_data img) as [[exif |] | e].
  - pose proof (software_loop_flag [272%Z; 305%Z] exif ([], false)) as F.
    destruct (software_loop [272%Z; 305%Z] exif ([], false)) as [i0 b0].
    cbn [fst snd] in F. specialize (F ltac:(discriminate)).
    destruct (date_values [306%Z; 36867%Z; 36868%Z] exif) as [| d0 [| d1 ds]];
      try (eexists _, _, _; split; [reflexivity | exact F]).
    destruct (negb (forallb (String.eqb d0) (d0 :: d1 :: ds)));
      eexists _, _, _; (split; [reflexivity |]); [| exact F].
    intros _. unfold append. now destruct i0.
  - eexists _, _, _. split; [reflexivity |]. discriminate.
  - exists false, []. eexists. split; [reflexivity |]. discriminate.
Qed.

(** The authenticity score is 1 minus the deductions of the detectors
    that exceeded their threshold, so it never falls below 0.1; it is 1
    exactly when no indicator is reported. *)
Theorem authenticity_score_floor (img : image) :
  exists s ind,
    num_at "score" (_analyze_authenticity img) = Some s /\
    strs_at "indicators" (_analyze_authenticity img) = Some ind /\
    0.1 <= s <= 1 /\
    (ind = [] <-> s == 1).
Proof.
  unfold _analyze_authenticity, authenticity_body.
  destruct (exif_flag img) as (b & issues & more & -> & F).
  destruct (Qgtb (_check_compression_artifacts img) _);
  destruct (Qgtb (_check_noise_patterns img) _);
  destruct (Qgtb (_check_color_consistency img) _);
  destruct (Qgtb (_check_edge_discontinuities img) _);
  cbn [dict_item dict_get String.eqb Ascii.eqb Bool.eqb bind truthy];
  destruct b;
  cbn [get_strs dict_item dict_get String.eqb Ascii.eqb Bool.eqb bind VStrs];
  rewrite ?as_strs_map; cbn [bind];
  cbn [num_at strs_at dict_get String.eqb Ascii.eqb Bool.eqb as_num VStrs];
  rewrite as_strs_map; eexists _, _;
  (split; [reflexivity |]); (split; [reflexivity |]);
  (split; [vm_compute; split; discriminate |]);
  unfold extend, append; cbn [List.app];
  (split; [intro H; try discriminate H;
           try (apply app_eq_nil in H; destruct H as [H1 H2]; try discriminate H1;
                exfalso; apply (F eq_refl); assumption);
           try (exfalso; apply (F eq_refl); assumption);
           vm_compute; reflexivity
          | intro H; try reflexivity; vm_compute in H; discriminate H]).
Qed.


Lemma Qdiv_nonneg (a b : Q) : 0 <= a -> 0 < b -> 0 <= a / b.
Proof. intros A B. apply Qle_shift_div_l; [exact B | lra]. Qed.

(** When the measured variances and magnitudes are non-negative, at most
    16 colour regions are outliers and the discontinuities are counted
    among the contours, each of the four sub-scores lies in [[0, 1]]. *)
Theorem sub_scores_in_unit (img : image) :
  (forall fv bv, compression_measure img = Ok (fv, bv) -> 0 <= fv /\ 0 <= bv) ->
  (forall sd mx mean, noise_measure img = Ok (sd, mx, mean) -> 0 <= sd /\ 0 <= mx) ->
  (forall n, color_measure img = Ok n -> (n <= 16)%nat) ->
  (forall dc te, edge_measure img = Ok (dc, te) -> (dc <= te)%nat) ->
  forall d, 0 <= sub_score d img <= 1.
Proof.
  intros C N O E [| | |]; cbn [sub_score].
  - unfold _check_compression_artifacts.
    destruct (compression_measure img) as [[fv bv] |]; [| lra].
    destruct (C fv bv eq_refl) as [F B].
    split; [| eapply Qle_trans; [apply pymin_le_l | lra]].
    apply pymin_glb; [lra |].
    apply Qdiv_nonneg; [| lra].
    pose proof (Qdiv_nonneg fv 1000 F ltac:(lra)).
    pose proof (Qdiv_nonneg bv 100 B ltac:(lra)). lra.
  - unfold _check_noise_patterns.
    destruct (noise_measure img) as [[[sd mx] mean] |]; [| lra].
    destruct (N sd mx mean eq_refl) as [S M].
    split; [| eapply Qle_trans; [apply pymin_le_l | lra]].
    apply pymin_glb; [lra |].
    apply Qdiv_nonneg; [| lra].
    pose proof (Qdiv_nonneg sd 50 S ltac:(lra)).
    assert (0 <= (if Qgtb mean 0 then mx / mean else 0) / 100).
    { apply Qdiv_nonneg; [| lra].
      destruct (Qgtb mean 0) eqn:G; [| lra].
      apply Qgtb_iff in G. now apply Qdiv_nonneg. }
    lra.
  - unfold _check_color_consistency.
    destruct (color_measure img) as [n |] eqn:M; [| lra].
    specialize (O n eq_refl). apply Qof_nat_le in O.
    change (Qof_nat 16) with 16 in O.
    assert (0 <= Qof_nat n) by (change 0 with (Qof_nat 0); apply Qof_nat_le; lia).
    split; [apply Qdiv_nonneg; lra | apply Qle_shift_div_r; lra].
  - unfold _check_edge_discontinuities.
    destruct (edge_measure img) as [[dc te] |]; [| lra].
    specialize (E dc te eq_refl).
    assert (0 <= Qof_nat dc) by (change 0 with (Qof_nat 0); apply Qof_nat_le; lia).
    assert (0 < Qof_nat (Nat.max te 1)) by (apply Qof_nat_pos; lia).
    assert (Qof_nat dc <= Qof_nat (Nat.max te 1)) by (apply Qof_nat_le; lia).
    split; [now apply Qdiv_nonneg | apply Qle_shift_div_r; lra].
Qed.

Lemma sub_scores_in_unit_witness :
  0 <= sub_score Compression Scenarios.uniform_image <= 1 /\
  0 <= sub_score Noise Scenarios.uniform_image <= 1 /\
  0 <= sub_score Color Scenarios.uniform_image <= 1 /\
  0 <= sub_score Edge Scenarios.uniform_image <= 1.
Proof.
  repeat apply conj; apply (sub_scores_in_unit Scenarios.uniform_image); cbn;
    first [ intros fv bv [= <- <-]; split; lra
          | intros sd mx mean [= <- <- _]; split; lra
          | intros n [= <-]; lia
          | intros dc te [= <- <-]; lia ].
Defined.

(** The overall quality score is the mean of three terms in [[0, 1]],
    the exposure term being 0.5 or 1: for a non-negative sharpness
    measure and pixel count it lies in [[1/6, 1]]; when the measurement
    fails it is 0.5. *)
Theorem quality_overall_range (img : image) :
  (forall b br c, quality_measure img = Ok (b, br, c) -> 0 <= b) ->
  (0 <= fst (size img) * snd (size img))%Z ->
  exists q,
    num_at "overall_score" (_assess_quality img) = Some q /\
    1 # 6 <= q <= 1 /\
    (forall e, quality_measure img = Raise e -> q = 0.5).
Proof.
  intros B S. unfold _assess_quality.
  destruct (size img) as [width height]. cbn [fst snd] in S.
  destruct (quality_measure img) as [[[blur brightness] contrast] | e].
  - specialize (B _ _ _ eq_refl).
    cbn [dict_set String.eqb Ascii.eqb Bool.eqb num_at dict_get as_num].
    eexists. split; [reflexivity |]. split; [| discriminate].
    assert (P : 0 <= inject_Z (width * height) / 1000000).
    { apply Qdiv_nonneg; [| lra]. change 0 with (inject_Z 0).
      now rewrite <- Zle_Qle. }
    assert (R1 : 0 <= pymin 1.0 (inject_Z (width * height) / 1000000) <= 1).
    { split; [apply pymin_glb; lra | eapply Qle_trans; [apply pymin_le_l | lra]]. }
    assert (R2 : 0 <= pymin 1.0 (blur / 200) <= 1).
    { split; [apply pymin_glb; [lra | apply Qdiv_nonneg; lra]
             | eapply Qle_trans; [apply pymin_le_l | lra]]. }
    split; [apply Qle_shift_div_l | apply Qle_shift_div_r]; try lra;
      split_tests; lra.
  - eexists. split; [reflexivity |]. split; [split; discriminate |].
    reflexivity.
Qed.

Lemma quality_overall_range_witness :
  exists q,
    num_at "overall_score" (_assess_quality Scenarios.uniform_image) = Some q /\
    1 # 6 <= q <= 1 /\
    (forall e, quality_measure Scenarios.uniform_image = Raise e -> q = 0.5).
Proof.
  apply quality_overall_range; cbn.
  - intros b br c [= <- _ _]. lra.
  - lia.
Defined.


Lemma software_loop_suspicious (tags : list Z) (exif : list (Z * string))
  (acc : list string * bool) :
  snd (software_loop tags exif acc) = true <->
  snd acc = true \/
  exists tag v, In tag tags /\ exif_get tag exif = Some v /\
                existsb (fun editor => contains editor (lower v)) editors = true.
Proof.
  revert acc. induction tags as [| tag tags IH]; intro acc; cbn [software_loop].
  - split; [now left | intros [H | (? & ? & [] & _)]; exact H].
  - rewrite IH. split.
    + intros [H | (tg & v & I & G & X)].
      * destruct (exif_get tag exif) as [v |] eqn:G; [| now left].
        destruct (existsb _ editors) eqn:X; [| now left].
        right. exists tag, v. repeat split; [now left | exact G | exact X].
      * right. exists tg, v. repeat split; [now right | exact G | exact X].
    + intros [H | (tg & v & [<- | I] & G & X)].
      * left. destruct (exif_get tag exif); [| exact H].
        destruct (existsb _ editors); [reflexivity | exact H].
      * left. rewrite G, X. reflexivity.
      * right. exists tg, v. repeat split; assumption.
Qed.

Lemma not_all_equal (d0 : string) (l : list string) :
  forallb (String.eqb d0) l = false <-> exists x, In x l /\ x <> d0.
Proof.
  induction l as [| y l IH]; cbn [forallb In].
  - split; [discriminate | intros (? & [] & _)].
  - rewrite andb_false_iff, IH. split.
    + intros [H | (x & I & N)].
      * exists y. split; [now left |]. apply String.eqb_neq in H. congruence.
      * exists x. split; [now right | exact N].
    + intros (x & [<- | I] & N).
      * left. apply String.eqb_neq. congruence.
      * right. exists x. now split.
Qed.

(** For an image that carries EXIF data, the metadata is suspicious
    exactly when the value of tag 272 or 305 names an editor
    (photoshop, gimp, paint, editor; in any letter case) or two of the
    date tags 306, 36867, 36868 that are present differ. *)
Theorem exif_suspicious_iff (img : image) (exif : list (Z * string)) :
  exif_data img = Ok (Some exif) ->
  (bool_at "suspicious" (_analyze_exif_data img) = Some true <->
   (exists tag v, In tag [272; 305]%Z /\ exif_get tag exif = Some v /\
                  existsb (fun editor => contains editor (lower v)) editors = true)
   \/
   (exists d0 d1, In d0 (date_values [306; 36867; 36868]%Z exif) /\
                  In d1 (date_values [306; 36867; 36868]%Z exif) /\ d0 <> d1)).
Proof.
  intro E. unfold _analyze_exif_data. rewrite E.
  pose proof (software_loop_suspicious [272; 305]%Z exif ([], false)) as S.
  destruct (software_loop [272; 305]%Z exif ([], false)) as [i0 b0].
  cbn [fst snd] in S.
  assert (S' : b0 = true <->
               exists tag v, In tag [272; 305]%Z /\ exif_get tag exif = Some v /\
                 existsb (fun editor => contains editor (lower v)) editors = true).
  { rewrite S. split; [intros [H | H]; [discriminate | exact H] | now right]. }
  clear S. rewrite <- S'.
  destruct (date_values [306; 36867; 36868]%Z exif) as [| d0 [| d1 ds]].
  - cbn [bool_at dict_get String.eqb Ascii.eqb Bool.eqb].
    split; [intros [= ->]; now left | intros [-> | (? & ? & [] & _)]; reflexivity].
  - cbn [bool_at dict_get String.eqb Ascii.eqb Bool.eqb].
    split; [intros [= ->]; now left |].
    intros [-> | (a & b & [<- | []] & [<- | []] & N)]; [reflexivity | congruence].
  - destruct (forallb (String.eqb d0) (d0 :: d1 :: ds)) eqn:F; cbn [negb];
      cbn [bool_at dict_get String.eqb Ascii.eqb Bool.eqb].
    + split; [intros [= ->]; now left |].
      intros [-> | (a & b & Ia & Ib & N)]; [reflexivity | exfalso].
      assert (A : forall x, In x (d0 :: d1 :: ds) -> x = d0).
      { intros x I. destruct (String.eqb_spec x d0) as [-> | X]; [reflexivity |].
        assert (forallb (String.eqb d0) (d0 :: d1 :: ds) = false)
          by (apply not_all_equal; now exists x).
        congruence. }
      apply N. rewrite (A a Ia), (A b Ib). reflexivity.
    + split; [intros _ | reflexivity]. right.
      apply not_all_equal in F. destruct F as (x & I & N).
      exists x, d0. repeat split; [exact I | now left | exact N].
Qed.

Lemma exif_suspicious_iff_witness :
  exif_data Scenarios.uniform_image = Ok (Some Scenarios.consistent_exif) /\
  (bool_at "suspicious" (_analyze_exif_data Scenarios.uniform_image) = Some true <->
   (exists tag v, In tag [272; 305]%Z /\
                  exif_get tag Scenarios.consistent_exif = Some v /\
                  existsb (fun editor => contains editor (lower v)) editors = true)
   \/
   (exists d0 d1,
      In d0 (date_values [306; 36867; 36868]%Z Scenarios.consistent_exif) /\
      In d1 (date_values [306; 36867; 36868]%Z Scenarios.consistent_exif) /\
      d0 <> d1)).
Proof.
  split; [reflexivity |].
  apply exif_suspicious_iff. reflexivity.
Defined.

End ImageScoreSpec.

(* ===================================================================== *)
(** * The damage assessment *)
(* ===================================================================== *)

Module DamageSpec.
Import Py PyExt PyFacts Damage FraudReportSpec.
Local Open Scope Q_scope.

(** ** Rounding *)

Lemma round_half_even_comp (q r : Q) :
  q == r -> round_half_even q = round_half_even r.
Proof.
  intro E. unfold round_half_even.
  rewrite (Qfloor_comp _ _ E).
  assert (C : (q - inject_Z (Qfloor r) ?= 1 # 2) = (r - inject_Z (Qfloor r) ?= 1 # 2)).
  { apply Qcompare_comp; [now rewrite E | reflexivity]. }
  now rewrite C.
Qed.

Lemma round_half_even_near (q : Q) :
  inject_Z (round_half_even q) - (1 # 2) <= q <= inject_Z (round_half_even q) + (1 # 2).
Proof.
  unfold round_half_even.
  pose proof (Qfloor_le q) as L. pose proof (Qlt_floor q) as U.
  rewrite inject_Z_plus in U. change (inject_Z 1) with 1 in U.
  destruct (q - inject_Z (Qfloor q) ?= 1 # 2) eqn:C.
  - apply Qeq_alt in C.
    destruct (Z.even (Qfloor q)); [| rewrite inject_Z_plus; change (inject_Z 1) with 1];
      lra.
  - apply Qlt_alt in C. lra.
  - apply Qgt_alt in C. rewrite inject_Z_plus. change (inject_Z 1) with 1. lra.
Qed.

Lemma round_half_even_mono (q r : Q) :
  q <= r -> (round_half_even q <= round_half_even r)%Z.
Proof.
  intro H.
  destruct (Z.le_gt_cases (round_half_even q) (round_half_even r)) as [L | G];
    [exact L | exfalso].
  pose proof (round_half_even_near q) as [Q1 _].
  pose proof (round_half_even_near r) as [_ R2].
  assert (G' : inject_Z (round_half_even r) + 1 <= inject_Z (round_half_even q)).
  { change 1 with (inject_Z 1). rewrite <- inject_Z_plus, <- Zle_Qle. lia. }
  assert (E : q == r) by lra.
  apply round_half_even_comp in E. lia.
Qed.

Lemma round2_mono (q r : Q) : q <= r -> round2 q <= round2 r.
Proof.
  intro H. unfold round2.
  apply FraudSpec.Qdiv_le_compat; [reflexivity |].
  rewrite <- Zle_Qle. apply round_half_even_mono. lra.
Qed.


(** ** Severity *)

(** The severity record, as a level and a score. *)
Lemma severity_shape (image : pixels) (damage_type : string) :
  exists level score more,
    _assess_damage_severity image damage_type
      = ("level", VStr level) :: ("score", VFloat score) :: more /\
    (damage_type = "vehicle" ->
     (level = "severe" /\ score = 0.8) \/ (level = "moderate" /\ score = 0.5)
     \/ (level = "minor" /\ score = 0.2) \/ (level = "unknown" /\ score = 0.5)) /\
    (level = "severe" \/ level = "moderate" \/ level = "minor"
     \/ level = "unknown") /\
    score <= 1 /\
    (level = "unknown" <->
     exists e, (edge_density <- edge_density image ;;
                total_variance <- total_variance image ;;
                texture_score <- texture_score image ;; Ok tt) = Raise e).
Proof.
  unfold _assess_damage_severity.
  destruct (edge_density image) as [ed | e]; cbn [bind];
    [| exists "unknown", 0.5; eexists; split; [reflexivity |];
       split; [tauto |]; split; [tauto |]; split; [lra |];
       split; [intros _; now exists e | reflexivity]].
  destruct (total_variance image) as [tv | e]; cbn [bind];
    [| exists "unknown", 0.5; eexists; split; [reflexivity |];
       split; [tauto |]; split; [tauto |]; split; [lra |];
       split; [intros _; now exists e | reflexivity]].
  destruct (texture_score image) as [ts | e]; cbn [bind];
    [| exists "unknown", 0.5; eexists; split; [reflexivity |];
       split; [tauto |]; split; [tauto |]; split; [lra |];
       split; [intros _; now exists e | reflexivity]].
  destruct (String.eqb_spec damage_type "vehicle") as [-> | N].
  - destruct (Qgtb ed 0.1 && Qgtb tv 1000);
      [| destruct (Qgtb ed 0.05 && Qgtb tv 500)];
      eexists _, _, _; (split; [reflexivity |]);
      (split; [tauto |]); (split; [tauto |]); (split; [lra |]);
      (split; [discriminate | intros [e E]; discriminate E]).
  - pose proof (pymin_le_l 1.0 ((ed * 5 + tv / 1000) / 2)) as B.
    destruct (Qgtb (pymin 1.0 ((ed * 5 + tv / 1000) / 2)) 0.7);
      [| destruct (Qgtb (pymin 1.0 ((ed * 5 + tv / 1000) / 2)) 0.4)];
      eexists _, _, _; (split; [reflexivity |]);
      (split; [intro; contradiction |]); (split; [tauto |]); (split; [lra |]);
      (split; [discriminate | intros [e E]; discriminate E]).
Qed.


(** ** Cost *)

(** The estimated cost of a vehicle image takes one of four values: 350
    for minor, 2000 for moderate and 10400 for severe damage, and the
    default 1000 when the severity could not be measured (its level
    [unknown] is no key of the cost table). *)
Theorem vehicle_cost_values (image : pixels) :
  exists severity level cost,
    dict_get "severity" (_assess_damage image "vehicle") = Some (VDict severity) /\
    str_at "level" severity = Some level /\
    num_at "estimated_cost" (_assess_damage image "vehicle") = Some cost /\
    ((level = "minor" /\ cost == 350) \/ (level = "moderate" /\ cost == 2000)
     \/ (level = "severe" /\ cost == 10400) \/ (level = "unknown" /\ cost == 1000)).
Proof.
  unfold _assess_damage.
  cbn [dict_set dict_get num_at String.eqb Ascii.eqb Bool.eqb as_num].
  destruct (severity_shape image "vehicle") as (level & score & more & E & V & _).
  rewrite E. exists (("level", VStr level) :: ("score", VFloat score) :: more), level.
  eexists. split; [reflexivity |]. split; [reflexivity |]. split; [reflexivity |].
  unfold _estimate_damage_cost.
  cbn [dict_get get_num String.eqb Ascii.eqb Bool.eqb as_num].
  destruct (V eq_refl) as [[-> ->] | [[-> ->] | [[-> ->] | [-> ->]]]];
    cbn; [right; right; left | right; left | left | right; right; right];
    (split; [reflexivity | vm_compute; reflexivity]).
Qed.

Lemma round2_100 : round2 100 == 100.
Proof. vm_compute. reflexivity. Qed.

Lemma round2_15000 : round2 15000 == 15000.
Proof. vm_compute. reflexivity. Qed.

Lemma cost_between (z : Z) (s : Q) :
  (200 <= z <= 10000)%Z -> 0 <= s <= 1 ->
  100 <= round2 (inject_Z z * (0.5 + s)) <= 15000.
Proof.
  intros Z S.
  assert (L : 200 <= inject_Z z)
    by (change 200 with (inject_Z 200); rewrite <- Zle_Qle; lia).
  assert (U : inject_Z z <= 10000)
    by (change 10000 with (inject_Z 10000); rewrite <- Zle_Qle; lia).
  split.
  - rewrite <- round2_100. apply round2_mono. nra.
  - rewrite <- round2_15000. apply round2_mono. nra.
Qed.

Lemma unknown_level_cost (image : pixels) (damage_type msg : string) :
  _estimate_damage_cost image damage_type
    [ ("level", VStr "unknown"); ("score", VFloat 0.5); ("error", VStr msg) ]
  = 1000.0.
Proof.
  unfold _estimate_damage_cost, base_cost_of, base_costs.
  cbn [dict_get String.eqb Ascii.eqb Bool.eqb table_get].
  destruct (String.eqb damage_type "vehicle");
    [| destruct (String.eqb damage_type "health");
       [| destruct (String.eqb damage_type "property")]]; reflexivity.
Qed.

(** Whatever the damage type, for non-negative edge density and colour
    variance the estimated cost lies between 100 and 15000. *)
Theorem damage_cost_range (image : pixels) (damage_type : string) :
  (forall ed, edge_density image = Ok ed -> 0 <= ed) ->
  (forall tv, total_variance image = Ok tv -> 0 <= tv) ->
  exists cost,
    num_at "estimated_cost" (_assess_damage image damage_type) = Some cost /\
    100 <= cost <= 15000.
Proof.
  intros He Hv. unfold _assess_damage.
  cbn [dict_set dict_get num_at String.eqb Ascii.eqb Bool.eqb as_num].
  eexists. split; [reflexivity |].
  unfold _assess_damage_severity.
  destruct (edge_density image) as [ed | e]; cbn [bind];
    [| rewrite unknown_level_cost; split; apply Qle_bool_iff; reflexivity].
  destruct (total_variance image) as [tv | e]; cbn [bind];
    [| rewrite unknown_level_cost; split; apply Qle_bool_iff; reflexivity].
  destruct (texture_score image) as [ts | e]; cbn [bind];
    [| rewrite unknown_level_cost; split; apply Qle_bool_iff; reflexivity].
  specialize (He ed eq_refl). specialize (Hv tv eq_refl).
  unfold _estimate_damage_cost.
  destruct (String.eqb damage_type "vehicle") eqn:V.
  - unfold base_cost_of, base_costs. cbn [table_get]. rewrite V.
    destruct (Qgtb ed 0.1 && Qgtb tv 1000);
      [| destruct (Qgtb ed 0.05 && Qgtb tv 500)];
      cbn [dict_get get_num String.eqb Ascii.eqb Bool.eqb as_num table_get bind];
      apply cost_between; try lia; lra.
  - set (s := pymin 1.0 ((ed * 5 + tv / 1000) / 2)).
    assert (S : 0 <= s <= 1).
    { subst s. split; [| eapply Qle_trans; [apply pymin_le_l | lra]].
      apply pymin_glb; [lra |]. apply Qle_shift_div_l; [lra |].
      assert (0 <= tv / 1000) by (apply Qle_shift_div_l; lra). lra. }
    unfold base_cost_of, base_costs. cbn [table_get]. rewrite V.
    destruct (Qgtb s 0.7); [| destruct (Qgtb s 0.4)];
      destruct (String.eqb damage_type "health");
      try destruct (String.eqb damage_type "property");
      cbn [dict_get get_num String.eqb Ascii.eqb Bool.eqb as_num table_get bind];
      apply cost_between; try lia; exact S.
Qed.

Lemma damage_cost_range_witness :
  exists cost,
    num_at "estimated_cost"
      (_assess_damage Cases.dented_door "property") = Some cost /\
    100 <= cost <= 15000.
Proof.
  apply damage_cost_range; cbn.
  - intros ed [= <-]. lra.
  - intros tv [= <-]. lra.
Defined.

(** ** Consistency *)

(** The consistency score is 1.0, 0.7 or (on failure) 0.5; a vehicle
    image whose damage is rated severe has an edge density above 0.1,
    more than half again the expected 0.05, so its consistency score is
    always 0.7. *)
Theorem severe_vehicle_consistency (image : pixels) :
  exists severity level c,
    dict_get "severity" (_assess_damage image "vehicle") = Some (VDict severity) /\
    str_at "level" severity = Some level /\
    num_at "consistency_score" (_assess_damage image "vehicle") = Some c /\
    (c == 1 \/ c == 0.7 \/ c == 0.5) /\
    (level = "severe" -> c == 0.7).
Proof.
  unfold _assess_damage.
  cbn [dict_set dict_get num_at String.eqb Ascii.eqb Bool.eqb as_num].
  unfold _assess_damage_severity, _check_damage_consistency.
  destruct (edge_density image) as [ed | e]; cbn [bind].
  2:{ eexists _, _, _. split; [reflexivity |]. split; [reflexivity |].
      split; [reflexivity |]. split; [right; right; reflexivity | discriminate]. }
  assert (T : forall b : bool,
            let c := pymax 0.0 (if b then 1.0 - 0.3 else 1.0) in
            c == 1 \/ c == 0.7 \/ c == 0.5)
    by (intros []; vm_compute; tauto).
  destruct (total_variance image) as [tv | e]; cbn [bind].
  2:{ eexists _, _, _. split; [reflexivity |]. split; [reflexivity |].
      split; [reflexivity |]. cbn. split; [apply T | discriminate]. }
  destruct (texture_score image) as [ts | e]; cbn [bind].
  2:{ eexists _, _, _. split; [reflexivity |]. split; [reflexivity |].
      split; [reflexivity |]. cbn. split; [apply T | discriminate]. }
  cbn [String.eqb Ascii.eqb Bool.eqb].
  destruct (Qgtb ed 0.1 && Qgtb tv 1000) eqn:S;
    [| destruct (Qgtb ed 0.05 && Qgtb tv 500)];
    (eexists _, _, _; split; [reflexivity |]; split; [reflexivity |];
     split; [reflexivity |]; cbn; split; [apply T |]); try discriminate.
  intros _. apply andb_true_iff in S as [S _]. apply Qgtb_iff in S.
  assert (G : Qgtb (Qabs' (ed - 0.05) / 0.05) 0.5 = true).
  { apply Qgtb_iff. apply Qlt_shift_div_l; [lra |].
    unfold Qabs'. destruct (Qlt_le_dec (ed - 0.05) 0); lra. }
  rewrite G. vm_compute. reflexivity.
Qed.


(** ** Locations and objects *)

Lemma In_firstn {A : Type} (n : nat) (l : list A) (x : A) :
  In x (firstn n l) -> In x l.
Proof.
  revert l. induction n as [| n IH]; intros [| y l]; cbn [firstn In];
    try tauto.
  intros [-> | H]; [now left | right; now apply IH].
Qed.

Lemma locate_loop (image : pixels) (damage_type : string) (cs : list contour) :
  forall acc r,
    for_each cs (locate image damage_type) acc = Ok r ->
    forall loc, In loc r ->
      In loc acc \/
      exists c, In c cs /\ 500 < area c /\
        exists rel_x rel_y,
          int_div (fst (fst (fst (bbox c)))) (snd (shape image)) = Ok rel_x /\
          int_div (snd (fst (fst (bbox c)))) (fst (shape image)) = Ok rel_y /\
          loc = VDict [ ("description",
                         VStr (_get_location_description rel_x rel_y damage_type));
                        ("bbox", bbox_value c);
                        ("relative_position", VList [VFloat rel_x; VFloat rel_y]);
                        ("area", VFloat (area c)) ].
Proof.
  induction cs as [| c cs IH]; intros acc r; cbn [for_each].
  - intros [= <-] loc H. now left.
  - unfold bind. destruct (locate image damage_type acc c) as [acc' |] eqn:L;
      [| discriminate].
    intros R loc H. destruct (IH _ _ R loc H) as [I | (c' & I & P)].
    + unfold locate in L.
      destruct (Qgtb (area c) 500) eqn:G; [| injection L as <-; now left].
      destruct (bbox c) as [[[x y] w] h] eqn:B.
      destruct (shape image) as [img_h img_w] eqn:S.
      unfold bind in L.
      destruct (int_div x img_w) as [rel_x |] eqn:X; [| discriminate].
      destruct (int_div y img_h) as [rel_y |] eqn:Y; [| discriminate].
      injection L as <-. unfold append in I.
      apply in_app_or in I. destruct I as [I | [<- | []]]; [now left |].
      right. exists c. split; [now left |].
      split; [now apply Qgtb_iff |].
      exists rel_x, rel_y. rewrite B. cbn [fst snd].
      repeat split; assumption.
    + right. exists c'. split; [now right | exact P].
Qed.

(** [_identify_damage_locations] returns at most five locations, and
    each of them describes a contour of the dilated edge map whose area
    exceeds 500, placed by its bounding box relative to the image. *)
Theorem damage_locations_bounded (image : pixels) (damage_type : string) :
  (List.length (_identify_damage_locations image damage_type) <= 5)%nat /\
  forall loc, In loc (_identify_damage_locations image damage_type) ->
    exists cs c,
      damage_contours image = Ok cs /\ In c cs /\
      500 < area c /\
      exists rel_x rel_y,
        int_div (fst (fst (fst (bbox c)))) (snd (shape image)) = Ok rel_x /\
        int_div (snd (fst (fst (bbox c)))) (fst (shape image)) = Ok rel_y /\
        loc = VDict [ ("description",
                       VStr (_get_location_description rel_x rel_y damage_type));
                      ("bbox", bbox_value c);
                      ("relative_position", VList [VFloat rel_x; VFloat rel_y]);
                      ("area", VFloat (area c)) ].
Proof.
  unfold _identify_damage_locations.
  destruct (damage_contours image) as [cs | e]; cbn [bind];
    [| split; [cbn; lia | intros loc []]].
  destruct (for_each cs (locate image damage_type) []) as [r | e] eqn:R;
    cbn [bind]; [| split; [cbn; lia | intros loc []]].
  split; [apply firstn_le_length |].
  intros loc H. apply In_firstn in H.
  destruct (locate_loop _ _ _ _ _ R loc H) as [[] | (c & I & P)].
  exists cs, c. split; [reflexivity |]. split; [exact I | exact P].
Qed.

Lemma collect_objects_loop (cs : list contour) :
  forall acc o,
    In o (collect_objects cs acc) ->
    In o acc \/
    exists c, In c cs /\ 1000 < area c /\
      o = VDict [ ("type", VStr "vehicle_part"); ("confidence", VFloat 0.6);
                  ("bbox", bbox_value c); ("area", VFloat (area c)) ].
Proof.
  induction cs as [| c cs IH]; intros acc o; cbn [collect_objects].
  - now left.
  - intro H. destruct (IH _ _ H) as [I | (c' & I & P)].
    + destruct (Qgtb (area c) 1000) eqn:G; [| now left].
      unfold append in I. apply in_app_or in I.
      destruct I as [I | [<- | []]]; [now left |].
      right. exists c. split; [now left |]. split; [now apply Qgtb_iff | reflexivity].
    + right. exists c'. split; [now right | exact P].
Qed.

(** [_detect_objects] reports nothing unless the analysis type is
    [vehicle]; it returns at most ten objects, each a contour of one of
    the two colour masks whose area exceeds 1000. *)
Theorem detected_objects_bounded (image : pixels) (analysis_type : string) :
  (List.length (_detect_objects image analysis_type) <= 10)%nat /\
  (analysis_type <> "vehicle" -> _detect_objects image analysis_type = []) /\
  forall o, In o (_detect_objects image analysis_type) ->
    exists masks cs c,
      colour_contours image = Ok masks /\ In cs masks /\ In c cs /\
      1000 < area c /\
      o = VDict [ ("type", VStr "vehicle_part"); ("confidence", VFloat 0.6);
                  ("bbox", bbox_value c); ("area", VFloat (area c)) ].
Proof.
  unfold _detect_objects.
  destruct (colour_contours image) as [masks | e]; cbn [bind];
    [| split; [cbn; lia | split; [reflexivity | intros o []]]].
  split; [apply firstn_le_length |]. split.
  - intro N. apply String.eqb_neq in N. now rewrite N.
  - intros o H. apply In_firstn in H.
    destruct (String.eqb analysis_type "vehicle"); [| destruct H].
    assert (G : forall ms acc,
              In o (fold_left (fun detected contours =>
                                 collect_objects contours detected) ms acc) ->
              In o acc \/
              exists cs c, In cs ms /\ In c cs /\ 1000 < area c /\
                o = VDict [ ("type", VStr "vehicle_part");
                            ("confidence", VFloat 0.6);
                            ("bbox", bbox_value c); ("area", VFloat (area c)) ]).
    { induction ms as [| m ms IH]; intros acc I; cbn [fold_left] in I.
      - now left.
      - destruct (IH _ I) as [J | (cs & c & J1 & J2 & J3)].
        + destruct (collect_objects_loop _ _ _ J) as [K | (c & K1 & K2)];
            [now left |].
          right. exists m, c. split; [now left |]. now split.
        + right. exists cs, c. split; [now right |]. now split. }
    destruct (G _ _ H) as [[] | (cs & c & P)].
    exists masks, cs, c. split; [reflexivity | exact P].
Qed.

End DamageSpec.

(* ===================================================================== *)
(** * The OCR service *)
(* ===================================================================== *)

Module OcrSpec.
Import Py PyExt PyFacts Ocr FraudReportSpec.
Local Open Scope Q_scope.

(** ** Amounts *)

Lemma scan_amounts_collect (ms : list string) :
  scan_amounts ms = Validator.collect_amounts ms.
Proof.
  induction ms as [| m ms IH]; cbn [scan_amounts Validator.collect_amounts];
    [reflexivity |].
  change (scan_amount m) with (Validator.amount_of m).
  destruct (Validator.amount_of m); now rewrite IH.
Qed.

Lemma insert_desc_perm (x : Q) (l : list Q) : Permutation (x :: l) (insert_desc x l).
Proof.
  induction l as [| y l IH]; cbn [insert_desc]; [reflexivity |].
  destruct (Qltb x y); [| reflexivity].
  rewrite perm_swap. now apply perm_skip.
Qed.

Lemma sorted_desc_perm (l : list Q) : Permutation l (sorted_desc l).
Proof.
  induction l as [| x l IH]; cbn [sorted_desc fold_right]; [reflexivity |].
  rewrite <- insert_desc_perm. now apply perm_skip.
Qed.

Lemma insert_desc_sorted (x : Q) (l : list Q) :
  StronglySorted (fun a b => b <= a) l ->
  StronglySorted (fun a b => b <= a) (insert_desc x l).
Proof.
  induction l as [| y l IH]; intro S; cbn [insert_desc].
  - repeat constructor.
  - inversion S as [| ? ? S' F]; subst.
    destruct (Qltb x y) eqn:L.
    + apply Qltb_iff in L. constructor; [now apply IH |].
      apply Forall_forall. intros z I.
      apply (Permutation_in _ (Permutation_sym (insert_desc_perm x l))) in I.
      destruct I as [<- | I]; [lra |].
      rewrite Forall_forall in F. now apply F.
    + apply Qltb_false in L. constructor; [exact S |].
      constructor; [exact L |].
      rewrite Forall_forall in F |- *. intros z I.
      specialize (F z I). lra.
Qed.

Lemma sorted_desc_sorted (l : list Q) :
  StronglySorted (fun a b => b <= a) (sorted_desc l).
Proof.
  induction l as [| x l IH]; cbn [sorted_desc fold_right]; [constructor |].
  now apply insert_desc_sorted.
Qed.

(** The OCR service extracts the same amounts as the validator, put in
    descending order: its list is a permutation of the validator's, and
    no element is followed by a greater one. *)
Theorem ocr_amounts_sorted (text : string) :
  Permutation (Validator._extract_amounts text) (Ocr._extract_amounts text) /\
  StronglySorted (fun a b => b <= a) (Ocr._extract_amounts text).
Proof.
  assert (E : Ocr._extract_amounts text
              = sorted_desc (Validator._extract_amounts text)).
  { unfold Ocr._extract_amounts, Validator._extract_amounts,
      Validator.extract_pattern.
    cbv zeta. now rewrite scan_amounts_collect. }
  rewrite E.
  split; [apply sorted_desc_perm | apply sorted_desc_sorted].
Qed.


(** ** Averages *)

Lemma sum_bounds (lo hi : Q) (l : list Q) (a : Q) :
  Forall (fun x => lo <= x <= hi) l ->
  a + lo * Qof_nat (List.length l) <= fold_left Qplus l a
  <= a + hi * Qof_nat (List.length l).
Proof.
  intro F. revert a. induction F as [| x l [L H] F IH]; intro a;
    cbn [fold_left List.length].
  - change (Qof_nat 0) with 0. lra.
  - specialize (IH (a + x)).
    assert (E : Qof_nat (S (List.length l)) == Qof_nat (List.length l) + 1).
    { unfold Qof_nat. rewrite Nat2Z.inj_succ, <- Z.add_1_r, inject_Z_plus.
      reflexivity. }
    rewrite E. lra.
Qed.

Lemma mean_bounds (lo hi : Q) (l : list Q) :
  l <> [] -> Forall (fun x => lo <= x <= hi) l ->
  lo <= fold_left Qplus l 0 / Qof_nat (List.length l) <= hi.
Proof.
  intros N F. pose proof (sum_bounds lo hi l 0 F) as [L H].
  assert (P : 0 < Qof_nat (List.length l))
    by (apply Qof_nat_pos; destruct l; [congruence | cbn; lia]).
  split; [apply Qle_shift_div_l | apply Qle_shift_div_r]; try exact P; lra.
Qed.

Lemma sum_Z_bounds (hi : Z) (l : list Z) (a : Z) :
  Forall (fun z => (0 < z <= hi)%Z) l ->
  (a <= fold_left Z.add l a <= a + hi * Z.of_nat (List.length l))%Z.
Proof.
  intro F. revert a. induction F as [| x l H F IH]; intro a;
    cbn [fold_left List.length]; [lia |].
  specialize (IH (a + x)%Z). lia.
Qed.

Lemma average_range (lo : Q) (l : list Q) :
  0 <= lo -> Forall (fun x => lo <= x <= 1) l ->
  exists c, as_num (average l) = Some c /\ 0 <= c <= 1 /\ (l <> [] -> lo <= c).
Proof.
  intros P F. unfold average. destruct l as [| x l].
  - exists 0. split; [reflexivity |]. split; [lra | congruence].
  - eexists. split; [reflexivity |].
    pose proof (mean_bounds lo 1 (x :: l) ltac:(discriminate) F) as [L H].
    split; [split; lra | intros _; exact L].
Qed.

Lemma tesseract_average_range (l : list Z) :
  Forall (fun z => (0 < z <= 100)%Z) l ->
  exists c, as_num (tesseract_average l) = Some c /\ 0 <= c <= 1.
Proof.
  intro F. unfold tesseract_average. destruct l as [| x l].
  - exists 0. split; [reflexivity | lra].
  - eexists. split; [reflexivity |].
    pose proof (sum_Z_bounds 100 (x :: l) 0 F) as [L H].
    set (n := List.length (x :: l)) in *. set (s := fold_left Z.add (x :: l) 0%Z) in *.
    assert (P : 0 < Qof_nat n) by (apply Qof_nat_pos; subst n; cbn; lia).
    assert (L' : 0 <= inject_Z s) by (change 0 with (inject_Z 0); now rewrite <- Zle_Qle).
    assert (H' : inject_Z s <= 100 * Qof_nat n).
    { unfold Qof_nat. change 100 with (inject_Z 100).
      rewrite <- inject_Z_mult, <- Zle_Qle. lia. }
    split.
    + apply Qle_shift_div_l; [lra |]. apply Qle_shift_div_l; [exact P | lra].
    + apply Qle_shift_div_r; [lra |]. apply Qle_shift_div_r; [exact P | lra].
Qed.


(** ** The engines *)

Lemma easyocr_loop (P : Q -> Prop) (rs : list reading) :
  (forall r, In r rs -> 0.3 < r_confidence r -> P (r_confidence r)) ->
  forall et cs bb et' cs' bb',
    fold_left easyocr_step rs (et, cs, bb) = (et', cs', bb') ->
    Forall P cs -> Forall P cs'.
Proof.
  induction rs as [| r rs IH]; intros H et cs bb et' cs' bb' E F;
    cbn [fold_left] in E.
  - now injection E as <- <- <-.
  - unfold easyocr_step at 2 in E.
    destruct (Qgtb (r_confidence r) 0.3) eqn:G.
    + eapply IH; [| exact E |].
      * intros r' I. apply H. now right.
      * unfold append. apply Forall_app. split; [exact F |].
        constructor; [| constructor]. apply H; [now left | now apply Qgtb_iff].
    + eapply IH; [| exact E | exact F]. intros r' I. apply H. now right.
Qed.

Section EngineFacts.

Variables page array : Type.
Variable preprocess : page -> result array.
Variables easyocr_ready tesseract_ready : bool.
Variable readtext : array -> result (list reading).
Variable image_to_string : array -> string -> result string.
Variable image_to_data : array -> string -> result tess_data.
Variable convert_from_bytes : list Byte.byte -> result (list page).
Variable image_open : list Byte.byte -> result page.
Variable processing_time : Q.

Local Abbreviation easyocr := (_easyocr_extract array readtext).
Local Abbreviation tesseract :=
  (_tesseract_extract array image_to_string image_to_data).
Local Abbreviation process_image :=
  (_process_image page array preprocess easyocr_ready tesseract_ready readtext
                  image_to_string image_to_data).
Local Abbreviation process :=
  (process_document page array preprocess easyocr_ready tesseract_ready readtext
                    image_to_string image_to_data convert_from_bytes image_open
                    processing_time).

Local Abbreviation calibrated := (calibrated array readtext image_to_data).

Lemma easyocr_shape (image : array) :
  exists text cv more c,
    easyocr image = ("text", VStr text) :: ("confidence", cv) :: more /\
    as_num cv = Some c /\
    (calibrated -> 0 <= c <= 1) /\
    (str_at "engine" (easyocr image) = Some "easyocr" \/
     (text = "" /\ c == 0 /\ dict_get "engine" (easyocr image) = None)).
Proof.
  unfold _easyocr_extract.
  destruct (readtext image) as [rs | e] eqn:R; cbn [bind].
  - destruct (fold_left easyocr_step rs ([], [], [])) as [[et cs] bb] eqn:E.
    assert (F : calibrated -> Forall (fun x => 0.3 <= x <= 1) cs).
    { intro C. unfold Ocr.calibrated in C. destruct C as [C _].
      eapply (easyocr_loop (fun x => 0.3 <= x <= 1) rs); [| exact E | constructor].
      intros r I G. cbv beta. split; [lra | exact (C image rs r R I)]. }
    destruct cs as [| x cs].
    + eexists _, _, _, 0. split; [reflexivity |]. split; [reflexivity |].
      split; [intros _; lra | left; reflexivity].
    + eexists _, _, _, _. split; [reflexivity |]. split; [reflexivity |].
      split; [| left; reflexivity].
      intro C. specialize (F C).
      pose proof (mean_bounds 0.3 1 (x :: cs) ltac:(discriminate) F). lra.
  - eexists _, _, _, 0.0. split; [reflexivity |]. split; [reflexivity |].
    split; [intros _; lra | right]. repeat split; reflexivity.
Qed.

Lemma tesseract_shape (image : array) (document_type : string) :
  exists text cv more c,
    tesseract image document_type
      = ("text", VStr text) :: ("confidence", cv) :: more /\
    as_num cv = Some c /\
    (calibrated -> 0 <= c <= 1) /\
    str_at "engine" (tesseract image document_type) <> Some "easyocr".
Proof.
  unfold _tesseract_extract.
  destruct (image_to_string image _) as [text | e]; cbn [bind].
  2:{ eexists _, _, _, 0.0. split; [reflexivity |]. split; [reflexivity |].
      split; [intros _; lra | discriminate]. }
  destruct (image_to_data image _) as [data | e] eqn:D; cbn [bind].
  2:{ eexists _, _, _, 0.0. split; [reflexivity |]. split; [reflexivity |].
      split; [intros _; lra | discriminate]. }
  destruct (for_each _ (tesseract_box data) []) as [bb | e]; cbn [bind].
  2:{ eexists _, _, _, 0.0. split; [reflexivity |]. split; [reflexivity |].
      split; [intros _; lra | discriminate]. }
  set (l := filter (fun conf => (0 <? conf)%Z) (d_conf data)).
  destruct (as_num (tesseract_average l)) as [c |] eqn:A;
    [| destruct l; discriminate A].
  eexists _, _, _, c. split; [reflexivity |]. split; [exact A |].
  split; [| discriminate].
  intro C. unfold Ocr.calibrated in C. destruct C as [_ C].
  assert (F : Forall (fun z => (0 < z <= 100)%Z) l).
  { apply Forall_forall. intros z I. apply filter_In in I as [I P].
    apply Z.ltb_lt in P. split; [exact P | exact (C _ _ _ _ D I)]. }
  destruct (tesseract_average_range l F) as (c' & A' & B).
  rewrite A in A'. now injection A' as <-.
Qed.

Lemma process_image_shape (image : page) (document_type : string) :
  exists text cv more c,
    process_image image document_type
      = ("text", VStr text) :: ("confidence", cv) :: more /\
    as_num cv = Some c /\
    (calibrated -> 0 <= c <= 1) /\
    (str_at "engine" (process_image image document_type) = Some "easyocr" ->
     0.5 < c) /\
    (tesseract_ready = false ->
     str_at "engine" (process_image image document_type) = Some "easyocr"
     \/ (text = "" /\ c == 0)).
Proof.
  unfold _process_image.
  destruct (preprocess image) as [arr | e]; cbn [bind].
  2:{ eexists _, _, _, 0.0. split; [reflexivity |]. split; [reflexivity |].
      split; [intros _; lra |]. split; [discriminate | right; split; reflexivity]. }
  assert (T : exists text cv more c,
            match (if tesseract_ready
                   then Ok (tesseract arr document_type)
                   else Raise (mkExn "Exception" "No OCR engine available")) with
            | Ok result => result
            | Raise e =>
                [ ("text", VStr ""); ("confidence", VFloat 0.0);
                  ("error", VStr (exn_msg e)) ]
            end = ("text", VStr text) :: ("confidence", cv) :: more /\
            as_num cv = Some c /\
            (calibrated -> 0 <= c <= 1) /\
            (str_at "engine" (("text", VStr text) :: ("confidence", cv) :: more)
               = Some "easyocr" -> 0.5 < c) /\
            (tesseract_ready = false ->
             str_at "engine" (("text", VStr text) :: ("confidence", cv) :: more)
               = Some "easyocr"
             \/ (text = "" /\ c == 0))).
  { destruct tesseract_ready.
    - destruct (tesseract_shape arr document_type) as (text & cv & more & c & E & A & B & N).
      exists text, cv, more, c. rewrite E in N |- *.
      split; [reflexivity |]. split; [exact A |]. split; [exact B |].
      split; [intro H; contradiction | discriminate].
    - eexists _, _, _, 0.0. split; [reflexivity |]. split; [reflexivity |].
      split; [intros _; lra |]. split; [discriminate | right; split; reflexivity]. }
  destruct easyocr_ready; cbn [bind].
  - destruct (easyocr_shape arr) as (text & cv & more & c & E & A & B & G).
    rewrite E in G |- *.
    cbn [dict_item dict_get String.eqb Ascii.eqb Bool.eqb bind]. rewrite A.
    destruct (Qgtb c 0.5) eqn:H; cbn [bind].
    + exists text, cv, more, c. split; [reflexivity |]. split; [exact A |].
      split; [exact B |]. apply Qgtb_iff in H.
      split; [intros _; exact H |]. intros _.
      destruct G as [G | (_ & Z & _)]; [now left | lra].
    + destruct T as (text' & cv' & more' & c' & E' & T).
      exists text', cv', more', c'. rewrite E'. split; [reflexivity | exact T].
  - destruct T as (text' & cv' & more' & c' & E' & T).
    exists text', cv', more', c'. rewrite E'. split; [reflexivity | exact T].
Qed.

(** [_process_image] returns the reading of EasyOCR only when its
    confidence exceeds 0.5.  When Tesseract is not available a reading
    of lower confidence is dropped: the result is then the empty text
    with confidence 0. *)
Theorem process_image_engine (image : page) (document_type : string) :
  exists text c,
    str_at "text" (process_image image document_type) = Some text /\
    num_at "confidence" (process_image image document_type) = Some c /\
    (str_at "engine" (process_image image document_type) = Some "easyocr" ->
     0.5 < c) /\
    (tesseract_ready = false ->
     str_at "engine" (process_image image document_type) = Some "easyocr"
     \/ (text = "" /\ c == 0)).
Proof.
  destruct (process_image_shape image document_type)
    as (text & cv & more & c & E & A & _ & G & T).
  exists text, c. rewrite E in G, T |- *.
  cbn [str_at num_at dict_get String.eqb Ascii.eqb Bool.eqb].
  split; [reflexivity |]. split; [exact A |]. split; assumption.
Qed.


Lemma page_loop (document_type : string) (images : list page) :
  calibrated ->
  forall acc r,
    for_each images (page_step page array preprocess easyocr_ready tesseract_ready
                               readtext image_to_string image_to_data
                               document_type) acc = Ok r ->
    Forall (fun v => exists c, as_num v = Some c /\ 0 <= c <= 1) (snd acc) ->
    Forall (fun v => exists c, as_num v = Some c /\ 0 <= c <= 1) (snd r).
Proof.
  intro C. induction images as [| image images IH]; intros [trs css] r;
    cbn [for_each].
  - now intros [= <-].
  - unfold page_step at 1.
    destruct (process_image_shape image document_type)
      as (text & cv & more & c & E & A & B & _).
    rewrite E. cbn [dict_item dict_get String.eqb Ascii.eqb Bool.eqb bind].
    intros R F. apply (IH _ _ R). cbn [snd] in F |- *.
    unfold append. apply Forall_app. split; [exact F |].
    constructor; [| constructor]. exists c. split; [exact A | exact (B C)].
Qed.

Lemma numbers_loop (P : Q -> Prop) (vs : list pyval) :
  Forall (fun v => exists c, as_num v = Some c /\ P c) vs ->
  forall acc r,
    for_each vs (fun l v => q <- as_number v ;; Ok (append l q)) acc = Ok r ->
    Forall P acc ->
    Forall P r /\ List.length r = (List.length acc + List.length vs)%nat.
Proof.
  induction 1 as [| v vs (c & A & Pc) F IH]; intros acc r; cbn [for_each].
  - intros [= <-] G. split; [exact G | cbn; lia].
  - unfold as_number at 1. rewrite A. cbn [bind]. intros R G.
    destruct (IH _ _ R) as [H L].
    + unfold append. apply Forall_app. split; [exact G |]. now repeat constructor.
    + split; [exact H |]. rewrite L. unfold append. rewrite length_app.
      cbn [List.length]. lia.
Qed.

Lemma process_confidence (content : list Byte.byte)
  (filename document_type : string) (r : dict) :
  calibrated ->
  process content filename document_type = Ok r ->
  exists c, num_at "confidence" r = Some c /\ 0 <= c <= 1.
Proof.
  intros C. unfold process_document.
  destruct (String.eqb (file_ext filename) "pdf").
  - destruct (convert_from_bytes content) as [images | e]; cbn [bind];
      [| discriminate].
    destruct (for_each images _ ([], [])) as [[trs css] | e] eqn:L; cbn [bind];
      [| discriminate].
    pose proof (page_loop _ _ C _ _ L (Forall_nil _)) as F. cbn [snd] in F.
    destruct (for_each trs _ []) as [texts | e]; cbn [bind]; [| discriminate].
    destruct css as [| v css]; cbn [bind].
    + intros [= <-]. exists 0. split; [reflexivity | lra].
    + destruct (for_each (v :: css) _ []) as [scores | e] eqn:S; cbn [bind];
        [| discriminate].
      intros [= <-].
      destruct (numbers_loop (fun c => 0 <= c <= 1) _ F _ _ S (Forall_nil _))
        as [G N].
      cbn [num_at dict_get String.eqb Ascii.eqb Bool.eqb as_num].
      eexists. split; [reflexivity |].
      cbn [List.length Nat.add] in N. rewrite <- N.
      apply mean_bounds; [| exact G].
      destruct scores; [discriminate N | discriminate].
  - destruct (existsb _ _); cbn [bind]; [| discriminate].
    destruct (image_open content) as [image | e]; cbn [bind]; [| discriminate].
    destruct (process_image_shape image document_type)
      as (text & cv & more & c & E & A & B & _).
    rewrite E. cbn [dict_item dict_get String.eqb Ascii.eqb Bool.eqb bind].
    intros [= <-]. exists c.
    cbn [num_at dict_get String.eqb Ascii.eqb Bool.eqb].
    split; [exact A | exact (B C)].
Qed.

(** When the engines are calibrated, every result of [process_document]
    carries a confidence in [[0, 1]]: that of the one image, or the mean
    over the pages of a PDF (0 for a PDF without pages). *)
Theorem document_confidence_unit (content : list Byte.byte)
  (filename document_type : string) (r : dict) :
  calibrated ->
  process content filename document_type = Ok r ->
  exists c, num_at "confidence" r = Some c /\ 0 <= c <= 1.
Proof.
  intros C R. destruct (process_confidence _ _ _ _ C R) as (c & N & B).
  exists c. split; assumption.
Qed.

Lemma process_supported (content : list Byte.byte)
  (filename document_type : string) :
  In (file_ext filename) ["pdf"; "jpg"; "jpeg"; "png"; "bmp"; "tiff"] \/
  process content filename document_type
  = Raise (ValueError ("Unsupported file type: " ++ file_ext filename)).
Proof.
  unfold process_document.
  destruct (String.eqb_spec (file_ext filename) "pdf") as [-> | _];
    [left; now left |].
  destruct (existsb (String.eqb (file_ext filename)) _) eqn:X.
  - left. right. apply existsb_exists in X as (x & I & X).
    apply String.eqb_eq in X. now subst x.
  - right. reflexivity.
Qed.

(** A file whose extension (the part of the lower-cased name after the
    last dot) is not pdf, jpg, jpeg, png, bmp or tiff is refused with a
    [ValueError] naming the extension; a name without a dot has the
    empty extension and is refused too.  The error is not caught. *)
Theorem unsupported_file_type (content : list Byte.byte)
  (filename document_type : string) :
  (In (file_ext filename) ["pdf"; "jpg"; "jpeg"; "png"; "bmp"; "tiff"] \/
   process content filename document_type
   = Raise (ValueError ("Unsupported file type: " ++ file_ext filename))) /\
  (contains "." filename = false ->
   process content filename document_type
   = Raise (ValueError "Unsupported file type: ")).
Proof.
  pose proof (process_supported content filename document_type) as G.
  split; [exact G |].
  intro N. destruct G as [G | G].
  - unfold file_ext in G. rewrite N in G. cbn [In] in G.
    repeat (destruct G as [G | G]; [discriminate G |]). contradiction.
  - rewrite G. unfold file_ext. now rewrite N.
Qed.

End EngineFacts.

Lemma document_confidence_unit_witness :
  Ocr.calibrated nat Cases.desk_readtext Cases.desk_image_to_data /\
  exists r,
    Ocr.process_document nat nat Cases.desk_preprocess true true
      Cases.desk_readtext Cases.desk_image_to_string Cases.desk_image_to_data
      Cases.desk_pdf Cases.desk_open 0.2 [] "scan.PDF" "receipt" = Ok r /\
    exists c, num_at "confidence" r = Some c /\ 0 <= c <= 1.
Proof.
  assert (C : Ocr.calibrated nat Cases.desk_readtext Cases.desk_image_to_data).
  { split.
    - intros image rs r [= <-] I. cbn [In] in I.
      destruct I as [<- | [<- | [<- | []]]]; apply Qle_bool_iff; reflexivity.
    - intros image config data c [= <-] I. cbn [In Ocr.d_conf] in I.
      destruct I as [<- | [<- | [<- | []]]]; lia. }
  split; [exact C |].
  eexists. split; [vm_compute; reflexivity |].
  eapply (document_confidence_unit nat nat Cases.desk_preprocess true true
            Cases.desk_readtext Cases.desk_image_to_string
            Cases.desk_image_to_data Cases.desk_pdf Cases.desk_open 0.2
            [] "scan.PDF" "receipt"); [exact C | vm_compute; reflexivity].
Defined.

End OcrSpec.

(* ===================================================================== *)
(** * Authentication and rate limiting *)
(* ===================================================================== *)

Module AuthSpec.
Import Py PyExt PyFacts Auth.

(** ** Tables *)

Lemma table_get_set_eq {A : Type} (k : string) (v : A) (t : list (string * A)) :
  table_get k (table_set k v t) = Some v.
Proof.
  induction t as [| [k' v'] t IH]; cbn [table_set table_get].
  - now rewrite String.eqb_refl.
  - destruct (String.eqb k k') eqn:E; cbn [table_get]; now rewrite E.
Qed.

Lemma table_get_set_neq {A : Type} (k k' : string) (v : A) (t : list (string * A)) :
  k <> k' -> table_get k (table_set k' v t) = table_get k t.
Proof.
  intro N. induction t as [| [k0 v0] t IH]; cbn [table_set table_get].
  - apply String.eqb_neq in N. now rewrite N.
  - destruct (String.eqb k' k0) eqn:E; cbn [table_get].
    + apply String.eqb_eq in E. subst k0.
      apply String.eqb_neq in N. now rewrite N.
    + now rewrite IH.
Qed.

Lemma rate_limit_shape (client_name : string) :
  exists m, get_rate_limit client_name = [ ("requests_per_minute", m) ].
Proof.
  unfold get_rate_limit, rate_limits. cbn [table_get].
  destruct (String.eqb client_name "chainsure_backend"); [eexists; reflexivity |].
  destruct (String.eqb client_name "chainsure_admin"); [eexists; reflexivity |].
  destruct (String.eqb client_name "chainsure_test"); eexists; reflexivity.
Qed.

(** ** One call of [check_rate_limit] *)

(** The effect of one call on the entry of its key. *)
Lemma check_rate_limit_entry (k : string) (m t : Z) (st : storage) :
  let kept :=
    match table_get k st with
    | Some stamps => filter (fun a => (t - 60 <? a)%Z) stamps
    | None => []
    end in
  exists st',
    check_rate_limit k [ ("requests_per_minute", m) ] t st
    = (if (m <=? Z.of_nat (List.length kept))%Z
       then Raises (HTTPException 429
                      ("Rate limit exceeded. Maximum " ++ str_of_Z m
                       ++ " requests per minute."))
       else Return tt, st') /\
    table_get k st'
    = Some (if (m <=? Z.of_nat (List.length kept))%Z then kept
            else append kept t) /\
    forall k', k' <> k -> table_get k' st' = table_get k' st.
Proof.
  intro kept. unfold check_rate_limit. cbn [table_get String.eqb Ascii.eqb Bool.eqb].
  set (st1 := match table_get k st with
              | Some stamps =>
                  table_set k (filter (fun a => (t - 60 <? a)%Z) stamps) st
              | None => table_set k [] st
              end).
  assert (G : table_get k st1 = Some kept)
    by (subst st1 kept; destruct (table_get k st); apply table_get_set_eq).
  assert (F : forall k', k' <> k -> table_get k' st1 = table_get k' st)
    by (intros k' N; subst st1; destruct (table_get k st);
        now apply table_get_set_neq).
  rewrite G.
  destruct (m <=? Z.of_nat (List.length kept))%Z.
  - exists st1. split; [reflexivity |]. split; [exact G | exact F].
  - eexists. split; [reflexivity |]. split; [apply table_get_set_eq |].
    intros k' N. rewrite table_get_set_neq by exact N. now apply F.
Qed.


Local Open Scope list_scope.

Lemma filter_window (last t : Z) (l : list Z) :
  (last <= t)%Z ->
  filter (fun a => (t - 60 <? a)%Z) (filter (fun a => (last - 60 <? a)%Z) l)
  = filter (fun a => (t - 60 <? a)%Z) l.
Proof.
  intro H. induction l as [| a l IH]; cbn [filter]; [reflexivity |].
  destruct (last - 60 <? a)%Z eqn:A; cbn [filter].
  - now rewrite IH.
  - rewrite IH. replace (t - 60 <? a)%Z with false by lia. reflexivity.
Qed.

Lemma snoc_split {A : Type} (p q l : list A) (t x : A) :
  p ++ t :: q = l ++ [x] ->
  (q = [] /\ p = l /\ t = x) \/ exists q', q = q' ++ [x] /\ l = p ++ t :: q'.
Proof.
  intro E. destruct (exists_last (l := t :: q) ltac:(discriminate)) as (q0 & y & Q).
  destruct q0 as [| t0 q0]; cbn [List.app] in Q.
  - injection Q as -> ->. left.
    apply app_inj_tail in E as [-> ->]. now repeat split.
  - injection Q as <- ->. right. exists q0.
    change (p ++ t :: q0 ++ [y]) with (p ++ (t :: q0) ++ [y]) in E.
    rewrite app_assoc in E. apply app_inj_tail in E as [<- ->].
    now split.
Qed.

(** ** Sessions *)

Section Sessions.

Variable getenv : string -> option string.

(** The key under observation, its client and the client's limit. *)
Variables (k client : string) (m : Z).
Hypothesis Hclient : find_client k (API_KEYS getenv) = Some client.
Hypothesis Hm : get_rate_limit client = [ ("requests_per_minute", m) ].

(** The time stamps of the calls with key [k] that were let through. *)
Local Abbreviation stamps_of served :=
  (map snd (filter (fun c : string * Z => String.eqb (fst c) k) served)).

Local Abbreviation invariant served st now :=
  (Forall (fun a => (a <= now)%Z) (stamps_of served) /\
   (exists last, (last <= now)%Z /\
      match table_get k st with
      | Some stamps =>
          stamps = filter (fun a => (last - 60 <? a)%Z) (stamps_of served)
      | None => stamps_of served = []
      end) /\
   (forall p t q, stamps_of served = p ++ t :: q ->
      (Z.of_nat (List.length (filter (fun a => (t - 60 <? a)%Z) (p ++ [t])))
       <= m)%Z)).

Lemma invariant_later (served : list (string * Z)) (st : storage) (now t : Z) :
  (now <= t)%Z -> invariant served st now -> invariant served st t.
Proof.
  intros H (F & (last & L & G) & W). split; [| split; [| exact W]].
  - eapply Forall_impl; [| exact F]. cbv beta. intros; lia.
  - exists last. split; [lia | exact G].
Qed.

Lemma serve_step (served : list (string * Z)) (st : storage) (now : Z)
  (k' : string) (t : Z) :
  (now <= t)%Z -> invariant served st now ->
  invariant (fst (serve getenv (served, st) (k', t)))
            (snd (serve getenv (served, st) (k', t))) t.
Proof.
  intros H I. pose proof (invariant_later _ _ _ _ H I) as I'.
  unfold serve, verify_api_key.
  destruct (String.eqb k' ""); [exact I' |].
  destruct (find_client k' (API_KEYS getenv)) as [c' |] eqn:C; [| exact I'].
  destruct (rate_limit_shape c') as [m' R]. rewrite R.
  destruct (check_rate_limit_entry k' m' t st) as (st' & E & G & Fr).
  rewrite E. clear E.
  destruct (String.eqb_spec k' k) as [-> | N].
  - (* a call with the observed key *)
    rewrite Hclient in C. injection C as <-.
    rewrite Hm in R. injection R as <-.
    destruct I as (F & (last & L & S) & W).
    assert (K : match table_get k st with
                | Some stamps => filter (fun a => (t - 60 <? a)%Z) stamps
                | None => []
                end = filter (fun a => (t - 60 <? a)%Z) (stamps_of served)).
    { destruct (table_get k st) as [stamps |].
      - rewrite S. apply filter_window. lia.
      - now rewrite S. }
    rewrite K in G |- *.
    destruct (m <=? _)%Z eqn:M; cbn [fst snd].
    + split; [apply I' |]. split; [| exact W].
      exists t. split; [lia |]. now rewrite G.
    + unfold append in *.
      rewrite filter_app, map_app. cbn [filter fst snd]. rewrite String.eqb_refl.
      cbn [map snd].
      split; [apply Forall_app; split; [apply I' | repeat constructor; lia] |].
      split.
      * exists t. split; [lia |]. rewrite G.
        rewrite filter_app. cbn [filter].
        replace (t - 60 <? t)%Z with true by lia. reflexivity.
      * intros p t0 q D. symmetry in D. apply snoc_split in D.
        destruct D as [(-> & -> & ->) | (q' & -> & D)]; [| now apply (W p t0 q')].
        rewrite filter_app, length_app. cbn [filter].
        replace (t - 60 <? t)%Z with true by lia. cbn [List.length]. lia.
  - (* a call with another key *)
    assert (U : forall b : bool,
              stamps_of (if b then served else append served (k', t))
              = stamps_of served).
    { intros []; [reflexivity |]. unfold append. rewrite filter_app.
      cbn [filter fst]. apply String.eqb_neq in N. rewrite N.
      now rewrite app_nil_r. }
    destruct I' as (F & (last & L & S) & W).
    assert (N' : k <> k') by congruence.
    destruct (m' <=? _)%Z; cbn [fst snd].
    + split; [exact F |]. split; [| exact W].
      exists last. split; [exact L |]. now rewrite (Fr k N').
    + rewrite (U false).
      split; [exact F |]. split; [| exact W].
      exists last. split; [exact L |]. now rewrite (Fr k N').
Qed.

Lemma serve_loop (calls : list (string * Z)) :
  forall (served : list (string * Z)) (st : storage) (now : Z),
    StronglySorted Z.le (map snd calls) ->
    Forall (fun c => (now <= snd c)%Z) calls ->
    invariant served st now ->
    exists now',
      invariant (fst (fold_left (serve getenv) calls (served, st)))
                (snd (fold_left (serve getenv) calls (served, st))) now'.
Proof.
  induction calls as [| [k' t] calls IH]; intros served st now S F I;
    cbn [fold_left].
  - now exists now.
  - inversion S as [| ? ? S' B]; subst. inversion F as [| ? ? H F']; subst.
    cbn [snd] in H.
    pose proof (serve_step served st now k' t H I) as I1.
    revert I1. destruct (serve getenv (served, st) (k', t)) as [served1 st1].
    cbn [fst snd]. intro I1.
    apply (IH served1 st1 t S'); [| exact I1].
    apply Forall_forall. intros c J. rewrite Forall_forall in B.
    apply B. now apply in_map.
Qed.

End Sessions.

(** The outcomes of [verify_api_key].  A call is let through only with
    a non-empty key, as the first client of [API_KEYS] that holds it.
    A refusal is a 401, which leaves the storage as it was, or a 429,
    after which the key's entry holds at least [requests_per_minute]
    time stamps, all of the last 60 seconds.  No other exception and no
    other status occurs. *)
Theorem verify_api_key_outcomes (getenv : string -> option string)
  (api_key : string) (current_time : Z) (st : storage) :
  match verify_api_key getenv api_key current_time st with
  | (Return client_info, _) =>
      api_key <> "" /\
      exists client_name,
        find_client api_key (API_KEYS getenv) = Some client_name /\
        client_info = client_info_of client_name
  | (Raises (HTTPException status_code _), st') =>
      (status_code = 401%Z /\ st' = st /\
       (api_key = "" \/ find_client api_key (API_KEYS getenv) = None))
      \/
      (status_code = 429%Z /\
       exists client_name m stamps,
         find_client api_key (API_KEYS getenv) = Some client_name /\
         get_rate_limit client_name = [ ("requests_per_minute", m) ] /\
         table_get api_key st' = Some stamps /\
         (m <= Z.of_nat (List.length stamps))%Z /\
         Forall (fun a => (current_time - 60 < a)%Z) stamps)
  | (Raises (Exception _), _) => False
  end.
Proof.
  unfold verify_api_key.
  destruct (String.eqb_spec api_key "") as [-> | N].
  { left. repeat split. now left. }
  destruct (find_client api_key (API_KEYS getenv)) as [c |] eqn:C.
  2:{ left. repeat split. now right. }
  destruct (rate_limit_shape c) as [m R]. rewrite R.
  destruct (check_rate_limit_entry api_key m current_time st) as (st' & E & G & _).
  rewrite E. clear E.
  destruct (m <=? _)%Z eqn:M.
  - right. split; [reflexivity |]. eexists c, m, _.
    split; [reflexivity |]. split; [exact R |]. split; [exact G |].
    split; [lia |].
    destruct (table_get api_key st) as [stamps |]; [| constructor].
    apply Forall_forall. intros a I. apply filter_In in I as [_ I]. lia.
  - split; [exact N |]. exists c. split; reflexivity.
Qed.

(** The sliding window of the rate limiter.  When the clock readings of
    a session do not decrease, every call that is let through has, among
    the calls with the same key let through so far and within the last
    60 seconds, itself included, at most as many as its client's
    [requests_per_minute]. *)
Theorem rate_limit_window (getenv : string -> option string)
  (calls : list (string * Z)) (k client : string) (m : Z) (p q : list Z) (t : Z) :
  StronglySorted Z.le (map snd calls) ->
  find_client k (API_KEYS getenv) = Some client ->
  In ("requests_per_minute", m) (get_rate_limit client) ->
  map snd (filter (fun c => String.eqb (fst c) k) (fst (session getenv calls)))
  = p ++ t :: q ->
  (Z.of_nat (List.length (filter (fun a => (t - 60 <? a)%Z) (p ++ [t]))) <= m)%Z.
Proof.
  intros S C M D.
  destruct (rate_limit_shape client) as [m' R].
  rewrite R in M. destruct M as [[= <-] | []].
  assert (B : exists now, Forall (fun c : string * Z => (now <= snd c)%Z) calls).
  { destruct calls as [| [k0 t0] calls]; [exists 0%Z; constructor |].
    exists t0. inversion S as [| ? ? S' F]; subst.
    constructor; [cbn; lia |].
    apply Forall_forall. intros c J. rewrite Forall_forall in F.
    apply F. now apply in_map. }
  destruct B as [now B].
  destruct (serve_loop getenv k client m' C R calls [] [] now S B) as (now' & _ & _ & W).
  - split; [constructor |]. split; [| intros p0 t0 q0 E; now destruct p0].
    exists now. split; [lia | reflexivity].
  - apply (W p t q). exact D.
Qed.

Lemma rate_limit_window_witness :
  StronglySorted Z.le (map snd Cases.burst) /\
  find_client Cases.test_key (API_KEYS Cases.no_env) = Some "chainsure_test" /\
  In ("requests_per_minute", 10%Z) (get_rate_limit "chainsure_test") /\
  map snd (filter (fun c => String.eqb (fst c) Cases.test_key)
                  (fst (session Cases.no_env Cases.burst)))
  = [0; 1; 2; 3; 4; 5; 6; 7; 8; 9]%Z ++ 70%Z :: [] /\
  (Z.of_nat (List.length (filter (fun a => (70 - 60 <? a)%Z)
                                 ([0; 1; 2; 3; 4; 5; 6; 7; 8; 9]%Z ++ [70%Z])))
   <= 10)%Z.
Proof.
  assert (S : StronglySorted Z.le (map snd Cases.burst))
    by (repeat (constructor; try (vm_compute; discriminate))).
  split; [exact S |]. split; [reflexivity |]. split; [now left |].
  split; [vm_compute; reflexivity |].
  apply (rate_limit_window Cases.no_env Cases.burst Cases.test_key
           "chainsure_test" 10 [0; 1; 2; 3; 4; 5; 6; 7; 8; 9]%Z [] 70%Z).
  - exact S.
  - reflexivity.
  - now left.
  - vm_compute. reflexivity.
Defined.

End AuthSpec.

(* ===================================================================== *)
(** * The endpoints *)
(* ===================================================================== *)

Module ApiSpec.
Import Py PyExt PyFacts Auth Api FraudReportSpec.
Local Open Scope Q_scope.

(** [get_client_info] never refuses a caller: it returns the client of
    a key that [verify_api_key] lets through, and otherwise (no
    credentials, a missing or unknown key, an exceeded rate limit) the
    development client, for which [validate_permissions] answers
    [False] whatever the permission. *)
Theorem client_info_fallback (getenv : string -> option string)
  (credentials : option string) (current_time : Z) (st : storage) :
  (exists api_key,
     credentials = Some api_key /\
     verify_api_key getenv api_key current_time st
     = (Return (fst (get_client_info getenv credentials current_time st)),
        snd (get_client_info getenv credentials current_time st)))
  \/
  (fst (get_client_info getenv credentials current_time st) = development_client /\
   forall permission,
     validate_permissions
       (fst (get_client_info getenv credentials current_time st)) permission
     = Ok (VBool false)).
Proof.
  unfold get_client_info. destruct credentials as [api_key |].
  - destruct (verify_api_key getenv api_key current_time st) as [[info | r] st']
      eqn:V.
    + destruct (negb (truthy (VDict info))) eqn:T; cbn [fst snd].
      * right. split; reflexivity.
      * left. exists api_key. split; [reflexivity | exact V].
    + right. split; reflexivity.
  - right. split; reflexivity.
Qed.

Section Endpoints.

Variable FraudAnalysisResult : dict -> result pyval.
Variable ClaimAnalysisResponse : dict -> result pyval.
Variable DocumentValidation : dict -> result pyval.
Variable DocumentProcessingResponse : dict -> result pyval.
Variable describe : raised -> string.
Variable percent : pyval -> result string.
Variable processedAt : string.
Variable processingTime : Q.
Variable fraud_service_ready : bool.

Local Abbreviation fields_of request :=
  (claim_response_fields FraudAnalysisResult percent processedAt processingTime
     request
     (Fraud.analyze_text (Some (description request)) (claimType request)
                         (requestedAmount request))).

Local Abbreviation analyze request :=
  (analyze_claim FraudAnalysisResult ClaimAnalysisResponse describe percent
                 processedAt processingTime fraud_service_ready request).

(** The [/analyze-claim] endpoint.  Every failure reaches the client
    with status 500, also the 503 raised when the fraud service is not
    ready.  For a request with a non-negative amount, the keyword
    arguments given to the two response models are within the bounds
    the models declare; the authenticity score is the report's
    confidence. *)
Theorem analyze_claim_contract (request : ClaimAnalysisRequest) :
  (forall r, analyze request = Raises r ->
             exists detail, r = HTTPException 500 detail) /\
  (fraud_service_ready = false ->
   analyze request
   = Raises (HTTPException 500
               ("Analysis failed: "
                ++ describe (HTTPException 503 "Fraud detection service not available")))) /\
  (exists inner,
     fraud_result_fields
       (Fraud.analyze_text (Some (description request)) (claimType request)
                           (requestedAmount request)) = Ok inner /\
     meets_bounds "FraudAnalysisResult" inner = true) /\
  (0 <= requestedAmount request ->
   forall fields, fields_of request = Ok fields ->
     meets_bounds "ClaimAnalysisResponse" fields = true /\
     dict_get "authenticityScore" fields = dict_get "confidence" fields).
Proof.
  split; [| split; [| split]].
  - intros r. unfold analyze_claim.
    destruct (negb fraud_service_ready); [intros [= <-]; eexists; reflexivity |].
    destruct (lift _); [discriminate | intros [= <-]; eexists; reflexivity].
  - intros ->. reflexivity.
  - destruct (string_report (description request) (claimType request)
                (requestedAmount request))
      as (F & ac & si & ci & rr & mi & _ & _ & _ & _ & _ & _ & _ & _ & _ & _ & R).
    rewrite R. eexists. split; [reflexivity |].
    cbn [meets_bounds table_get declared_bounds String.eqb Ascii.eqb Bool.eqb
         forallb num_at dict_get fst snd as_num].
    unfold within. cbn [fst snd].
    destruct (fraud_score_unit F) as [L U].
    apply Qle_bool_iff in L, U. now rewrite L, U.
  - intros A fields.
    destruct (string_report (description request) (claimType request)
                (requestedAmount request))
      as (F & ac & si & ci & rr & mi & _ & _ & _ & _ & _ & _ & _ & _ & _ & _ & R).
    rewrite R. unfold claim_response_fields, fraud_result_fields, get_or.
    cbn [dict_item dict_get String.eqb Ascii.eqb Bool.eqb bind].
    destruct (FraudAnalysisResult _) as [fr | e]; cbn [bind]; [| discriminate].
    destruct (percent _) as [shown | e]; cbn [bind]; [| discriminate].
    intros [= <-]. split; [| reflexivity].
    cbn [meets_bounds table_get declared_bounds String.eqb Ascii.eqb Bool.eqb
         forallb num_at dict_get fst snd as_num].
    unfold within. cbn [fst snd].
    destruct (fraud_score_unit F) as [L U].
    apply Qle_bool_iff in L, U, A. rewrite L, U, A. cbn [andb].
    set (s := Fraud._calculate_fraud_score F).
    assert (C : forall c, 0.4 <= c <= 5 # 6 ->
                          Qle_bool 0 c && Qle_bool c 1 = true).
    { intros c [C1 C2]. apply andb_true_iff.
      split; apply Qle_bool_iff; lra. }
    rewrite C; [reflexivity |].
    split_tests; split; apply Qle_bool_iff; reflexivity.
Qed.


Variables page array : Type.
Variable preprocess : page -> result array.
Variables easyocr_ready tesseract_ready : bool.
Variable readtext : array -> result (list Ocr.reading).
Variable image_to_string : array -> string -> result string.
Variable image_to_data : array -> string -> result Ocr.tess_data.
Variable convert_from_bytes : list Byte.byte -> result (list page).
Variable image_open : list Byte.byte -> result page.
Variable ocr_time : Q.
Variable ocr_service_set : bool.
Variable now : datetime.

Local Abbreviation ocr :=
  (Ocr.process_document page array preprocess easyocr_ready tesseract_ready
     readtext image_to_string image_to_data convert_from_bytes image_open
     ocr_time).

Local Abbreviation upload :=
  (process_document DocumentValidation DocumentProcessingResponse describe
     processingTime page array preprocess easyocr_ready tesseract_ready readtext
     image_to_string image_to_data convert_from_bytes image_open ocr_time
     ocr_service_set now).

Lemma validation_fields_bounds (content : list Byte.byte)
  (filename document_type : string) (text : option string) :
  exists inner,
    validation_fields
      (Validator.validate_document now content filename document_type text)
    = Ok inner /\
    meets_bounds "DocumentValidation" inner = true.
Proof.
  unfold Validator.validate_document, Validator.validate_document_body.
  destruct (Validator.run_checks now document_type text) as [vr | e] eqn:R;
    cbn [bind].
  - destruct (ValidatorSpec.run_checks_shape _ _ _ _ R)
      as (t & ti & stats & si & ai & a & di & data & _ & _ & _ & _ & _ & _ & E).
    pose proof (ValidatorSpec.validation_score_bounds vr) as [L U].
    set (s := Validator._calculate_validation_score vr) in *. clearbody s.
    subst vr. eexists. split; [reflexivity |].
    cbn [meets_bounds table_get declared_bounds String.eqb Ascii.eqb Bool.eqb
         forallb num_at dict_get fst snd as_num].
    unfold within. cbn [fst snd].
    apply Qle_bool_iff in L, U. now rewrite L, U.
  - eexists. split; [reflexivity |]. reflexivity.
Qed.

(** The [/process-document] endpoint.  Every failure reaches the client
    with status 500, also the 413 of an oversized file and the 503 of a
    missing OCR service.  A response is produced only for a file of at
    most 50 MB with a supported extension and a document type of the
    [DocumentType] enumeration.  The keyword arguments given to
    [DocumentValidation] are within the declared bounds, and so are
    those given to [DocumentProcessingResponse] when the engines are
    calibrated. *)
Theorem process_document_contract (content : list Byte.byte)
  (filename document_type : string) :
  (forall r, upload content filename document_type = Raises r ->
             exists detail, r = HTTPException 500 detail) /\
  (forall response, upload content filename document_type = Return response ->
     (Z.of_nat (List.length content) <= 50 * 1024 * 1024)%Z /\
     In (Ocr.file_ext filename) ["pdf"; "jpg"; "jpeg"; "png"; "bmp"; "tiff"] /\
     In document_type document_types) /\
  (forall text, exists inner,
     validation_fields
       (Validator.validate_document now content filename document_type text)
     = Ok inner /\
     meets_bounds "DocumentValidation" inner = true) /\
  (Ocr.calibrated array readtext image_to_data ->
   forall ocr_result validation_result fields,
     ocr content filename document_type = Ok ocr_result ->
     document_response_fields DocumentValidation processingTime
       filename document_type ocr_result validation_result = Ok fields ->
     meets_bounds "DocumentProcessingResponse" fields = true).
Proof.
  split; [| split; [| split]].
  - intros r. unfold process_document.
    destruct (_ <? _)%Z; [intros [= <-]; eexists; reflexivity |].
    destruct (negb _); [intros [= <-]; eexists; reflexivity |].
    destruct (lift _); [discriminate | intros [= <-]; eexists; reflexivity].
  - intros response. unfold process_document, max_file_size_mb.
    destruct (_ <? _)%Z eqn:Z; [discriminate |].
    destruct (negb _); [discriminate |].
    destruct (OcrSpec.process_supported page array preprocess easyocr_ready
                tesseract_ready readtext image_to_string image_to_data
                convert_from_bytes image_open ocr_time content filename
                document_type) as [S | S]; [| rewrite S; discriminate].
    destruct (ocr content filename document_type) as [o | e]; cbn [bind lift];
      [| discriminate].
    destruct (dict_item "text" o) as [text | e]; cbn [bind]; [| discriminate].
    unfold document_response_fields at 1, DocumentType.
    destruct (existsb (String.eqb document_type) document_types) eqn:D;
      cbn [bind]; [| discriminate].
    intros _. split; [lia |]. split; [exact S |].
    apply existsb_exists in D as (x & I & D).
    apply String.eqb_eq in D. now subst x.
  - intro text. apply validation_fields_bounds.
  - intros C o v fields O. unfold document_response_fields.
    destruct (OcrSpec.process_confidence page array preprocess easyocr_ready
                tesseract_ready readtext image_to_string image_to_data
                convert_from_bytes image_open ocr_time content filename
                document_type o C O) as (c & N & [L U]).
    destruct (DocumentType document_type); cbn [bind]; [| discriminate].
    destruct (dict_item "text" o); cbn [bind]; [| discriminate].
    unfold dict_item. unfold num_at in N.
    destruct (dict_get "confidence" o) as [cv |]; cbn [bind]; [| discriminate].
    destruct (validation_fields v); cbn [bind]; [| discriminate].
    destruct (DocumentValidation _); cbn [bind]; [| discriminate].
    intros [= <-].
    cbn [meets_bounds table_get declared_bounds String.eqb Ascii.eqb Bool.eqb
         forallb num_at dict_get fst snd].
    rewrite N. unfold within. cbn [fst snd].
    apply Qle_bool_iff in L, U. now rewrite L, U.
Qed.

End Endpoints.

End ApiSpec.
